(** * Deposit lifecycle and storage backends of the storage service

    A shallow embedding of
    - [storage_service/locations/models.py] (Space, LocalFilesystem, NFS,
      Location) and
    - [storage_service/locations/api/sword/views.py] (the SWORD handlers),
    followed by the properties the specification states about them.

    Python values are modelled as follows.  A [str] is a [string] (Python 2
    byte strings), a dict is a [gmap], a database table is the list of its
    rows, a filesystem path is the list of its segments (so that
    [os.path.join] is concatenation and [os.path.basename] the last
    segment).  Statements run in a state-and-exception monad over the
    [World]: the filesystem, the database tables, the mount table, the
    clock and the remote pipeline. *)

From Stdlib Require Import ZArith String List.
From stdpp Require Import base option list strings gmap fin_maps.

Local Open Scope Z_scope.
Local Open Scope string_scope.

(** ** Python exceptions and the statement monad *)

Module Py.

Inductive exn : Type :=
| NameError (name : string)
| KeyError (key : string)
| OSError (errno : Z)
| IOError (errno : Z)
| ShutilError
| AssertionError
| DoesNotExist
| MultipleObjectsReturned
| AttributeError
| ValueError
| URLError.

Inductive outcome (A : Type) : Type :=
| Return (a : A)
| Raise (e : exn).
Arguments Return {A} a.
Arguments Raise {A} e.

(** A statement: runs in a state [S], returns or raises, and leaves the
    state it reached (a raised exception does not roll anything back). *)
Definition py (S A : Type) : Type := S -> outcome A * S.

Definition ret {S A} (a : A) : py S A := fun s => (Return a, s).
Definition raise {S A} (e : exn) : py S A := fun s => (Raise e, s).
Definition bind {S A B} (m : py S A) (k : A -> py S B) : py S B :=
  fun s => match m s with
           | (Return a, s') => k a s'
           | (Raise e, s') => (Raise e, s')
           end.
Definition get {S} : py S S := fun s => (Return s, s).
Definition put {S} (s : S) : py S unit := fun _ => (Return tt, s).
Definition modify {S} (f : S -> S) : py S unit := fun s => (Return tt, f s).

(** [try: m  except: h] with a bare [except], which catches everything. *)
Definition try_except {S A} (m : py S A) (h : py S A) : py S A :=
  fun s => match m s with
           | (Return a, s') => (Return a, s')
           | (Raise _, s') => h s'
           end.

(** [for x in l: body], where the body updates the local variables [b]. *)
Fixpoint for_each {S A B} (l : list A) (body : A -> B -> py S B) (b : B) : py S B :=
  match l with
  | [] => ret b
  | x :: l' => bind (body x b) (for_each l' body)
  end.

End Py.

Import Py.

Declare Scope py_scope.
Delimit Scope py_scope with py.
Notation "x <- m ;; k" := (bind m (fun x => k))
  (at level 100, m at next level, right associativity) : py_scope.
Notation "m ;;; k" := (bind m (fun _ => k))
  (at level 100, right associativity) : py_scope.
Local Open Scope py_scope.

(** ** The filesystem *)

Module Fs.

(** A path is the list of its segments. *)
Abbreviation path := (list string).

Inductive node : Type :=
| File (data : string)
| Dir.

#[global] Instance node_eq_dec : EqDecision node.
Proof. solve_decision. Defined.

(** [strip p k] is [Some rest] when [k = p ++ rest]. *)
Fixpoint strip (p k : path) : option path :=
  match p, k with
  | [], _ => Some k
  | _ :: _, [] => None
  | a :: p', b :: k' => if decide (a = b) then strip p' k' else None
  end.

Definition below (p k : path) : bool := bool_decide (is_Some (strip p k)).

Definition join (a b : path) : path := a ++ b.

Definition basename (p : path) : string := default "" (last p).

Definition dirname (p : path) : path := removelast p.

(** The path as the string Python prints. *)
Definition render (p : path) : string :=
  foldr (fun seg acc => "/" ++ seg ++ acc) "" p.

End Fs.

Import Fs.

(** ** locations/models.py *)

(** [Space]: common storage space information. *)
Module Space.

Definition LOCAL_FILESYSTEM : string := "FS".
Definition NFS : string := "NFS".

Record t : Type := {
  uuid : string;
  access_protocol : string;
  size : option Z;
  used : Z;
  path : Fs.path;
  verified : bool;
  last_verified : option Z
}.

#[global] Instance eq_dec : EqDecision t.
Proof. solve_decision. Defined.

(** [self.space.verified = v; self.space.last_verified = now] *)
Definition set_verified (v : bool) (now : Z) (s : t) : t :=
  {| uuid := uuid s; access_protocol := access_protocol s; size := size s;
     used := used s; path := path s;
     verified := v; last_verified := Some now |}.

End Space.

(** Modelled from the spec: [Pipeline], a remote processing system with
    REST credentials (remote host, API username, API key).  The model class
    itself is not in models.py; the fields are the ones views.py reads. *)
Module Pipeline.

Record t : Type := {
  uuid : string;
  remote_name : string;
  api_username : string;
  api_key : string
}.

#[global] Instance eq_dec : EqDecision t.
Proof. solve_decision. Defined.

End Pipeline.

Module Location.

Definition TRANSFER_SOURCE : string := "TS".
Definition AIP_STORAGE : string := "AS".
Definition CURRENTLY_PROCESSING : string := "CP".
Definition SWORD_DEPOSIT : string := "SD".

(** The last four fields are the deposit fields that views.py reads and
    writes ([pipeline] is the key of [Location.objects.get(pipeline=...)]). *)
Record t : Type := {
  uuid : string;
  space : Space.t;
  purpose : string;
  relative_path : Fs.path;
  description : option string;
  quota : option Z;
  used : Z;
  disabled : bool;
  pipeline : option string;
  source : option string;
  ready_for_finalization : bool;
  deposit_completion_time : option Z
}.

#[global] Instance eq_dec : EqDecision t.
Proof. solve_decision. Defined.

(** [os.path.join(self.space.path, self.relative_path)] *)
Definition full_path (self : t) : Fs.path :=
  Fs.join (Space.path (space self)) (relative_path self).

Definition set_ready_for_finalization (b : bool) (d : t) : t :=
  {| uuid := uuid d; space := space d; purpose := purpose d;
     relative_path := relative_path d; description := description d;
     quota := quota d; used := used d; disabled := disabled d;
     pipeline := pipeline d; source := source d;
     ready_for_finalization := b;
     deposit_completion_time := deposit_completion_time d |}.

Definition set_deposit_completion_time (t0 : Z) (d : t) : t :=
  {| uuid := uuid d; space := space d; purpose := purpose d;
     relative_path := relative_path d; description := description d;
     quota := quota d; used := used d; disabled := disabled d;
     pipeline := pipeline d; source := source d;
     ready_for_finalization := ready_for_finalization d;
     deposit_completion_time := Some t0 |}.

End Location.

(** Modelled from the spec: [SwordServer], the record linking a
    SWORD-capable Space to its Pipeline. *)
Module SwordServer.

Record t : Type := {
  space : Space.t;
  pipeline : Pipeline.t
}.

End SwordServer.

(** Modelled from the spec: [LocationDownloadTask], one row per asynchronous
    batch download: owning deposit ([location], its uuid), attempted count,
    completed count, nullable completion time; [id] is the primary key that
    the first [save] assigns. *)
Module LocationDownloadTask.

Record t : Type := {
  id : nat;
  location : string;
  downloads_attempted : Z;
  downloads_completed : Z;
  download_completion_time : option Z
}.

#[global] Instance eq_dec : EqDecision t.
Proof. solve_decision. Defined.

End LocationDownloadTask.

Module File.

Record t : Type := {
  uuid : string;
  origin_location : Location.t;
  origin_path : Fs.path;
  current_location : Location.t;
  current_path : Fs.path;
  size : Z;
  package_type : string;
  uploaded : bool
}.

Definition full_path (self : t) : Fs.path :=
  Fs.join (Location.full_path (current_location self)) (current_path self).

Definition full_origin_path (self : t) : Fs.path :=
  Fs.join (Location.full_path (origin_location self)) (origin_path self).

End File.

(** ** The world the statements run in *)

(** A JSON value of the pipeline's answer. *)
Inductive jval : Type :=
| JBool (b : bool)
| JStr (s : string).

Record World : Type := {
  fs : gmap Fs.path Fs.node;            (* the filesystem *)
  mounts : list Fs.path;                (* the mount table *)
  clock : Z;                            (* what now() returns *)
  locations : list Location.t;          (* table of Location rows *)
  download_tasks : list LocationDownloadTask.t;
  sword_servers : list SwordServer.t;
  (* the remote pipeline: url, form data -> transport failure (None) or
     the decoded JSON object of the answer *)
  pipeline_api : string -> list (string * string) -> option (gmap string jval);
  requests_sent : list (string * list (string * string));
  (* batch downloads handed to a new process, not yet run *)
  spawned : list (string * list string)
}.

Definition with_fs (f : gmap Fs.path Fs.node) (w : World) : World :=
  {| fs := f; mounts := mounts w; clock := clock w; locations := locations w;
     download_tasks := download_tasks w; sword_servers := sword_servers w;
     pipeline_api := pipeline_api w; requests_sent := requests_sent w;
     spawned := spawned w |}.

Definition with_clock (c : Z) (w : World) : World :=
  {| fs := fs w; mounts := mounts w; clock := c; locations := locations w;
     download_tasks := download_tasks w; sword_servers := sword_servers w;
     pipeline_api := pipeline_api w; requests_sent := requests_sent w;
     spawned := spawned w |}.

Definition with_locations (l : list Location.t) (w : World) : World :=
  {| fs := fs w; mounts := mounts w; clock := clock w; locations := l;
     download_tasks := download_tasks w; sword_servers := sword_servers w;
     pipeline_api := pipeline_api w; requests_sent := requests_sent w;
     spawned := spawned w |}.

Definition with_download_tasks (l : list LocationDownloadTask.t) (w : World) : World :=
  {| fs := fs w; mounts := mounts w; clock := clock w; locations := locations w;
     download_tasks := l; sword_servers := sword_servers w;
     pipeline_api := pipeline_api w; requests_sent := requests_sent w;
     spawned := spawned w |}.

Definition with_requests_sent (l : list (string * list (string * string))) (w : World) : World :=
  {| fs := fs w; mounts := mounts w; clock := clock w; locations := locations w;
     download_tasks := download_tasks w; sword_servers := sword_servers w;
     pipeline_api := pipeline_api w; requests_sent := l;
     spawned := spawned w |}.

Definition with_spawned (l : list (string * list string)) (w : World) : World :=
  {| fs := fs w; mounts := mounts w; clock := clock w; locations := locations w;
     download_tasks := download_tasks w; sword_servers := sword_servers w;
     pipeline_api := pipeline_api w; requests_sent := requests_sent w;
     spawned := l |}.

(** ** The platform: os, os.path, shutil, tempfile *)

Module Os.

Abbreviation tree := (gmap Fs.path Fs.node).

Definition EEXIST : Z := 17.
Definition ENOENT : Z := 2.
Definition ENOTDIR : Z := 20.
Definition EISDIR : Z := 21.

Definition path_exists (p : Fs.path) (f : tree) : bool :=
  bool_decide (is_Some (f !! p)).

Definition path_isdir (p : Fs.path) (f : tree) : bool :=
  bool_decide (f !! p = Some Fs.Dir).

Definition path_isfile (p : Fs.path) (f : tree) : bool :=
  match f !! p with
  | Some (Fs.File _) => true
  | _ => false
  end.

(** [os.path.ismount]: membership in the mount table. *)
Definition path_ismount (p : Fs.path) (w : World) : bool :=
  bool_decide (p ∈ mounts w).

(** The names directly under [p]. *)
Definition children (p : Fs.path) (f : tree) : list string :=
  omap (fun kv : Fs.path * Fs.node =>
          match Fs.strip p kv.1 with
          | Some [name] => Some name
          | _ => None
          end) (map_to_list f).

Definition listdir (p : Fs.path) : py World (list string) := fun w =>
  match fs w !! p with
  | Some Fs.Dir => (Return (children p (fs w)), w)
  | Some (Fs.File _) => (Raise (OSError ENOTDIR), w)
  | None => (Raise (OSError ENOENT), w)
  end.

Definition remove (p : Fs.path) : py World unit := fun w =>
  match fs w !! p with
  | Some (Fs.File _) => (Return tt, with_fs (delete p (fs w)) w)
  | Some Fs.Dir => (Raise (OSError EISDIR), w)
  | None => (Raise (OSError ENOENT), w)
  end.

(** [prune p f]: [f] without [p] and everything below it. *)
Definition prune (p : Fs.path) (f : tree) : tree :=
  filter (fun kv : Fs.path * Fs.node => Fs.strip p kv.1 = None) f.

(** The proper, non-empty prefixes of a path, shortest first. *)
Fixpoint ancestors (p : Fs.path) : list Fs.path :=
  match p with
  | [] => []
  | [_] => []
  | a :: p' => [a] :: map (cons a) (ancestors p')
  end.

Definition mkdir_if_missing (f : tree) (p : Fs.path) : tree :=
  match f !! p with
  | Some _ => f
  | None => <[p := Fs.Dir]> f
  end.

(** [os.makedirs(p)]: creates the missing ancestors, then the leaf;
    EEXIST when the leaf is there already, ENOTDIR when an ancestor is a
    regular file. *)
Definition makedirs (p : Fs.path) : py World unit := fun w =>
  if existsb (fun a => path_isfile a (fs w)) (ancestors p)
  then (Raise (OSError ENOTDIR), w)
  else if path_exists p (fs w)
  then (Raise (OSError EEXIST), w)
  else (Return tt,
        with_fs (<[p := Fs.Dir]> (foldl mkdir_if_missing (fs w) (ancestors p))) w).

End Os.

Module Shutil.

Import Os.

(** Where [k] ends up when [src] is renamed to [dst]. *)
Definition rekey (src dst k : Fs.path) : Fs.path :=
  match Fs.strip src k with
  | Some rest => dst ++ rest
  | None => k
  end.

Definition rename_tree (src dst : Fs.path) (f : tree) : tree :=
  list_to_map (prod_map (rekey src dst) id <$> map_to_list f).

(** [shutil.rmtree(p)] *)
Definition rmtree (p : Fs.path) : py World unit := fun w =>
  match fs w !! p with
  | Some Fs.Dir => (Return tt, with_fs (prune p (fs w)) w)
  | Some (Fs.File _) => (Raise (OSError ENOTDIR), w)
  | None => (Raise (OSError ENOENT), w)
  end.

(** [shutil.copyfile(src, dst)]; the directory of [dst] is taken to
    exist. *)
Definition copyfile (src dst : Fs.path) : py World unit := fun w =>
  if bool_decide (src = dst) && path_exists src (fs w)
  then (Raise ShutilError, w)
  else match fs w !! src with
       | Some (Fs.File data) =>
           if path_isdir dst (fs w) then (Raise (IOError EISDIR), w)
           else (Return tt, with_fs (<[dst := Fs.File data]> (fs w)) w)
       | Some Fs.Dir => (Raise (IOError EISDIR), w)
       | None => (Raise (IOError ENOENT), w)
       end.

(** [shutil.move(src, dst)]: into [dst] when [dst] is a directory, a
    rename of the whole subtree otherwise; the directory of the destination
    is taken to exist. *)
Definition move (src dst : Fs.path) : py World unit := fun w =>
  let real_dst :=
    if path_isdir dst (fs w) then Fs.join dst [Fs.basename src] else dst in
  if path_isdir dst (fs w) && path_exists real_dst (fs w)
  then (Raise ShutilError, w)
  else match fs w !! src with
       | None => (Raise (IOError ENOENT), w)
       | Some (Fs.File data) =>
           (Return tt, with_fs (<[real_dst := Fs.File data]> (delete src (fs w))) w)
       | Some Fs.Dir =>
           if Fs.below src real_dst then (Raise ShutilError, w)
           else if path_exists real_dst (fs w) then (Raise (OSError EEXIST), w)
           else (Return tt, with_fs (rename_tree src real_dst (fs w)) w)
       end.

End Shutil.

(** ** The storage backends (models.py) *)

Module LocalFilesystem.

Record t : Type := { space : Space.t }.

(** [verify]: the space is verified when its path is a directory. *)
Definition verify (self : t) : py World t :=
  w <- get ;;
  let verified := Os.path_isdir (Space.path (space self)) (fs w) in
  ret {| space := Space.set_verified verified (clock w) (space self) |}.

Section StoreAip.

(** [utils.uuid_to_path] and the rsync subprocess (its exit status, or the
    exception of a program that cannot be started). *)
Variable uuid_to_path : string -> Fs.path.
Variable rsync : Fs.path -> Fs.path -> py World Z.

(** [store_aip] returns None ([None]) or -1 ([Some (-1)]). *)
Definition store_aip (self : t) (aip_file : File.t) : py World (option Z) :=
  fun w =>
  if negb (bool_decide (Space.uuid (space self)
             = Space.uuid (Location.space (File.current_location aip_file))))
  then (Raise AssertionError, w)
  else
    let source := File.full_origin_path aip_file in
    let path := uuid_to_path (File.uuid aip_file) in
    let destination :=
      Fs.join (Fs.join (Location.full_path (File.current_location aip_file)) path)
              (File.current_path aip_file) in
    let copy : py World (option Z) := fun w1 =>
      match rsync source destination w1 with
      | (Return _, w2) => (Return None, w2)
        (* [except CalledProcessError]: the name is not bound in models.py *)
      | (Raise _, w2) => (Raise (NameError "CalledProcessError"), w2)
      end in
    match Os.makedirs (Fs.dirname destination) w with
    | (Return _, w1) => copy w1
    | (Raise (OSError errno), w1) =>
        if bool_decide (errno ≠ 17) then (Return (Some (-1)), w1) else copy w1
    | (Raise e, w1) => (Raise e, w1)
    end.

End StoreAip.

End LocalFilesystem.

Module NFS.

Record t : Type := {
  space : Space.t;
  remote_name : string;
  remote_path : string;
  version : string;
  manually_mounted : bool
}.

Definition with_space (s : Space.t) (self : t) : t :=
  {| space := s; remote_name := remote_name self;
     remote_path := remote_path self; version := version self;
     manually_mounted := manually_mounted self |}.

(** [verify]: only a manually mounted space is probed. *)
Definition verify (self : t) : py World t :=
  w <- get ;;
  if manually_mounted self then
    let verified := Os.path_ismount (Space.path (space self)) w in
    ret (with_space (Space.set_verified verified (clock w) (space self)) self)
  else ret self.

Section StoreAip.

Variable uuid_to_path : string -> Fs.path.
Variable rsync : Fs.path -> Fs.path -> py World Z.

Definition store_aip (self : t) (aip_file : File.t) : py World (option Z) :=
  fun w =>
  if negb (bool_decide (Space.uuid (space self)
             = Space.uuid (Location.space (File.current_location aip_file))))
  then (Raise AssertionError, w)
  else
    let source := File.full_origin_path aip_file in
    let path := uuid_to_path (File.uuid aip_file) in
    let destination :=
      Fs.join (Fs.join (Location.full_path (File.current_location aip_file)) path)
              (File.current_path aip_file) in
    let copy : py World (option Z) := fun w1 =>
      match rsync source destination w1 with
      | (Return _, w2) => (Return None, w2)
      | (Raise _, w2) => (Raise (NameError "CalledProcessError"), w2)
      end in
    match Os.makedirs (Fs.dirname destination) w with
    | (Return _, w1) => copy w1
    | (Raise (OSError errno), w1) =>
        if bool_decide (errno ≠ 17) then (Return (Some (-1)), w1) else copy w1
    | (Raise e, w1) => (Raise e, w1)
    end.

End StoreAip.

End NFS.

(** ** HTTP requests and responses *)

Module Http.

Record HttpRequest : Type := {
  method : string;
  META : gmap string string;
  GET : gmap string string;
  body : string
}.

(** What a response carries: the context handed to the template. *)
Inductive document : Type :=
| ErrorDocument (summary : string) (status : Z) (update_time : Z) (user_agent : string)
| DepositReceipt (deposit_uuid : string)
| Entry (title : option string) (deposit_uuid : string)
| Listing (names : list string)
| NoContent.

Record HttpResponse : Type := {
  status_code : Z;
  content : document;
  headers : list (string * string)
}.

Definition response (status : Z) : HttpResponse :=
  {| status_code := status; content := NoContent; headers := [] |}.

End Http.

Import Http.

(** ** Database access (the Django ORM calls views.py makes) *)

Module Db.

(** [deposit.save()]: update the row with this uuid, insert when there is
    none. *)
Definition save_location (d : Location.t) : py World unit :=
  modify (fun w =>
    if existsb (fun r => (Location.uuid r =? Location.uuid d)%string) (locations w)
    then with_locations
           (map (fun r => if (Location.uuid r =? Location.uuid d)%string then d else r)
                (locations w)) w
    else with_locations (locations w ++ [d]) w).

(** [deposit.delete()]: the row goes, and the download tasks that point
    to it go with it. *)
Definition delete_location (d : Location.t) : py World unit :=
  modify (fun w =>
    with_download_tasks
      (filter (fun t => LocationDownloadTask.location t ≠ Location.uuid d)
              (download_tasks w))
      (with_locations
         (filter (fun r => Location.uuid r ≠ Location.uuid d) (locations w)) w)).

(** [LocationDownloadTask.objects.filter(location=deposit)] *)
Definition tasks_of (deposit : option Location.t) : py World (list LocationDownloadTask.t) :=
  w <- get ;;
  match deposit with
  | Some d =>
      ret (filter (fun t => LocationDownloadTask.location t = Location.uuid d)
                  (download_tasks w))
  | None => ret []
  end.

Definition fresh_id (l : list LocationDownloadTask.t) : nat :=
  S (foldr Nat.max 0%nat (map LocationDownloadTask.id l)).

(** The first [task.save()]: insert, the database assigns the key. *)
Definition insert_task (location : string) (attempted completed : Z)
  : py World LocationDownloadTask.t :=
  w <- get ;;
  let task := {| LocationDownloadTask.id := fresh_id (download_tasks w);
                 LocationDownloadTask.location := location;
                 LocationDownloadTask.downloads_attempted := attempted;
                 LocationDownloadTask.downloads_completed := completed;
                 LocationDownloadTask.download_completion_time := None |} in
  put (with_download_tasks (download_tasks w ++ [task]) w) ;;;
  ret task.

(** A later [task.save()]: update the row with this key. *)
Definition update_task (task : LocationDownloadTask.t) : py World unit :=
  modify (fun w =>
    with_download_tasks
      (map (fun r => if bool_decide (LocationDownloadTask.id r = LocationDownloadTask.id task)
                     then task else r) (download_tasks w)) w).

(** [Model.objects.get(...)] on the rows that match. *)
Definition get_one {A} (rows : list A) : py World A :=
  match rows with
  | [x] => ret x
  | [] => raise DoesNotExist
  | _ => raise MultipleObjectsReturned
  end.

(** [SwordServer.objects.get(space=space)] *)
Definition get_sword_server (space : Space.t) : py World SwordServer.t :=
  w <- get ;;
  get_one (filter (fun s => Space.uuid (SwordServer.space s) = Space.uuid space)
                  (sword_servers w)).

(** [Location.objects.get(pipeline=pipeline, purpose=purpose)] *)
Definition get_location_of_pipeline (pipeline : Pipeline.t) (purpose : string)
  : py World Location.t :=
  w <- get ;;
  get_one (filter (fun l => Location.pipeline l = Some (Pipeline.uuid pipeline)
                            ∧ Location.purpose l = purpose)
                  (locations w)).

End Db.

(** ** helpers.py, as far as views.py relies on it *)

Module Helpers.

(** Modelled from the spec: [helpers.get_deposit], the deposit Location
    (purpose sword-deposit) with this identifier, None when there is none. *)
Definition get_deposit (uuid : string) : py World (option Location.t) :=
  w <- get ;;
  ret (List.find (fun l => (Location.uuid l =? uuid)%string
                           && (Location.purpose l =? Location.SWORD_DEPOSIT)%string)
                 (locations w)).

Section Temp.

(** The name [tempfile] picks. *)
Variable mkstemp : World -> Fs.path.

(** Modelled from the spec: [helpers.write_request_body_to_temp_file], the
    received bytes written to a temporary payload, whose path is returned. *)
Definition write_request_body_to_temp_file (request : HttpRequest) : py World Fs.path :=
  w <- get ;;
  let temp_filepath := mkstemp w in
  put (with_fs (<[temp_filepath := Fs.File (body request)]> (fs w)) w) ;;;
  ret temp_filepath.

End Temp.

Section Digest.

Variable md5 : string -> string.

(** Modelled from the spec: [helpers.get_file_md5_checksum], a freshly
    computed digest of the bytes of the file. *)
Definition get_file_md5_checksum (filepath : Fs.path) : py World string :=
  w <- get ;;
  match fs w !! filepath with
  | Some (Fs.File data) => ret (md5 data)
  | Some Fs.Dir => raise (IOError Os.EISDIR)
  | None => raise (IOError Os.ENOENT)
  end.

End Digest.

End Helpers.

(** ** locations/api/sword/views.py *)

Module Sword.

Record mets : Type := {
  deposit_name : option string;
  object_content_urls : list string
}.

Section Views.

(** What views.py takes from elsewhere: the per-task status method of
    LocationDownloadTask, the submitted-for-processing test of a deposit,
    the collision padding of helpers.py, the names tempfile picks, the MD5
    digest, the Content-Disposition and XML parsers, and the downloader. *)
Variable downloading_status : LocationDownloadTask.t -> string.
Variable has_been_submitted_for_processing : Location.t -> World -> bool.
Variable pad_destination_filepath_if_it_already_exists : Fs.path -> World -> Fs.path.
Variable mkstemp : World -> Fs.path.
Variable mkdtemp : World -> Fs.path.
Variable md5 : string -> string.
Variable parse_filename_from_content_disposition : string -> string.
Variable etree_parse : string -> option mets.
Variable download_resource : string -> Fs.path -> py World string.

Definition _error (status : Z) (summary : string) : string * Z := (summary, status).

Definition _sword_error_response_render (request : HttpRequest)
    (error_details : string * Z) : py World HttpResponse :=
  w <- get ;;
  let update_time := clock w in
  match META request !! "HTTP_USER_AGENT" with
  | None => raise (KeyError "HTTP_USER_AGENT")
  | Some user_agent =>
      ret {| status_code := error_details.2;
             content := ErrorDocument error_details.1 error_details.2
                          update_time user_agent;
             headers := [] |}
  end.

Definition _sword_error_response (request : HttpRequest) (status : Z)
    (summary : string) : py World HttpResponse :=
  let error := _error status summary in
  _sword_error_response_render request error.

Definition _deposit_receipt_response (request : HttpRequest)
    (deposit_uuid : string) (status_code : Z) : py World HttpResponse :=
  deposit <- Helpers.get_deposit deposit_uuid ;;
  ret {| Http.status_code := status_code;
         content := DepositReceipt deposit_uuid;
         headers := [("Location", "/api/v1/location/" ++ deposit_uuid ++ "/sword/")] |}.

Definition deposit_downloading_status (deposit_uuid : string) : py World string :=
  deposit <- Helpers.get_deposit deposit_uuid ;;
  tasks <- Db.tasks_of deposit ;;
  if (0 <? length tasks)%nat then
    flags <- for_each tasks
      (fun task (flags : bool * bool) =>
         let '(complete, failed) := flags in
         if negb (downloading_status task =? "complete")%string then
           let complete := false in
           if (downloading_status task =? "failed")%string
           then ret (complete, true)
           else ret (complete, failed)
         else ret (complete, failed))
      (true, false) ;;
    let '(complete, failed) := flags in
    if failed then ret "failed"
    else if complete then ret "complete"
    else ret "incomplete"
  else ret "complete".

Definition spawn_download_task (deposit_uuid : string)
    (object_content_urls : list string) : py World unit :=
  modify (fun w => with_spawned (spawned w ++ [(deposit_uuid, object_content_urls)]) w).

Definition getattr (pipeline : Pipeline.t) (property : string) : string :=
  if (property =? "remote_name")%string then Pipeline.remote_name pipeline
  else if (property =? "api_username")%string then Pipeline.api_username pipeline
  else Pipeline.api_key pipeline.

(** [urllib2.urlopen] on the approval request, and the JSON it answers. *)
Definition urlopen (url : string) (data : list (string * string))
  : py World (gmap string jval) :=
  w <- get ;;
  put (with_requests_sent (requests_sent w ++ [(url, data)]) w) ;;;
  match pipeline_api w url data with
  | Some answer => ret answer
  | None => raise URLError
  end.

Definition sleep (seconds : Z) : py World unit :=
  modify (fun w => with_clock (clock w + seconds) w).

Definition _activate_transfer_and_request_approval_from_pipeline
    (deposit : Location.t) (sword_server : SwordServer.t)
  : py World (gmap string jval) :=
  if existsb (fun property =>
                (getattr (SwordServer.pipeline sword_server) property =? "")%string)
             ["remote_name"; "api_username"; "api_key"]
  then (* [request] is not bound in this function *)
    raise (NameError "request")
  else
    processing_location <-
      Db.get_location_of_pipeline (SwordServer.pipeline sword_server)
        Location.CURRENTLY_PROCESSING ;;
    let destination_path :=
      Fs.join (Fs.join (Location.full_path processing_location)
                 ["watchedDirectories"; "activeTransfers"; "standardTransfer"])
              [Fs.basename (Location.full_path deposit)] in
    w <- get ;;
    let destination_path :=
      pad_destination_filepath_if_it_already_exists destination_path w in
    Shutil.move (Location.full_path deposit) destination_path ;;;
    sleep 4 ;;;
    let data :=
      [("username", Pipeline.api_username (SwordServer.pipeline sword_server));
       ("api_key", Pipeline.api_key (SwordServer.pipeline sword_server));
       ("directory", Fs.basename destination_path);
       ("type", "standard")] in
    let pipeline_endpoint_url :=
      "http://" ++ Pipeline.remote_name (SwordServer.pipeline sword_server)
        ++ "/api/transfer/approve/" in
    fun w1 =>
      match urlopen pipeline_endpoint_url data w1 with
      | (Return result, w2) => (Return result, w2)
      | (Raise _, w2) =>
          (Shutil.move destination_path (Location.full_path deposit) ;;;
           ret ({[ "error" := JBool true;
                   "message" := JStr ("Request to pipeline "
                      ++ Pipeline.uuid (SwordServer.pipeline sword_server)
                      ++ " transfer approval API failed: check credentials and REST API IP whitelist.") ]}
                : gmap string jval)) w2
      end.

Definition _finalize_if_not_empty (deposit_uuid : string) : py World bool :=
  deposit <- Helpers.get_deposit deposit_uuid ;;
  match deposit with
  | None => raise AttributeError
  | Some deposit =>
      names <- Os.listdir (Location.full_path deposit) ;;
      if (0 <? length names)%nat then
        sword_server <- Db.get_sword_server (Location.space deposit) ;;
        result <- _activate_transfer_and_request_approval_from_pipeline
                    deposit sword_server ;;
        if bool_decide (is_Some (result !! "error"))
        then (* [request] is not bound in this function *)
          raise (NameError "request")
        else
          w <- get ;;
          Db.save_location (Location.set_deposit_completion_time (clock w) deposit) ;;;
          ret true
      else ret false
  end.

Definition in_progress_is_false (request : HttpRequest) : bool :=
  match META request !! "HTTP_IN_PROGRESS" with
  | Some v => (v =? "false")%string
  | None => false
  end.

Definition _finalize_or_mark_for_finalization (request : HttpRequest)
    (deposit_uuid : string) : py World HttpResponse :=
  if in_progress_is_false request then
    status <- deposit_downloading_status deposit_uuid ;;
    if (status =? "complete")%string then
      completed <- _finalize_if_not_empty deposit_uuid ;;
      if (completed : bool)
      then _deposit_receipt_response request deposit_uuid 200
      else _sword_error_response request 400 "This deposit contains no files."
    else
      deposit <- Helpers.get_deposit deposit_uuid ;;
      match deposit with
      | None => raise AttributeError
      | Some deposit =>
          Db.save_location (Location.set_ready_for_finalization true deposit) ;;;
          (* [uuid] is not bound in this function *)
          raise (NameError "uuid")
      end
  else
    _sword_error_response request 400
      "The In-Progress header must be set to false when starting deposit processing.".

(** Returns None when the body does not parse; the temporary file stays. *)
Definition _parse_name_and_content_urls_from_request_body (request : HttpRequest)
  : py World (option mets) :=
  temp_filepath <- Helpers.write_request_body_to_temp_file mkstemp request ;;
  w <- get ;;
  match fs w !! temp_filepath with
  | Some (Fs.File data) => ret (etree_parse data)
  | Some Fs.Dir => raise (IOError Os.EISDIR)
  | None => raise (IOError Os.ENOENT)
  end.

Definition _spawn_batch_download_and_flag_finalization_if_requested
    (deposit_uuid : string) (request : HttpRequest) (mets_data : mets)
  : py World unit :=
  match META request !! "HTTP_IN_PROGRESS" with
  | None => raise (KeyError "HTTP_IN_PROGRESS")
  | Some in_progress =>
      (if (in_progress =? "false")%string then
         deposit <- Helpers.get_deposit deposit_uuid ;;
         match deposit with
         | None => raise AttributeError
         | Some deposit =>
             Db.save_location (Location.set_ready_for_finalization true deposit)
         end
       else ret tt) ;;;
      spawn_download_task deposit_uuid (object_content_urls mets_data)
  end.

Definition deposit_edit (request : HttpRequest) (uuid : string)
  : py World HttpResponse :=
  deposit <- Helpers.get_deposit uuid ;;
  match deposit with
  | None =>
      _sword_error_response request 404
        ("Deposit location " ++ uuid ++ " does not exist.")
  | Some deposit =>
      w <- get ;;
      if has_been_submitted_for_processing deposit w then
        _sword_error_response request 400
          "This deposit has already been submitted for processing."
      else if (method request =? "GET")%string then
        deposit <- Helpers.get_deposit uuid ;;
        match deposit with
        | None => raise AttributeError
        | Some deposit =>
            ret {| status_code := 200;
                   content := Entry (Location.description deposit) (Location.uuid deposit);
                   headers := [("Content-Type", "application/atom+xml")] |}
        end
      else if (method request =? "POST")%string then
        if negb (body request =? "")%string then
          mets_data <- _parse_name_and_content_urls_from_request_body request ;;
          match mets_data with
          | Some mets_data =>
              _spawn_batch_download_and_flag_finalization_if_requested
                uuid request mets_data ;;;
              _deposit_receipt_response request uuid 200
          | None => (* [e] is not bound in this function *)
              raise (NameError "e")
          end
        else if in_progress_is_false request then
          _finalize_or_mark_for_finalization request uuid
        else _deposit_receipt_response request uuid 200
      else if (method request =? "PUT")%string then
        ret (response 204)
      else if (method request =? "DELETE")%string then
        Shutil.rmtree (Location.full_path deposit) ;;;
        deposit <- Helpers.get_deposit uuid ;;
        match deposit with
        | None => raise AttributeError
        | Some deposit => Db.delete_location deposit ;;; ret (response 204)
        end
      else
        _sword_error_response request 405
          "This endpoint only responds to the GET, POST, PUT, and DELETE HTTP methods."
  end.

Definition _handle_upload_request_with_potential_md5_checksum
    (request : HttpRequest) (file_path : Fs.path) (success_status_code : Z)
  : py World HttpResponse :=
  temp_filepath <- Helpers.write_request_body_to_temp_file mkstemp request ;;
  match META request !! "HTTP_CONTENT_MD5" with
  | Some header_md5sum =>
      md5sum <- Helpers.get_file_md5_checksum md5 temp_filepath ;;
      if negb (header_md5sum =? md5sum)%string then
        Os.remove temp_filepath ;;;
        (* only the second literal is formatted *)
        _sword_error_response request 400
          ("MD5 checksum of uploaded file ({uploaded_md5sum}) does not match "
             ++ "checksum provided in header (" ++ header_md5sum ++ ").")
      else
        Shutil.copyfile temp_filepath file_path ;;;
        Os.remove temp_filepath ;;;
        ret (response success_status_code)
  | None =>
      Shutil.copyfile temp_filepath file_path ;;;
      Os.remove temp_filepath ;;;
      ret (response success_status_code)
  end.

Definition _handle_upload_request (request : HttpRequest) (deposit : Location.t)
    (replace_file : bool) : py World HttpResponse :=
  match META request !! "HTTP_CONTENT_DISPOSITION" with
  | Some disposition =>
      let filename := parse_filename_from_content_disposition disposition in
      if negb (filename =? "")%string then
        let file_path := Fs.join (Location.full_path deposit) [filename] in
        w <- get ;;
        if replace_file then
          if Os.path_exists file_path (fs w) then
            _handle_upload_request_with_potential_md5_checksum request file_path 204
          else _sword_error_response request 400 "File does not exist."
        else
          if Os.path_exists file_path (fs w) then
            _sword_error_response request 400 "File already exists."
          else
            _handle_upload_request_with_potential_md5_checksum request file_path 201
      else
        _sword_error_response request 400
          "No filename found in Content-disposition header."
  | None =>
      _sword_error_response request 400
        "Content-disposition must be set in request header."
  end.

Definition deposit_media (request : HttpRequest) (uuid : string)
  : py World HttpResponse :=
  deposit <- Helpers.get_deposit uuid ;;
  match deposit with
  | None =>
      _sword_error_response request 404
        ("Deposit location " ++ uuid ++ " does not exist.")
  | Some deposit =>
      w <- get ;;
      if has_been_submitted_for_processing deposit w then
        _sword_error_response request 400
          "This deposit has already been submitted for processing."
      else if (method request =? "GET")%string then
        names <- Os.listdir (Location.full_path deposit) ;;
        ret {| status_code := 200; content := Listing names; headers := [] |}
      else if (method request =? "PUT")%string then
        _handle_upload_request request deposit true
      else if (method request =? "POST")%string then
        _handle_upload_request request deposit false
      else if (method request =? "DELETE")%string then
        let filename := default "" (GET request !! "filename") in
        if negb (filename =? "")%string then
          let file_path := Fs.join (Location.full_path deposit) [filename] in
          w <- get ;;
          if Os.path_exists file_path (fs w) then
            Os.remove file_path ;;; ret (response 204)
          else
            _sword_error_response request 404
              ("The path to this file (" ++ Fs.render file_path ++ ") does not exist.")
        else
          names <- Os.listdir (Location.full_path deposit) ;;
          for_each names
            (fun filename (_ : unit) =>
               let filepath := Fs.join (Location.full_path deposit) [filename] in
               w <- get ;;
               if Os.path_isfile filepath (fs w) then Os.remove filepath
               else if Os.path_isdir filepath (fs w) then Shutil.rmtree filepath
               else ret tt) tt ;;;
          ret (response 204)
      else
        _sword_error_response request 405
          "This endpoint only responds to the GET, POST, PUT, and DELETE HTTP methods."
  end.

(** The batch download a spawned process runs. *)
Definition _fetch_content (deposit_uuid : string)
    (object_content_urls : list string) : py World unit :=
  deposit <- Helpers.get_deposit deposit_uuid ;;
  match deposit with
  | None => raise ValueError
  | Some deposit =>
      task <- Db.insert_task (Location.uuid deposit)
                (Z.of_nat (length object_content_urls)) 0 ;;
      w <- get ;;
      let temp_dir := mkdtemp w in
      put (with_fs (<[temp_dir := Fs.Dir]> (fs w)) w) ;;;
      completed <- for_each object_content_urls
        (fun url (completed : Z) =>
           try_except
             (filename <- download_resource url temp_dir ;;
              Shutil.move (Fs.join temp_dir [filename])
                          (Fs.join (Location.full_path deposit) [filename]) ;;;
              ret (completed + 1))
             (ret completed)) 0 ;;
      Shutil.rmtree temp_dir ;;;
      w <- get ;;
      Db.update_task
        {| LocationDownloadTask.id := LocationDownloadTask.id task;
           LocationDownloadTask.location := LocationDownloadTask.location task;
           LocationDownloadTask.downloads_attempted :=
             LocationDownloadTask.downloads_attempted task;
           LocationDownloadTask.downloads_completed := completed;
           LocationDownloadTask.download_completion_time := Some (clock w) |} ;;;
      if Location.ready_for_finalization deposit then
        status <- deposit_downloading_status deposit_uuid ;;
        if (status =? "complete")%string
        then _finalize_if_not_empty deposit_uuid ;;; ret tt
        else ret tt
      else ret tt
  end.

End Views.

End Sword.

(** ** The two backends as one type *)

Module Backend.

Inductive t : Type :=
| Local (b : LocalFilesystem.t)
| Nfs (b : NFS.t).

Definition space (b : t) : Space.t :=
  match b with
  | Local b => LocalFilesystem.space b
  | Nfs b => NFS.space b
  end.

Definition verify (b : t) : py World t :=
  match b with
  | Local b => b' <- LocalFilesystem.verify b ;; ret (Local b')
  | Nfs b => b' <- NFS.verify b ;; ret (Nfs b')
  end.

(** The backend is one whose [verify] probes the platform. *)
Definition probed (b : t) : bool :=
  match b with
  | Local _ => true
  | Nfs b => NFS.manually_mounted b
  end.

(** The root path of the space is a directory, respectively a mount point. *)
Definition reachable (b : t) (w : World) : bool :=
  match b with
  | Local b => Os.path_isdir (Space.path (LocalFilesystem.space b)) (fs w)
  | Nfs b => Os.path_ismount (Space.path (NFS.space b)) w
  end.

End Backend.

(** ** The aggregate downloading status, in the words of the specification *)

Section AggregateStatus.

Variable downloading_status : LocationDownloadTask.t -> string.

(** complete when there are no tasks or every task is complete; failed when
    at least one task is failed; incomplete otherwise. *)
Definition aggregate_status (tasks : list LocationDownloadTask.t) : string :=
  if bool_decide (tasks = [] ∨ Forall (fun t => downloading_status t = "complete") tasks)
  then "complete"
  else if bool_decide (Exists (fun t => downloading_status t = "failed") tasks)
  then "failed"
  else "incomplete".

End AggregateStatus.

(** ** Source and destination of [store_aip] *)

Section AipPaths.

Variable uuid_to_path : string -> Fs.path.

Definition aip_source (aip_file : File.t) : Fs.path :=
  File.full_origin_path aip_file.

(** destination_location/uuid/split/into/chunks/destination_path *)
Definition aip_destination (aip_file : File.t) : Fs.path :=
  Fs.join (Fs.join (Location.full_path (File.current_location aip_file))
             (uuid_to_path (File.uuid aip_file)))
          (File.current_path aip_file).

End AipPaths.

(** ** Filesystem predicates used in the statements *)

(** Nothing is stored at [p] or below it. *)
Definition nothing_at (p : Fs.path) (f : gmap Fs.path Fs.node) : bool :=
  forallb (fun kv : Fs.path * Fs.node => bool_decide (Fs.strip p kv.1 = None))
          (map_to_list f).

(** ** The pieces of the approval request, named for the statements *)

(** Where the deposit directory goes, before collision padding. *)
Definition transfer_destination (deposit processing_location : Location.t) : Fs.path :=
  Fs.join (Fs.join (Location.full_path processing_location)
             ["watchedDirectories"; "activeTransfers"; "standardTransfer"])
          [Fs.basename (Location.full_path deposit)].

Definition approval_url (pipeline : Pipeline.t) : string :=
  "http://" ++ Pipeline.remote_name pipeline ++ "/api/transfer/approve/".

Definition approval_data (pipeline : Pipeline.t) (destination_path : Fs.path)
  : list (string * string) :=
  [("username", Pipeline.api_username pipeline);
   ("api_key", Pipeline.api_key pipeline);
   ("directory", Fs.basename destination_path);
   ("type", "standard")].

(** The pipeline has its remote name, API username and API key set. *)
Definition configured (pipeline : Pipeline.t) : bool :=
  negb (Pipeline.remote_name pipeline =? "")%string
  && negb (Pipeline.api_username pipeline =? "")%string
  && negb (Pipeline.api_key pipeline =? "")%string.

(** ** Batch downloads as concurrent processes *)

(** [spawn_download_task] starts [_fetch_content] in a process of its own.
    Processes share the filesystem, the database and the pipeline, and
    nothing orders their statements with respect to each other.  A worker
    is [_fetch_content] cut at its statements: each step below is one
    statement (or one run of statements) executed without interruption, and
    a schedule picks which worker moves next. *)

Module Race.

Section Workers.

Variable downloading_status : LocationDownloadTask.t -> string.
Variable pad_destination_filepath_if_it_already_exists : Fs.path -> World -> Fs.path.
Variable mkdtemp : World -> Fs.path.
Variable download_resource : string -> Fs.path -> py World string.

(** Where a worker stands. *)
Inductive pc : Type :=
| AtStart (deposit_uuid : string) (object_content_urls : list string)
| AtRecord (deposit_uuid : string) (deposit : Location.t)
    (task : LocationDownloadTask.t) (completed : Z)
| AtCheck (deposit_uuid : string) (deposit : Location.t)
| AtFinalize (deposit_uuid : string)
| AtActivate (deposit : Location.t)
| AtStamp (deposit : Location.t) (result : gmap string jval)
| Finished
| Crashed (e : exn).

(** Lines 75-95: register the task, download, remove the scratch
    directory. *)
Definition start (deposit_uuid : string) (object_content_urls : list string)
  : py World pc :=
  deposit <- Helpers.get_deposit deposit_uuid ;;
  match deposit with
  | None => raise ValueError
  | Some deposit =>
      task <- Db.insert_task (Location.uuid deposit)
                (Z.of_nat (length object_content_urls)) 0 ;;
      w <- get ;;
      let temp_dir := mkdtemp w in
      put (with_fs (<[temp_dir := Fs.Dir]> (fs w)) w) ;;;
      completed <- for_each object_content_urls
        (fun url (completed : Z) =>
           try_except
             (filename <- download_resource url temp_dir ;;
              Shutil.move (Fs.join temp_dir [filename])
                          (Fs.join (Location.full_path deposit) [filename]) ;;;
              ret (completed + 1))
             (ret completed)) 0 ;;
      Shutil.rmtree temp_dir ;;;
      ret (AtRecord deposit_uuid deposit task completed)
  end.

(** Lines 98-100: record the number of downloads and the completion time. *)
Definition record (deposit_uuid : string) (deposit : Location.t)
    (task : LocationDownloadTask.t) (completed : Z) : py World pc :=
  w <- get ;;
  Db.update_task
    {| LocationDownloadTask.id := LocationDownloadTask.id task;
       LocationDownloadTask.location := LocationDownloadTask.location task;
       LocationDownloadTask.downloads_attempted :=
         LocationDownloadTask.downloads_attempted task;
       LocationDownloadTask.downloads_completed := completed;
       LocationDownloadTask.download_completion_time := Some (clock w) |} ;;;
  ret (AtCheck deposit_uuid deposit).

(** Line 104: is the deposit ready, and is this the last batch? *)
Definition check (deposit_uuid : string) (deposit : Location.t) : py World pc :=
  if Location.ready_for_finalization deposit then
    status <- Sword.deposit_downloading_status downloading_status deposit_uuid ;;
    if (status =? "complete")%string
    then ret (AtFinalize deposit_uuid)
    else ret Finished
  else ret Finished.

(** Lines 427-428: the deposit and the listing of its directory. *)
Definition enter_finalize (deposit_uuid : string) : py World pc :=
  deposit <- Helpers.get_deposit deposit_uuid ;;
  match deposit with
  | None => raise AttributeError
  | Some deposit =>
      names <- Os.listdir (Location.full_path deposit) ;;
      if (0 <? length names)%nat then ret (AtActivate deposit) else ret Finished
  end.

(** Lines 430-431: the call of the activation. *)
Definition activate (deposit : Location.t) : py World pc :=
  sword_server <- Db.get_sword_server (Location.space deposit) ;;
  result <- Sword._activate_transfer_and_request_approval_from_pipeline
              pad_destination_filepath_if_it_already_exists deposit sword_server ;;
  ret (AtStamp deposit result).

(** Lines 434-441: the outcome, and the completion time. *)
Definition stamp (deposit : Location.t) (result : gmap string jval) : py World pc :=
  if bool_decide (is_Some (result !! "error"))
  then raise (NameError "request")
  else
    w <- get ;;
    Db.save_location (Location.set_deposit_completion_time (clock w) deposit) ;;;
    ret Finished.

Definition statement (p : pc) : py World pc :=
  match p with
  | AtStart deposit_uuid urls => start deposit_uuid urls
  | AtRecord deposit_uuid deposit task completed =>
      record deposit_uuid deposit task completed
  | AtCheck deposit_uuid deposit => check deposit_uuid deposit
  | AtFinalize deposit_uuid => enter_finalize deposit_uuid
  | AtActivate deposit => activate deposit
  | AtStamp deposit result => stamp deposit result
  | Finished => ret Finished
  | Crashed e => ret (Crashed e)
  end.

(** One step of one worker; an exception ends the process. *)
Definition step (p : pc) (w : World) : pc * World :=
  match statement p w with
  | (Return p', w') => (p', w')
  | (Raise e, w') => (Crashed e, w')
  end.

(** Does this step call the activation? *)
Definition calls_activate (p : pc) (w : World) : bool :=
  match p with
  | AtActivate deposit =>
      match Db.get_sword_server (Location.space deposit) w with
      | (Return _, _) => true
      | (Raise _, _) => false
      end
  | _ => false
  end.

(** A worker running alone, to the end. *)
Fixpoint run_alone (fuel : nat) (p : pc) (w : World) : pc * World :=
  match fuel with
  | O => (p, w)
  | S fuel' => let '(p', w') := step p w in run_alone fuel' p' w'
  end.

(** What the process ends with, as an outcome of [_fetch_content]. *)
Definition ending (r : pc * World) : outcome unit * World :=
  match r with
  | (Crashed e, w) => (Raise e, w)
  | (_, w) => (Return tt, w)
  end.

(** Two workers, the shared world, and how often the activation has been
    called. *)
Record config : Type := {
  first : pc;
  second : pc;
  world : World;
  activations : nat
}.

Inductive worker : Type := First | Second.

Definition schedule_step (c : config) (who : worker) : config :=
  match who with
  | First =>
      let '(p', w') := step (first c) (world c) in
      {| first := p'; second := second c; world := w';
         activations := if calls_activate (first c) (world c)
                        then S (activations c) else activations c |}
  | Second =>
      let '(p', w') := step (second c) (world c) in
      {| first := first c; second := p'; world := w';
         activations := if calls_activate (second c) (world c)
                        then S (activations c) else activations c |}
  end.

Definition run (schedule : list worker) (c : config) : config :=
  foldl schedule_step c schedule.

End Workers.

End Race.

(** ** The error responses, named for the statements *)

(** The response [_sword_error_response] builds for a requester that
    names its user agent. *)
Definition error_response (status : Z) (summary : string) (w : World)
    (user_agent : string) : HttpResponse :=
  {| status_code := status;
     content := ErrorDocument summary status (clock w) user_agent;
     headers := [] |}.

Definition already_submitted : string :=
  "This deposit has already been submitted for processing.".

Definition no_files : string := "This deposit contains no files.".

Definition checksum_mismatch (header_md5sum : string) : string :=
  "MD5 checksum of uploaded file ({uploaded_md5sum}) does not match "
    ++ "checksum provided in header (" ++ header_md5sum ++ ").".

Definition deposit_receipt (deposit_uuid : string) (status : Z) : HttpResponse :=
  {| status_code := status;
     content := DepositReceipt deposit_uuid;
     headers := [("Location", "/api/v1/location/" ++ deposit_uuid ++ "/sword/")] |}.

(** * Concrete deposits, requests and worlds *)

Module Scenario.

Definition space0 : Space.t :=
  {| Space.uuid := "space-1"; Space.access_protocol := Space.LOCAL_FILESYSTEM;
     Space.size := None; Space.used := 0; Space.path := ["var"; "deposits"];
     Space.verified := true; Space.last_verified := Some 10 |}.

Definition processing_space : Space.t :=
  {| Space.uuid := "space-2"; Space.access_protocol := Space.LOCAL_FILESYSTEM;
     Space.size := None; Space.used := 0; Space.path := ["var"; "pipeline"];
     Space.verified := true; Space.last_verified := Some 10 |}.

(** A space whose directory is not on disk. *)
Definition lost_space : Space.t :=
  {| Space.uuid := "space-3"; Space.access_protocol := Space.LOCAL_FILESYSTEM;
     Space.size := None; Space.used := 0; Space.path := ["mnt"; "gone"];
     Space.verified := true; Space.last_verified := Some 10 |}.

Definition nfs_space : Space.t :=
  {| Space.uuid := "space-4"; Space.access_protocol := Space.NFS;
     Space.size := None; Space.used := 0; Space.path := ["mnt"; "export"];
     Space.verified := true; Space.last_verified := Some 10 |}.

Definition pipeline0 : Pipeline.t :=
  {| Pipeline.uuid := "pipeline-1"; Pipeline.remote_name := "192.168.1.10";
     Pipeline.api_username := "demo"; Pipeline.api_key := "secret" |}.

(** A pipeline whose API key has not been entered. *)
Definition pipeline_no_key : Pipeline.t :=
  {| Pipeline.uuid := "pipeline-1"; Pipeline.remote_name := "192.168.1.10";
     Pipeline.api_username := "demo"; Pipeline.api_key := "" |}.

Definition deposit0 : Location.t :=
  {| Location.uuid := "deposit-1"; Location.space := space0;
     Location.purpose := Location.SWORD_DEPOSIT;
     Location.relative_path := ["MyDeposit"];
     Location.description := Some "My Deposit";
     Location.quota := None; Location.used := 0; Location.disabled := false;
     Location.pipeline := None; Location.source := None;
     Location.ready_for_finalization := false;
     Location.deposit_completion_time := None |}.

Definition deposit_ready : Location.t :=
  Location.set_ready_for_finalization true deposit0.

Definition processing0 : Location.t :=
  {| Location.uuid := "processing-1"; Location.space := processing_space;
     Location.purpose := Location.CURRENTLY_PROCESSING;
     Location.relative_path := ["currentlyProcessing"];
     Location.description := None;
     Location.quota := None; Location.used := 0; Location.disabled := false;
     Location.pipeline := Some "pipeline-1"; Location.source := None;
     Location.ready_for_finalization := false;
     Location.deposit_completion_time := None |}.

Definition sword_server0 : SwordServer.t :=
  {| SwordServer.space := space0; SwordServer.pipeline := pipeline0 |}.

Definition sword_server_no_key : SwordServer.t :=
  {| SwordServer.space := space0; SwordServer.pipeline := pipeline_no_key |}.

Definition watched : Fs.path :=
  ["var"; "pipeline"; "currentlyProcessing"; "watchedDirectories";
   "activeTransfers"; "standardTransfer"].

(** The deposit directory holds one file. *)
Definition disk : gmap Fs.path Fs.node :=
  {[ ["var"] := Fs.Dir;
     ["var"; "deposits"] := Fs.Dir;
     ["var"; "deposits"; "MyDeposit"] := Fs.Dir;
     ["var"; "deposits"; "MyDeposit"; "joke.jpg"] := Fs.File "hello";
     ["var"; "pipeline"] := Fs.Dir;
     ["var"; "pipeline"; "currentlyProcessing"] := Fs.Dir;
     ["var"; "pipeline"; "currentlyProcessing"; "watchedDirectories"] := Fs.Dir;
     ["var"; "pipeline"; "currentlyProcessing"; "watchedDirectories";
      "activeTransfers"] := Fs.Dir;
     watched := Fs.Dir;
     ["tmp"] := Fs.Dir ]}.

(** The deposit directory is empty. *)
Definition disk_empty_deposit : gmap Fs.path Fs.node :=
  delete ["var"; "deposits"; "MyDeposit"; "joke.jpg"] disk.

Definition approves : string -> list (string * string) -> option (gmap string jval) :=
  fun _ _ => Some {[ "message" := JStr "Approval successful." ]}.

Definition unreachable : string -> list (string * string) -> option (gmap string jval) :=
  fun _ _ => None.

Definition world0 : World :=
  {| fs := disk; mounts := []; clock := 100;
     locations := [deposit0; processing0];
     download_tasks := [];
     sword_servers := [sword_server0];
     pipeline_api := approves;
     requests_sent := [];
     spawned := [] |}.

(** Modelled from the spec: a task is complete when it completed all the
    files it attempted, incomplete while completed < attempted. *)
Definition task_status (t : LocationDownloadTask.t) : string :=
  if (LocationDownloadTask.downloads_completed t
      =? LocationDownloadTask.downloads_attempted t)%Z
  then "complete" else "incomplete".

(** Modelled from the spec: a deposit has been submitted for processing
    once its content has been relocated, that is when its directory is no
    longer at the deposit path. *)
Definition relocated (deposit : Location.t) (w : World) : bool :=
  negb (Os.path_exists (Location.full_path deposit) (fs w)).

(** Modelled from the spec: the destination, padded with a suffix when a
    directory of that name already exists. *)
Definition pad (p : Fs.path) (w : World) : Fs.path :=
  if Os.path_exists p (fs w)
  then (Fs.dirname p ++ [Fs.basename p +:+ "_1"])%list
  else p.

Definition mkstemp : World -> Fs.path := fun _ => ["tmp"; "tmpUpload"].
Definition mkdtemp : World -> Fs.path := fun _ => ["tmp"; "tmpBatch"].

(** The digests of the two payloads that occur below. *)
Definition md5 (data : string) : string :=
  if (data =? "hello")%string then "5d41402abc4b2a76b9719d911017c592"
  else "d41d8cd98f00b204e9800998ecf8427e".

(** The downloader: stores the resource under the last segment of its url
    (here the url itself) in the scratch directory. *)
Definition download_resource (url : string) (temp_dir : Fs.path) : py World string :=
  fun w => (Return url, with_fs (<[(temp_dir ++ [url])%list := Fs.File "payload"]> (fs w)) w).

(** The deposit has been flagged ready for finalization, and two batch
    downloads have been spawned for it. *)
Definition world_ready : World :=
  with_locations [deposit_ready; processing0] world0.

Definition two_batches : Race.config :=
  {| Race.first := Race.AtStart "deposit-1" ["a.bin"];
     Race.second := Race.AtStart "deposit-1" ["b.bin"];
     Race.world := world_ready;
     Race.activations := 0 |}.

(** The same two batches while the pipeline does not answer. *)
Definition two_batches_pipeline_down : Race.config :=
  {| Race.first := Race.AtStart "deposit-1" ["a.bin"];
     Race.second := Race.AtStart "deposit-1" ["b.bin"];
     Race.world :=
       {| fs := disk; mounts := []; clock := 100;
          locations := [deposit_ready; processing0];
          download_tasks := [];
          sword_servers := [sword_server0];
          pipeline_api := unreachable;
          requests_sent := [];
          spawned := [] |};
     Race.activations := 0 |}.

(** Both batches finish in an overlapping window: their statements
    alternate. *)
Definition overlapping : list Race.worker :=
  [Race.First; Race.Second;      (* both download *)
   Race.First; Race.Second;      (* both record their result *)
   Race.First; Race.Second;      (* both see ready and complete *)
   Race.First; Race.Second;      (* both list the directory *)
   Race.First; Race.Second;      (* both call the activation *)
   Race.First; Race.Second].

(** Both batches download, then the first records and checks before the
    second does. *)
Definition one_after_the_other : list Race.worker :=
  [Race.First; Race.Second;
   Race.First; Race.First; Race.First; Race.First; Race.First;
   Race.Second; Race.Second; Race.Second; Race.Second; Race.Second].

(** *** Requests *)

Definition agent : string := "curl/7.29.0".

(** POST on the edit IRI: finalize. *)
Definition finalize_request : HttpRequest :=
  {| method := "POST";
     META := {[ "HTTP_IN_PROGRESS" := "false"; "HTTP_USER_AGENT" := agent ]};
     GET := ∅;
     body := "" |}.

(** The same from a client that sends no User-Agent. *)
Definition finalize_request_without_agent : HttpRequest :=
  {| method := "POST";
     META := {[ "HTTP_IN_PROGRESS" := "false" ]};
     GET := ∅;
     body := "" |}.

(** DELETE on the edit IRI, from a client that sends no User-Agent. *)
Definition delete_request_without_agent : HttpRequest :=
  {| method := "DELETE"; META := ∅; GET := ∅; body := "" |}.

(** POST on the media IRI: the bytes [hello] under a digest that is not
    theirs, from a client that sends no User-Agent. *)
Definition upload_wrong_digest_without_agent : HttpRequest :=
  {| method := "POST";
     META := {[ "HTTP_CONTENT_DISPOSITION" := "attachment; filename=new.jpg";
                "HTTP_CONTENT_MD5" := "d41d8cd98f00b204e9800998ecf8427e" ]};
     GET := ∅;
     body := "hello" |}.

(** The same upload from a client that names itself. *)
Definition upload_wrong_digest : HttpRequest :=
  {| method := "POST";
     META := {[ "HTTP_CONTENT_DISPOSITION" := "attachment; filename=new.jpg";
                "HTTP_CONTENT_MD5" := "d41d8cd98f00b204e9800998ecf8427e";
                "HTTP_USER_AGENT" := agent ]};
     GET := ∅;
     body := "hello" |}.

(** And with the digest of the bytes. *)
Definition upload_right_digest : HttpRequest :=
  {| method := "POST";
     META := {[ "HTTP_CONTENT_DISPOSITION" := "attachment; filename=new.jpg";
                "HTTP_CONTENT_MD5" := "5d41402abc4b2a76b9719d911017c592";
                "HTTP_USER_AGENT" := agent ]};
     GET := ∅;
     body := "hello" |}.

Definition new_file : Fs.path := ["var"; "deposits"; "MyDeposit"; "new.jpg"].

Definition parse_filename_from_content_disposition (header : string) : string :=
  if (header =? "attachment; filename=new.jpg")%string then "new.jpg" else "".

Definition etree_parse (data : string) : option Sword.mets := None.

(** *** Worlds *)

(** The deposit has been handed to the pipeline: its directory is no
    longer at the deposit path. *)
Definition world_submitted : World :=
  with_fs (Os.prune ["var"; "deposits"; "MyDeposit"] disk) world0.

(** The pipeline does not answer. *)
Definition world_pipeline_down : World :=
  {| fs := disk; mounts := []; clock := 100;
     locations := [deposit0; processing0];
     download_tasks := [];
     sword_servers := [sword_server0];
     pipeline_api := unreachable;
     requests_sent := [];
     spawned := [] |}.

(** A batch of two downloads is still running, nothing has arrived yet. *)
Definition pending_task : LocationDownloadTask.t :=
  {| LocationDownloadTask.id := 1;
     LocationDownloadTask.location := "deposit-1";
     LocationDownloadTask.downloads_attempted := 2;
     LocationDownloadTask.downloads_completed := 0;
     LocationDownloadTask.download_completion_time := None |}.

Definition world_pending : World :=
  with_download_tasks [pending_task] (with_fs disk_empty_deposit world0).

(** *** An AIP to store *)

Definition aip_storage : Location.t :=
  {| Location.uuid := "aip-storage-1"; Location.space := space0;
     Location.purpose := Location.AIP_STORAGE;
     Location.relative_path := ["aips"];
     Location.description := None;
     Location.quota := None; Location.used := 0; Location.disabled := false;
     Location.pipeline := None; Location.source := None;
     Location.ready_for_finalization := false;
     Location.deposit_completion_time := None |}.

Definition aip0 : File.t :=
  {| File.uuid := "0123abcd";
     File.origin_location := processing0;
     File.origin_path := ["sip.7z"];
     File.current_location := aip_storage;
     File.current_path := ["sip.7z"];
     File.size := 5;
     File.package_type := "AIP";
     File.uploaded := false |}.

Definition uuid_to_path (uuid : string) : Fs.path :=
  [substring 0 4 uuid; substring 4 4 uuid].

(** An rsync that exits with status 23 (partial transfer) and copies
    nothing. *)
Definition rsync_fails (source destination : Fs.path) : py World Z :=
  fun w => (Return 23, w).

Definition local_backend : LocalFilesystem.t :=
  {| LocalFilesystem.space := space0 |}.

Definition nfs_backend : NFS.t :=
  {| NFS.space := space0; NFS.remote_name := "nas"; NFS.remote_path := "/export";
     NFS.version := "nfs4"; NFS.manually_mounted := true |}.

(** Backends whose space is not there. *)
Definition lost_backend : Backend.t :=
  Backend.Local {| LocalFilesystem.space := lost_space |}.

Definition unmounted_backend : Backend.t :=
  Backend.Nfs {| NFS.space := nfs_space; NFS.remote_name := "nas";
                 NFS.remote_path := "/export"; NFS.version := "nfs4";
                 NFS.manually_mounted := true |}.

Definition automounted_nfs : NFS.t :=
  {| NFS.space := nfs_space; NFS.remote_name := "nas";
     NFS.remote_path := "/export"; NFS.version := "nfs4";
     NFS.manually_mounted := false |}.

(** The world after the pipeline has approved the transfer of the
    deposit. *)
Definition world_approved : World :=
  (Sword._activate_transfer_and_request_approval_from_pipeline
     pad deposit0 sword_server0 world0).2.

Definition approval : gmap string jval :=
  {[ "message" := JStr "Approval successful." ]}.

(** The deposit directory is empty and no download is pending. *)
Definition world_no_files : World := with_fs disk_empty_deposit world0.

End Scenario.



(** ** views.py: the state of a deposit *)

(** What the remaining handlers answer with: a SWORD document as before,
    or the context of the state template. *)
Module Page.

Inductive rendering : Type :=
| Document (d : Http.document)
| State (state_term state_description : string).

Record t : Type := {
  status_code : Z;
  content : rendering;
  headers : list (string * string)
}.

Definition of_response (r : HttpResponse) : t :=
  {| status_code := Http.status_code r;
     content := Document (Http.content r);
     headers := Http.headers r |}.

End Page.

Module State.

Section Views.

Variable downloading_status : LocationDownloadTask.t -> string.

Definition deposit_state (request : HttpRequest) (uuid : string)
  : py World Page.t :=
  deposit <- Helpers.get_deposit uuid ;;
  match deposit with
  | None =>
      r <- Sword._sword_error_response request 404
             ("Deposit location " ++ uuid ++ " does not exist.") ;;
      ret (Page.of_response r)
  | Some deposit =>
      if (method request =? "GET")%string then
        state_term <- Sword.deposit_downloading_status downloading_status uuid ;;
        status <- Sword.deposit_downloading_status downloading_status uuid ;;
        let state_description := "Deposit initiation: " ++ status in
        ret {| Page.status_code := 200;
               Page.content := Page.State state_term state_description;
               Page.headers := [("Content-Type", "application/atom+xml;type=feed")] |}
      else
        r <- Sword._sword_error_response request 405
               "This endpoint only responds to the GET HTTP method." ;;
        ret (Page.of_response r)
  end.

End Views.

End State.

(** ** Statement-level notions for the further properties *)

(** The download tasks of the deposit that [get_deposit] finds. *)
Definition tasks_of_deposit (deposit_uuid : string) (w : World)
  : list LocationDownloadTask.t :=
  match (Helpers.get_deposit deposit_uuid w).1 with
  | Return (Some d) =>
      filter (fun t => LocationDownloadTask.location t = Location.uuid d)
             (download_tasks w)
  | _ => []
  end.

(** The upload carries no Content-MD5 header, or one that is the digest of
    the body. *)
Definition checksum_accepted (md5 : string -> string) (request : HttpRequest) : bool :=
  match META request !! "HTTP_CONTENT_MD5" with
  | None => true
  | Some header_md5sum => (header_md5sum =? md5 (body request))%string
  end.

(** The file name an upload request carries. *)
Definition upload_filename (parse_filename_from_content_disposition : string -> string)
    (request : HttpRequest) : option string :=
  match META request !! "HTTP_CONTENT_DISPOSITION" with
  | Some disposition =>
      let filename := parse_filename_from_content_disposition disposition in
      if (filename =? "")%string then None else Some filename
  | None => None
  end.

(** What one round of the delete-all loop of [deposit_media] does to the
    filesystem: the entry [name] of the directory [p] goes, a file by
    [os.remove], a directory by [shutil.rmtree]. *)
Definition clear_entry (p : Fs.path) (f : gmap Fs.path Fs.node) (name : string)
  : gmap Fs.path Fs.node :=
  let filepath := Fs.join p [name] in
  if Os.path_isfile filepath f then delete filepath f
  else if Os.path_isdir filepath f then Os.prune filepath f
  else f.

(** The world once the approval request has been sent: the deposit
    directory is in the watched directory, four seconds have passed, the
    request is on its way. *)
Definition after_approval_request (deposit : Location.t) (pipeline : Pipeline.t)
    (destination_path : Fs.path) (w : World) : World :=
  with_requests_sent
    (requests_sent w ++ [(approval_url pipeline, approval_data pipeline destination_path)])
    (with_clock (clock w + 4)
       (with_fs (Shutil.rename_tree (Location.full_path deposit) destination_path (fs w)) w)).

(** The dict the activation returns when the request fails. *)
Definition transport_failure (pipeline : Pipeline.t) : gmap string jval :=
  {[ "error" := JBool true;
     "message" := JStr ("Request to pipeline " ++ Pipeline.uuid pipeline
        ++ " transfer approval API failed: check credentials and REST API IP whitelist.") ]}.

(** ** models.py: validation of a space path *)

Module Validation.

Inductive result : Type :=
| Valid
| ValidationError (message : string)
| IndexError.

(** [validate_space_path]: the path must begin with a slash.  [path[0]] of
    the empty string raises IndexError. *)
Definition validate_space_path (path : string) : result :=
  match path with
  | EmptyString => IndexError
  | String c _ =>
      if negb (String c EmptyString =? "/")%string
      then ValidationError "Path must begin with a /"
      else Valid
  end.

End Validation.

(** ** models.py: [Space.store_aip] *)

Module SpaceMethods.

Section StoreAip.

Variable uuid_to_path : string -> Fs.path.
Variable rsync : Fs.path -> Fs.path -> py World Z.

(** [Space.store_aip]: hands the AIP to the backend of the access
    protocol.  [localfilesystem] and [nfs] are the related objects
    [self.localfilesystem] and [self.nfs] (None when there is no such row:
    the accessor raises DoesNotExist).  What the backend returns is not
    returned. *)
Definition store_aip (self : Space.t) (localfilesystem : option LocalFilesystem.t)
    (nfs : option NFS.t) (aip_file : File.t) : py World unit :=
  if (Space.access_protocol self =? Space.LOCAL_FILESYSTEM)%string then
    match localfilesystem with
    | Some backend =>
        LocalFilesystem.store_aip uuid_to_path rsync backend aip_file ;;; ret tt
    | None => raise DoesNotExist
    end
  else if (Space.access_protocol self =? Space.NFS)%string then
    match nfs with
    | Some backend => NFS.store_aip uuid_to_path rsync backend aip_file ;;; ret tt
    | None => raise DoesNotExist
    end
  else ret tt.

End StoreAip.

End SpaceMethods.

(** The error that asks for the In-Progress header. *)
Definition in_progress_required : string :=
  "The In-Progress header must be set to false when starting deposit processing.".

(** ** models.py: [Location.get_description] *)

Module LocationMethods.

(** [self.description or self.full_path()]: the description unless it is
    None or empty, the full path otherwise. *)
Definition get_description (self : Location.t) : string :=
  match Location.description self with
  | Some description =>
      if (description =? "")%string
      then Fs.render (Location.full_path self)
      else description
  | None => Fs.render (Location.full_path self)
  end.

End LocationMethods.

(** ** Further requests and worlds *)

Module Cases.

Import Scenario.

(** GET on the state IRI, from a client that sends no User-Agent. *)
Definition state_request : HttpRequest :=
  {| method := "GET"; META := ∅; GET := ∅; body := "" |}.

(** GET on the media IRI: the listing. *)
Definition listing_request : HttpRequest :=
  {| method := "GET"; META := {[ "HTTP_USER_AGENT" := agent ]}; GET := ∅; body := "" |}.

(** PUT on the media IRI: other bytes for new.jpg, without digest. *)
Definition replace_request : HttpRequest :=
  {| method := "PUT";
     META := {[ "HTTP_CONTENT_DISPOSITION" := "attachment; filename=new.jpg";
                "HTTP_USER_AGENT" := agent ]};
     GET := ∅;
     body := "bye" |}.

(** DELETE on the media IRI: of new.jpg, and of everything. *)
Definition delete_file_request : HttpRequest :=
  {| method := "DELETE"; META := {[ "HTTP_USER_AGENT" := agent ]};
     GET := {[ "filename" := "new.jpg" ]}; body := "" |}.

Definition delete_all_request : HttpRequest :=
  {| method := "DELETE"; META := {[ "HTTP_USER_AGENT" := agent ]};
     GET := ∅; body := "" |}.

(** POST on the edit IRI of a METS document that names one resource, with
    In-Progress: false. *)
Definition mets_document : string := "<mets LABEL='My Deposit'>a.bin</mets>".

Definition mets_request : HttpRequest :=
  {| method := "POST";
     META := {[ "HTTP_IN_PROGRESS" := "false"; "HTTP_USER_AGENT" := agent ]};
     GET := ∅;
     body := mets_document |}.

(** The same document without the In-Progress header, and a body that is
    not XML. *)
Definition mets_request_without_header : HttpRequest :=
  {| method := "POST"; META := {[ "HTTP_USER_AGENT" := agent ]}; GET := ∅;
     body := mets_document |}.

Definition garbage_request : HttpRequest :=
  {| method := "POST";
     META := {[ "HTTP_IN_PROGRESS" := "false"; "HTTP_USER_AGENT" := agent ]};
     GET := ∅;
     body := "not xml" |}.

(** DELETE on the media IRI of joke.jpg, which is in the deposit. *)
Definition delete_joke_request : HttpRequest :=
  {| method := "DELETE"; META := {[ "HTTP_USER_AGENT" := agent ]};
     GET := {[ "filename" := "joke.jpg" ]}; body := "" |}.

(** POST on the edit IRI without body: more is to come. *)
Definition continue_request : HttpRequest :=
  {| method := "POST";
     META := {[ "HTTP_IN_PROGRESS" := "true"; "HTTP_USER_AGENT" := agent ]};
     GET := ∅;
     body := "" |}.

(** POST on the media IRI without Content-Disposition header. *)
Definition nameless_upload : HttpRequest :=
  {| method := "POST"; META := {[ "HTTP_USER_AGENT" := agent ]}; GET := ∅;
     body := "hello" |}.

(** A parser that knows the one document. *)
Definition parse_mets (data : string) : option Sword.mets :=
  if (data =? mets_document)%string
  then Some {| Sword.deposit_name := Some "My Deposit";
               Sword.object_content_urls := ["a.bin"] |}
  else None.

(** The pipeline answers that it will not approve. *)
Definition refusal : gmap string jval :=
  {[ "error" := JBool true; "message" := JStr "No such transfer." ]}.

Definition refuses : string -> list (string * string) -> option (gmap string jval) :=
  fun _ _ => Some refusal.

Definition world_refusing : World :=
  {| fs := disk; mounts := []; clock := 100;
     locations := [deposit0; processing0];
     download_tasks := [];
     sword_servers := [sword_server0];
     pipeline_api := refuses;
     requests_sent := [];
     spawned := [] |}.

(** No location is registered for the pipeline. *)
Definition world_without_processing : World :=
  with_locations [deposit0] world0.

(** The directory of the AIP storage location is a regular file. *)
Definition world_blocked : World :=
  with_fs (<[ ["var"; "deposits"; "aips"] := Fs.File "not a directory" ]> disk) world0.

(** The task a first batch of two downloads records in [world0], and the
    task row once both have arrived. *)
Definition first_task : LocationDownloadTask.t :=
  {| LocationDownloadTask.id := 1;
     LocationDownloadTask.location := "deposit-1";
     LocationDownloadTask.downloads_attempted := 2;
     LocationDownloadTask.downloads_completed := 0;
     LocationDownloadTask.download_completion_time := None |}.

End Cases.


(** * Properties *)

(** ** The statement monad *)

Lemma bind_ret {S A B} (a : A) (k : A -> py S B) (s : S) :
  bind (ret a) k s = k a s.
Proof. reflexivity. Qed.

Lemma bind_return {S A B} (m : py S A) (k : A -> py S B) (s s' : S) (a : A) :
  m s = (Return a, s') -> bind m k s = k a s'.
Proof. intros H. unfold bind. now rewrite H. Qed.

Lemma bind_raise {S A B} (m : py S A) (k : A -> py S B) (s s' : S) (e : exn) :
  m s = (Raise e, s') -> bind m k s = (Raise e, s').
Proof. intros H. unfold bind. now rewrite H. Qed.

(** ** Aggregate downloading status *)

Section StatusLoop.

Variable downloading_status : LocationDownloadTask.t -> string.

Let is_complete (t : LocationDownloadTask.t) : bool :=
  (downloading_status t =? "complete")%string.
Let is_failed (t : LocationDownloadTask.t) : bool :=
  (downloading_status t =? "failed")%string.

Lemma complete_not_failed t : is_complete t = true -> is_failed t = false.
Proof.
  unfold is_complete, is_failed. intros H%String.eqb_eq.
  rewrite H. reflexivity.
Qed.

(** The loop of [deposit_downloading_status]: [complete] stays true while
    every task is complete, [failed] becomes true at a failed task. *)
Lemma status_loop (tasks : list LocationDownloadTask.t) (complete failed : bool) (w : World) :
  for_each tasks
    (fun task (flags : bool * bool) =>
       let '(complete, failed) := flags in
       if negb (downloading_status task =? "complete")%string then
         let complete := false in
         if (downloading_status task =? "failed")%string
         then ret (complete, true)
         else ret (complete, failed)
       else ret (complete, failed))
    (complete, failed) w
  = (Return (complete && forallb is_complete tasks,
             failed || existsb is_failed tasks), w).
Proof.
  revert complete failed.
  induction tasks as [|t tasks IH]; intros complete failed; simpl.
  - unfold ret. now rewrite andb_true_r, orb_false_r.
  - fold (is_complete t). fold (is_failed t).
    destruct (is_complete t) eqn:Hc; simpl.
    + rewrite (complete_not_failed t Hc). rewrite bind_ret, IH. reflexivity.
    + destruct (is_failed t) eqn:Hf; rewrite bind_ret, IH; simpl;
        now rewrite ?andb_false_r, ?orb_true_r.
Qed.

Lemma forallb_is_complete tasks :
  forallb is_complete tasks = true
  <-> Forall (fun t => downloading_status t = "complete") tasks.
Proof.
  rewrite forallb_forall, Forall_forall.
  split; intros H t Ht.
  - apply String.eqb_eq, H, list_elem_of_In, Ht.
  - apply String.eqb_eq, H, list_elem_of_In, Ht.
Qed.

Lemma existsb_is_failed tasks :
  existsb is_failed tasks = true
  <-> Exists (fun t => downloading_status t = "failed") tasks.
Proof.
  rewrite existsb_exists, Exists_exists.
  split; intros (t & Ht & H); exists t; split.
  - apply list_elem_of_In, Ht.
  - apply String.eqb_eq, H.
  - apply list_elem_of_In, Ht.
  - apply String.eqb_eq, H.
Qed.

Lemma all_complete_none_failed tasks :
  forallb is_complete tasks = true -> existsb is_failed tasks = false.
Proof.
  induction tasks as [|t tasks IH]; simpl; [reflexivity|].
  intros [Ht Hts]%andb_true_iff.
  now rewrite (complete_not_failed t Ht), IH.
Qed.

(** What the function computes from the list of tasks it has read. *)
Lemma status_of_flags tasks :
  (if (0 <? length tasks)%nat
   then if existsb is_failed tasks then "failed"
        else if forallb is_complete tasks then "complete" else "incomplete"
   else "complete")
  = aggregate_status downloading_status tasks.
Proof.
  unfold aggregate_status.
  destruct tasks as [|t tasks]; simpl length.
  - reflexivity.
  - change (0 <? S (length tasks))%nat with true. cbv iota.
    destruct (forallb is_complete (t :: tasks)) eqn:Hall.
    + rewrite (all_complete_none_failed _ Hall).
      rewrite bool_decide_eq_true_2; [reflexivity|].
      right. now apply forallb_is_complete.
    + rewrite bool_decide_eq_false_2.
      2:{ intros [Hnil | Hforall]; [discriminate|].
          apply forallb_is_complete in Hforall. congruence. }
      destruct (existsb is_failed (t :: tasks)) eqn:Hex.
      * rewrite bool_decide_eq_true_2; [reflexivity|].
        now apply existsb_is_failed.
      * rewrite bool_decide_eq_false_2; [reflexivity|].
        intros H%existsb_is_failed. congruence.
Qed.

End StatusLoop.

(** The three cases of the aggregate status exclude each other. *)
Section AggregateCases.

Variable downloading_status : LocationDownloadTask.t -> string.

Lemma failed_task_not_all_complete (tasks : list LocationDownloadTask.t) :
  Exists (fun t => downloading_status t = "failed") tasks ->
  ~ (tasks = [] \/ Forall (fun t => downloading_status t = "complete") tasks).
Proof.
  intros Hex [-> | Hall].
  - now apply Exists_nil in Hex.
  - apply Exists_exists in Hex. destruct Hex as (t & Ht & Hfailed).
    rewrite Forall_forall in Hall. specialize (Hall t Ht). congruence.
Qed.

Lemma aggregate_status_complete (tasks : list LocationDownloadTask.t) :
  aggregate_status downloading_status tasks = "complete"
  <-> tasks = [] \/ Forall (fun t => downloading_status t = "complete") tasks.
Proof.
  unfold aggregate_status. case_bool_decide as Hc; [tauto|].
  case_bool_decide; split; (discriminate || tauto).
Qed.

Lemma aggregate_status_failed (tasks : list LocationDownloadTask.t) :
  aggregate_status downloading_status tasks = "failed"
  <-> Exists (fun t => downloading_status t = "failed") tasks.
Proof.
  unfold aggregate_status. case_bool_decide as Hc.
  - split; [discriminate|]. intros Hex.
    now apply failed_task_not_all_complete in Hex.
  - case_bool_decide; split; (discriminate || tauto).
Qed.

Lemma aggregate_status_incomplete (tasks : list LocationDownloadTask.t) :
  aggregate_status downloading_status tasks = "incomplete"
  <-> ~ Forall (fun t => downloading_status t = "complete") tasks
      /\ ~ Exists (fun t => downloading_status t = "failed") tasks.
Proof.
  unfold aggregate_status. case_bool_decide as Hc.
  - split; [discriminate|]. intros [Hnot _]. destruct Hc as [-> | Hall].
    + exfalso. apply Hnot. constructor.
    + contradiction.
  - case_bool_decide; split; try discriminate; try tauto.
Qed.

End AggregateCases.

(** C1: for every deposit, [deposit_downloading_status] returns, without
    raising and without touching the world, the aggregate status of the
    deposit's download tasks: complete when there is no task or every task
    is complete, failed when at least one task is failed, incomplete
    otherwise. *)
Theorem deposit_downloading_status_aggregate
    (downloading_status : LocationDownloadTask.t -> string)
    (deposit_uuid : string) (deposit : Location.t) (w : World) :
  Helpers.get_deposit deposit_uuid w = (Return (Some deposit), w) ->
  Sword.deposit_downloading_status downloading_status deposit_uuid w
  = (Return (aggregate_status downloading_status
               (filter (fun t => LocationDownloadTask.location t = Location.uuid deposit)
                       (download_tasks w))), w).
Proof.
  intros Hdep. unfold Sword.deposit_downloading_status.
  rewrite (bind_return _ _ _ _ _ Hdep).
  unfold Db.tasks_of. cbn beta.
  erewrite bind_return by reflexivity.
  set (tasks := filter _ _).
  rewrite <- status_of_flags.
  destruct (0 <? length tasks)%nat; [|reflexivity].
  erewrite bind_return by apply status_loop.
  simpl.
  destruct (existsb _ tasks); [reflexivity|].
  destruct (forallb _ tasks); reflexivity.
Qed.

(** ** Verification of a space *)

(** C8: for every backend whose [verify] probes the platform (local
    filesystem, NFS when manually mounted), verifying a space whose root
    path is not there (not a directory, respectively not a mount point)
    returns without raising, sets [verified] to false and [last_verified]
    to the current time, and changes nothing else. *)
Theorem verify_unreachable_space (b : Backend.t) (w : World) :
  Backend.probed b = true ->
  Backend.reachable b w = false ->
  exists b',
    Backend.verify b w = (Return b', w)
    /\ Backend.space b' = Space.set_verified false (clock w) (Backend.space b)
    /\ Space.verified (Backend.space b') = false
    /\ Space.last_verified (Backend.space b') = Some (clock w).
Proof.
  destruct b as [b | b]; simpl; intros Hprobed Hunreachable.
  - eexists. split; [|split; [|split]].
    + unfold LocalFilesystem.verify, bind, get, ret. rewrite Hunreachable.
      reflexivity.
    + reflexivity.
    + reflexivity.
    + reflexivity.
  - eexists. split; [|split; [|split]].
    + unfold NFS.verify, bind, get, ret. rewrite Hprobed, Hunreachable.
      reflexivity.
    + reflexivity.
    + reflexivity.
    + reflexivity.
Qed.

(** A space whose path is missing from the filesystem is unreachable. *)
Lemma missing_path_unreachable (b : LocalFilesystem.t) (w : World) :
  fs w !! Space.path (LocalFilesystem.space b) = None ->
  Backend.reachable (Backend.Local b) w = false.
Proof.
  intros H. simpl. unfold Os.path_isdir. rewrite H.
  now apply bool_decide_eq_false_2.
Qed.

(** C10: [verify] on an NFS space that is not manually mounted returns the
    object as it was: neither [verified] nor [last_verified] is written. *)
Theorem nfs_verify_not_manually_mounted (self : NFS.t) (w : World) :
  NFS.manually_mounted self = false ->
  NFS.verify self w = (Return self, w).
Proof.
  intros H. unfold NFS.verify, bind, get, ret. now rewrite H.
Qed.

(** ** Storing an AIP *)

Section StoreAipFacts.

Variable uuid_to_path : string -> Fs.path.
Variable rsync : Fs.path -> Fs.path -> py World Z.

(** The exit status of rsync does not reach the caller: whatever it is,
    [store_aip] returns None. *)
Lemma local_store_aip_any_status self aip_file w w1 status w2 :
  Space.uuid (LocalFilesystem.space self)
    = Space.uuid (Location.space (File.current_location aip_file)) ->
  Os.makedirs (Fs.dirname (aip_destination uuid_to_path aip_file)) w = (Return tt, w1) ->
  rsync (aip_source aip_file) (aip_destination uuid_to_path aip_file) w1 = (Return status, w2) ->
  LocalFilesystem.store_aip uuid_to_path rsync self aip_file w = (Return None, w2).
Proof.
  intros Hspace Hmk Hrsync. unfold LocalFilesystem.store_aip.
  rewrite bool_decide_eq_true_2 by exact Hspace. simpl negb. cbv iota.
  unfold aip_destination, aip_source in *. cbv zeta. rewrite Hmk, Hrsync.
  reflexivity.
Qed.

Lemma nfs_store_aip_any_status self aip_file w w1 status w2 :
  Space.uuid (NFS.space self)
    = Space.uuid (Location.space (File.current_location aip_file)) ->
  Os.makedirs (Fs.dirname (aip_destination uuid_to_path aip_file)) w = (Return tt, w1) ->
  rsync (aip_source aip_file) (aip_destination uuid_to_path aip_file) w1 = (Return status, w2) ->
  NFS.store_aip uuid_to_path rsync self aip_file w = (Return None, w2).
Proof.
  intros Hspace Hmk Hrsync. unfold NFS.store_aip.
  rewrite bool_decide_eq_true_2 by exact Hspace. simpl negb. cbv iota.
  unfold aip_destination, aip_source in *. cbv zeta. rewrite Hmk, Hrsync.
  reflexivity.
Qed.

(** A failure to create the parent directory, other than EEXIST, makes
    [store_aip] return -1 before rsync is run. *)
Lemma local_store_aip_directory_create self aip_file w w1 errno :
  Space.uuid (LocalFilesystem.space self)
    = Space.uuid (Location.space (File.current_location aip_file)) ->
  Os.makedirs (Fs.dirname (aip_destination uuid_to_path aip_file)) w = (Raise (OSError errno), w1) ->
  errno <> 17 ->
  LocalFilesystem.store_aip uuid_to_path rsync self aip_file w = (Return (Some (-1)), w1).
Proof.
  intros Hspace Hmk Hne. unfold LocalFilesystem.store_aip.
  rewrite bool_decide_eq_true_2 by exact Hspace. simpl negb. cbv iota.
  unfold aip_destination in *. cbv zeta. rewrite Hmk.
  now rewrite bool_decide_eq_true_2.
Qed.

Lemma nfs_store_aip_directory_create self aip_file w w1 errno :
  Space.uuid (NFS.space self)
    = Space.uuid (Location.space (File.current_location aip_file)) ->
  Os.makedirs (Fs.dirname (aip_destination uuid_to_path aip_file)) w = (Raise (OSError errno), w1) ->
  errno <> 17 ->
  NFS.store_aip uuid_to_path rsync self aip_file w = (Return (Some (-1)), w1).
Proof.
  intros Hspace Hmk Hne. unfold NFS.store_aip.
  rewrite bool_decide_eq_true_2 by exact Hspace. simpl negb. cbv iota.
  unfold aip_destination in *. cbv zeta. rewrite Hmk.
  now rewrite bool_decide_eq_true_2.
Qed.

(** A parent directory that is there already is not an error: the copy
    runs. *)
Lemma local_store_aip_directory_exists self aip_file w w1 status w2 :
  Space.uuid (LocalFilesystem.space self)
    = Space.uuid (Location.space (File.current_location aip_file)) ->
  Os.makedirs (Fs.dirname (aip_destination uuid_to_path aip_file)) w = (Raise (OSError 17), w1) ->
  rsync (aip_source aip_file) (aip_destination uuid_to_path aip_file) w1 = (Return status, w2) ->
  LocalFilesystem.store_aip uuid_to_path rsync self aip_file w = (Return None, w2).
Proof.
  intros Hspace Hmk Hrsync. unfold LocalFilesystem.store_aip.
  rewrite bool_decide_eq_true_2 by exact Hspace. simpl negb. cbv iota.
  unfold aip_destination, aip_source in *. cbv zeta. rewrite Hmk.
  rewrite bool_decide_eq_false_2 by (intros H; now apply H).
  now rewrite Hrsync.
Qed.

End StoreAipFacts.

(** ** Paths and subtree renaming *)

Lemma strip_app (p r : Fs.path) : Fs.strip p (p ++ r) = Some r.
Proof.
  induction p as [|a p IH]; simpl; [reflexivity|].
  now rewrite decide_True.
Qed.

Lemma strip_Some (p k r : Fs.path) : Fs.strip p k = Some r -> k = (p ++ r)%list.
Proof.
  revert k. induction p as [|a p IH]; intros k; simpl.
  - now intros [= ->].
  - destruct k as [|b k]; [discriminate|].
    destruct (decide (a = b)) as [->|]; [|discriminate].
    intros H. now rewrite (IH _ H).
Qed.

Lemma strip_self (p : Fs.path) : Fs.strip p p = Some [].
Proof. rewrite <- (app_nil_r p) at 2. apply strip_app. Qed.

(** Two prefixes of one path: one of them is a prefix of the other. *)
Lemma strip_comparable (p q k r1 r2 : Fs.path) :
  Fs.strip p k = Some r1 -> Fs.strip q k = Some r2 ->
  is_Some (Fs.strip p q) \/ is_Some (Fs.strip q p).
Proof.
  revert q k. induction p as [|a p IH]; intros q k; simpl.
  - intros _ _. left. eauto.
  - destruct k as [|b k]; [discriminate|].
    destruct (decide (a = b)) as [->|]; [|discriminate].
    intros Hp. destruct q as [|c q]; simpl.
    + intros _. right. eauto.
    + destruct (decide (c = b)) as [->|]; [|discriminate].
      intros Hq. rewrite decide_True by reflexivity.
      apply (IH q k Hp Hq).
Qed.

Lemma nothing_at_spec (p : Fs.path) (f : gmap Fs.path Fs.node) :
  nothing_at p f = true ->
  forall k, is_Some (f !! k) -> Fs.strip p k = None.
Proof.
  unfold nothing_at. rewrite forallb_forall.
  intros H k [v Hv].
  specialize (H (k, v)). simpl in H.
  eapply bool_decide_eq_true_1, H, list_elem_of_In, elem_of_map_to_list, Hv.
Qed.

Section RenameTree.

Variables src dst : Fs.path.
Variable f : gmap Fs.path Fs.node.
Hypothesis dst_free : forall k, is_Some (f !! k) -> Fs.strip dst k = None.

Lemma rekey_inj_on_dom (k1 k2 : Fs.path) :
  is_Some (f !! k1) -> is_Some (f !! k2) ->
  Shutil.rekey src dst k1 = Shutil.rekey src dst k2 -> k1 = k2.
Proof.
  intros H1 H2. unfold Shutil.rekey.
  destruct (Fs.strip src k1) as [r1|] eqn:E1, (Fs.strip src k2) as [r2|] eqn:E2.
  - intros H%app_inv_head. subst r2.
    now rewrite (strip_Some _ _ _ E1), (strip_Some _ _ _ E2).
  - intros <-. apply dst_free in H2. now rewrite strip_app in H2.
  - intros ->. apply dst_free in H1. now rewrite strip_app in H1.
  - trivial.
Qed.

Lemma elem_of_renamed (k' : Fs.path) (v : Fs.node) :
  (k', v) ∈ prod_map (Shutil.rekey src dst) id <$> map_to_list f
  <-> exists k, f !! k = Some v /\ Shutil.rekey src dst k = k'.
Proof.
  rewrite list_elem_of_fmap. split.
  - intros ([k v0] & [= -> ->] & Hin%elem_of_map_to_list). eauto.
  - intros (k & Hk & <-). exists (k, v). split; [reflexivity|].
    now apply elem_of_map_to_list.
Qed.

(** Where a key of the renamed tree comes from. *)
Lemma lookup_rename_tree (k' : Fs.path) :
  Shutil.rename_tree src dst f !! k'
  = match Fs.strip dst k' with
    | Some r => f !! (src ++ r)%list
    | None => match Fs.strip src k' with
              | Some _ => None
              | None => f !! k'
              end
    end.
Proof.
  unfold Shutil.rename_tree. apply option_eq. intros v. split.
  - intros Hin%elem_of_list_to_map_2. apply elem_of_renamed in Hin.
    destruct Hin as (k & Hk & <-). unfold Shutil.rekey.
    destruct (Fs.strip src k) as [r|] eqn:E.
    + rewrite strip_app. now rewrite <- (strip_Some _ _ _ E).
    + rewrite (dst_free k) by eauto. now rewrite E.
  - intros H.
    assert (exists k, f !! k = Some v /\ Shutil.rekey src dst k = k') as Hk.
    { destruct (Fs.strip dst k') as [r|] eqn:Ed.
      - exists (src ++ r)%list. split; [exact H|].
        unfold Shutil.rekey. rewrite strip_app.
        now rewrite (strip_Some _ _ _ Ed).
      - destruct (Fs.strip src k') eqn:Es; [discriminate|].
        exists k'. split; [exact H|]. unfold Shutil.rekey. now rewrite Es. }
    apply elem_of_list_to_map_1'.
    + intros v' Hv'%elem_of_renamed.
      destruct Hk as (k & Hk & Hkk'), Hv' as (k0 & Hk0 & Hk0k').
      assert (k = k0) as <-.
      { apply rekey_inj_on_dom; eauto. congruence. }
      congruence.
    + now apply elem_of_renamed.
Qed.

End RenameTree.

(** Renaming a subtree to a free place and back restores the tree. *)
Lemma rename_tree_back (src dst : Fs.path) (f : gmap Fs.path Fs.node) :
  (forall k, is_Some (f !! k) -> Fs.strip dst k = None) ->
  is_Some (f !! src) ->
  Fs.strip src dst = None ->
  Shutil.rename_tree dst src (Shutil.rename_tree src dst f) = f.
Proof.
  intros Hfree Hsrc Hnotin.
  assert (forall k, is_Some (Shutil.rename_tree src dst f !! k) -> Fs.strip src k = None)
    as Hfree'.
  { intros k. rewrite lookup_rename_tree by exact Hfree.
    destruct (Fs.strip dst k) as [r|] eqn:Ed.
    - intros _. destruct (Fs.strip src k) as [r'|] eqn:Es; [|reflexivity].
      destruct (strip_comparable _ _ _ _ _ Es Ed) as [[x Hx] | [x Hx]].
      + congruence.
      + rewrite (Hfree src Hsrc) in Hx. discriminate.
    - destruct (Fs.strip src k); [intros [? ?]; discriminate | reflexivity]. }
  apply map_eq. intros k.
  rewrite lookup_rename_tree by exact Hfree'.
  destruct (Fs.strip src k) as [r|] eqn:Es.
  - rewrite lookup_rename_tree by exact Hfree.
    rewrite strip_app. now rewrite <- (strip_Some _ _ _ Es).
  - destruct (Fs.strip dst k) as [r|] eqn:Ed.
    + symmetry. apply eq_None_not_Some. intros Hk.
      rewrite (Hfree k Hk) in Ed. discriminate.
    + rewrite lookup_rename_tree by exact Hfree.
      now rewrite Ed, Es.
Qed.

(** ** Pipeline approval *)

Section Activate.

Variable pad_destination_filepath_if_it_already_exists : Fs.path -> World -> Fs.path.

(** C7: when the remote name, the API username or the API key of the
    pipeline is empty, the activation stops before the deposit directory is
    moved and before any request is sent (the world is as it was).  What it
    stops with is the NameError of the unbound name [request], not the 500
    error response it was meant to build. *)
Theorem activate_pipeline_misconfigured
    (deposit : Location.t) (sword_server : SwordServer.t) (w : World) :
  Pipeline.remote_name (SwordServer.pipeline sword_server) = ""
  \/ Pipeline.api_username (SwordServer.pipeline sword_server) = ""
  \/ Pipeline.api_key (SwordServer.pipeline sword_server) = "" ->
  Sword._activate_transfer_and_request_approval_from_pipeline
    pad_destination_filepath_if_it_already_exists deposit sword_server w
  = (Raise (NameError "request"), w).
Proof.
  intros H. unfold Sword._activate_transfer_and_request_approval_from_pipeline.
  assert (existsb
            (fun property =>
               (Sword.getattr (SwordServer.pipeline sword_server) property =? "")%string)
            ["remote_name"; "api_username"; "api_key"] = true) as ->; [|reflexivity].
  simpl. unfold Sword.getattr. simpl.
  destruct H as [H | [H | H]]; rewrite H; simpl;
    now rewrite ?orb_true_r.
Qed.

Lemma configured_passes_check (pipeline : Pipeline.t) :
  configured pipeline = true ->
  existsb (fun property => (Sword.getattr pipeline property =? "")%string)
          ["remote_name"; "api_username"; "api_key"] = false.
Proof.
  unfold configured. intros [[H1 H2]%andb_true_iff H3]%andb_true_iff.
  apply negb_true_iff in H1, H2, H3.
  simpl. unfold Sword.getattr. simpl. now rewrite H1, H2, H3.
Qed.

(** The first move of the activation: the deposit directory leaves its
    path and arrives at the destination. *)
Lemma move_directory_to_free_place (src dst : Fs.path) (w : World) :
  fs w !! src = Some Fs.Dir ->
  nothing_at dst (fs w) = true ->
  Fs.strip src dst = None ->
  Shutil.move src dst w
  = (Return tt, with_fs (Shutil.rename_tree src dst (fs w)) w)
  /\ Shutil.rename_tree src dst (fs w) !! src = None
  /\ Shutil.rename_tree src dst (fs w) !! dst = Some Fs.Dir.
Proof.
  intros Hsrc Hfree Hnotin.
  pose proof (nothing_at_spec _ _ Hfree) as Hfree'.
  assert (fs w !! dst = None) as Hdst.
  { apply eq_None_not_Some. intros H. apply Hfree' in H.
    rewrite strip_self in H. discriminate. }
  split; [|split].
  - unfold Shutil.move, Os.path_isdir, Os.path_exists, Fs.below.
    rewrite Hdst.
    rewrite (bool_decide_eq_false_2 (None = Some Fs.Dir)) by discriminate.
    cbv zeta iota. rewrite Hdst, Hsrc, Hnotin. simpl andb. cbv iota.
    rewrite !(bool_decide_eq_false_2 (is_Some None)) by (intros [? ?]; discriminate).
    reflexivity.
  - rewrite lookup_rename_tree by exact Hfree'.
    rewrite (Hfree' src) by eauto. now rewrite strip_self.
  - rewrite lookup_rename_tree by exact Hfree'.
    rewrite strip_self. now rewrite app_nil_r.
Qed.

(** The compensating move: from the destination back to the deposit path. *)
Lemma move_directory_back (src dst : Fs.path) (w w1 : World) :
  fs w !! src = Some Fs.Dir ->
  nothing_at dst (fs w) = true ->
  Fs.strip src dst = None ->
  fs w1 = Shutil.rename_tree src dst (fs w) ->
  Shutil.move dst src w1 = (Return tt, with_fs (fs w) w1).
Proof.
  intros Hsrc Hfree Hnotin Hw1.
  pose proof (nothing_at_spec _ _ Hfree) as Hfree'.
  destruct (move_directory_to_free_place src dst w Hsrc Hfree Hnotin)
    as (_ & Hgone & Hthere).
  unfold Shutil.move, Os.path_isdir, Os.path_exists, Fs.below.
  rewrite Hw1, Hgone.
  rewrite (bool_decide_eq_false_2 (None = Some Fs.Dir)) by discriminate.
  cbv zeta iota. rewrite Hgone, Hthere. simpl andb. cbv iota.
  rewrite (Hfree' src) by eauto.
  rewrite !(bool_decide_eq_false_2 (is_Some None)) by (intros [? ?]; discriminate).
  rewrite rename_tree_back; eauto.
Qed.

(** C6: the deposit directory has been moved to the transfer destination
    and the approval request then fails at the transport level.  The
    activation moves the directory back and returns the error outcome: the
    filesystem is exactly as before the call and no database row has
    changed (in particular the deposit row, which alone could mark the
    deposit as submitted or completed). *)
Theorem activate_transport_failure_moves_back
    (deposit : Location.t) (sword_server : SwordServer.t)
    (processing_location : Location.t) (w : World) :
  let pipeline := SwordServer.pipeline sword_server in
  let src := Location.full_path deposit in
  let dst := pad_destination_filepath_if_it_already_exists
               (transfer_destination deposit processing_location) w in
  configured pipeline = true ->
  Db.get_location_of_pipeline pipeline Location.CURRENTLY_PROCESSING w
    = (Return processing_location, w) ->
  fs w !! src = Some Fs.Dir ->
  nothing_at dst (fs w) = true ->
  Fs.strip src dst = None ->
  pipeline_api w (approval_url pipeline) (approval_data pipeline dst) = None ->
  exists (moved : World) (result : gmap string jval) (w' : World),
    (* the directory had been moved *)
    Shutil.move src dst w = (Return tt, moved)
    /\ fs moved !! src = None
    /\ fs moved !! dst = Some Fs.Dir
    (* the outcome *)
    /\ Sword._activate_transfer_and_request_approval_from_pipeline
         pad_destination_filepath_if_it_already_exists deposit sword_server w
       = (Return result, w')
    /\ result !! "error" = Some (JBool true)
    /\ fs w' = fs w
    /\ locations w' = locations w
    /\ download_tasks w' = download_tasks w
    /\ requests_sent w'
       = (requests_sent w ++ [(approval_url pipeline, approval_data pipeline dst)])%list.
Proof.
  intros pipeline src dst Hconf Hproc Hsrc Hfree Hnotin Hnet.
  destruct (move_directory_to_free_place src dst w Hsrc Hfree Hnotin)
    as (Hmove & Hgone & Hthere).
  eexists _, _, _. split; [exact Hmove|].
  split; [exact Hgone|]. split; [exact Hthere|].
  pose proof (fun w1 => move_directory_back src dst w w1 Hsrc Hfree Hnotin) as Hback.
  subst pipeline src dst.
  unfold approval_url, approval_data, transfer_destination in *.
  split.
  - unfold Sword._activate_transfer_and_request_approval_from_pipeline.
    rewrite configured_passes_check by exact Hconf.
    erewrite bind_return by exact Hproc.
    erewrite bind_return by reflexivity.
    cbv zeta.
    erewrite bind_return by exact Hmove.
    erewrite bind_return by reflexivity.
    unfold Sword.urlopen, bind at 1 2 3, get, put, raise.
    cbn [pipeline_api with_requests_sent with_clock with_fs].
    rewrite Hnet.
    rewrite Hback by reflexivity.
    reflexivity.
  - repeat split; try reflexivity.
Qed.

End Activate.

(** ** Concurrent batch downloads *)

Section Workers.

Variable downloading_status : LocationDownloadTask.t -> string.
Variable pad_destination_filepath_if_it_already_exists : Fs.path -> World -> Fs.path.
Variable mkdtemp : World -> Fs.path.
Variable download_resource : string -> Fs.path -> py World string.

Let run_alone :=
  Race.run_alone downloading_status
    pad_destination_filepath_if_it_already_exists mkdtemp download_resource.

(** Case analysis on an innermost scrutinee of the goal. *)
Ltac split_outcome :=
  match goal with
  | |- context [match ?x with _ => _ end] =>
      lazymatch x with
      | context [match _ with _ => _ end] => fail
      | _ => destruct x eqn:?
      end
  end.

Ltac split_loop :=
  match goal with
  | |- context [for_each ?l ?body ?b ?s] =>
      destruct (for_each l body b s) as [[?|?] ?] eqn:?
  end.

Ltac split_call :=
  match goal with
  | |- context [Sword.deposit_downloading_status ?f ?u ?s] =>
      destruct (Sword.deposit_downloading_status f u s) as [[?|?] ?] eqn:?
  | |- context [Os.listdir ?p ?s] =>
      destruct (Os.listdir p s) as [[?|?] ?] eqn:?
  | |- context [Db.get_sword_server ?p ?s] =>
      destruct (Db.get_sword_server p s) as [[?|?] ?] eqn:?
  | |- context [Sword._activate_transfer_and_request_approval_from_pipeline ?f ?d ?p ?s] =>
      destruct (Sword._activate_transfer_and_request_approval_from_pipeline f d p s)
        as [[?|?] ?] eqn:?
  end.

(** The steps of a worker, run without interruption, are
    [_fetch_content]. *)
Lemma run_alone_fetch_content (deposit_uuid : string)
    (object_content_urls : list string) (w : World) :
  Race.ending (run_alone 6%nat (Race.AtStart deposit_uuid object_content_urls) w)
  = Sword._fetch_content downloading_status
      pad_destination_filepath_if_it_already_exists mkdtemp download_resource
      deposit_uuid object_content_urls w.
Proof.
  unfold run_alone, Sword._fetch_content, Sword._finalize_if_not_empty.
  unfold Race.run_alone, Race.step, Race.statement, Race.start, Race.record,
    Race.check, Race.enter_finalize, Race.activate, Race.stamp.
  unfold Helpers.get_deposit, Db.insert_task, Db.update_task.
  unfold bind, ret, raise, get, put, modify.
  repeat (first [split_outcome | split_loop | split_call];
          simpl; try reflexivity; try congruence).
Qed.

End Workers.

(** ** Error responses *)

Lemma sword_error_response_with_agent (request : HttpRequest) (status : Z)
    (summary : string) (w : World) (user_agent : string) :
  META request !! "HTTP_USER_AGENT" = Some user_agent ->
  Sword._sword_error_response request status summary w
  = (Return (error_response status summary w user_agent), w).
Proof.
  intros H. unfold Sword._sword_error_response, Sword._sword_error_response_render.
  unfold bind, get. now rewrite H.
Qed.

(** Without a User-Agent header the error document cannot be built. *)
Lemma sword_error_response_without_agent (request : HttpRequest) (status : Z)
    (summary : string) (w : World) :
  META request !! "HTTP_USER_AGENT" = None ->
  Sword._sword_error_response request status summary w
  = (Raise (KeyError "HTTP_USER_AGENT"), w).
Proof.
  intros H. unfold Sword._sword_error_response, Sword._sword_error_response_render.
  unfold bind, get. now rewrite H.
Qed.

(** Either way the world is left as it was. *)
Lemma sword_error_response_world (request : HttpRequest) (status : Z)
    (summary : string) (w : World) :
  (Sword._sword_error_response request status summary w).2 = w.
Proof.
  unfold Sword._sword_error_response, Sword._sword_error_response_render.
  unfold bind, get. now destruct (META request !! "HTTP_USER_AGENT").
Qed.

(** ** The guard of submitted deposits *)

Section Guard.

Variable downloading_status : LocationDownloadTask.t -> string.
Variable has_been_submitted_for_processing : Location.t -> World -> bool.
Variable pad_destination_filepath_if_it_already_exists : Fs.path -> World -> Fs.path.
Variable mkstemp : World -> Fs.path.
Variable md5 : string -> string.
Variable parse_filename_from_content_disposition : string -> string.
Variable etree_parse : string -> option Sword.mets.

Let deposit_edit :=
  Sword.deposit_edit downloading_status has_been_submitted_for_processing
    pad_destination_filepath_if_it_already_exists mkstemp etree_parse.
Let deposit_media :=
  Sword.deposit_media has_been_submitted_for_processing mkstemp md5
    parse_filename_from_content_disposition.

(** On a submitted deposit both handlers do nothing but build the
    already-submitted error, whatever the method and the headers. *)
Lemma submitted_deposit_guard (request : HttpRequest) (uuid : string)
    (deposit : Location.t) (w : World) :
  Helpers.get_deposit uuid w = (Return (Some deposit), w) ->
  has_been_submitted_for_processing deposit w = true ->
  deposit_edit request uuid w
    = Sword._sword_error_response request 400 already_submitted w
  /\ deposit_media request uuid w
    = Sword._sword_error_response request 400 already_submitted w.
Proof.
  intros Hdep Hsub. unfold deposit_edit, deposit_media.
  unfold Sword.deposit_edit, Sword.deposit_media.
  rewrite !(bind_return _ _ _ _ _ Hdep).
  split.
  - erewrite bind_return by reflexivity. now rewrite Hsub.
  - erewrite bind_return by reflexivity. now rewrite Hsub.
Qed.

(** The guard for a requester that names its user agent: upload (POST,
    PUT on media), file delete (DELETE on media), finalize (POST on the
    edit IRI) and deposit delete (DELETE on the edit IRI) of a submitted
    deposit are answered with the 400 already-submitted error, and the
    filesystem and the database are as they were. *)
Lemma submitted_deposit_refused (request : HttpRequest) (uuid : string)
    (deposit : Location.t) (w : World) (user_agent : string) :
  Helpers.get_deposit uuid w = (Return (Some deposit), w) ->
  has_been_submitted_for_processing deposit w = true ->
  META request !! "HTTP_USER_AGENT" = Some user_agent ->
  deposit_edit request uuid w
    = (Return (error_response 400 already_submitted w user_agent), w)
  /\ deposit_media request uuid w
    = (Return (error_response 400 already_submitted w user_agent), w).
Proof.
  intros Hdep Hsub Hagent.
  destruct (submitted_deposit_guard request uuid deposit w Hdep Hsub) as [-> ->].
  now rewrite (sword_error_response_with_agent _ _ _ _ _ Hagent).
Qed.

(** No request on a submitted deposit has a side effect. *)
Lemma submitted_deposit_untouched (request : HttpRequest) (uuid : string)
    (deposit : Location.t) (w : World) :
  Helpers.get_deposit uuid w = (Return (Some deposit), w) ->
  has_been_submitted_for_processing deposit w = true ->
  (deposit_edit request uuid w).2 = w /\ (deposit_media request uuid w).2 = w.
Proof.
  intros Hdep Hsub.
  destruct (submitted_deposit_guard request uuid deposit w Hdep Hsub) as [-> ->].
  split; apply sword_error_response_world.
Qed.

End Guard.

(** ** Uploads and their checksum *)

Lemma with_fs_same (w : World) : with_fs (fs w) w = w.
Proof. now destruct w. Qed.

Lemma with_fs_twice (f g : gmap Fs.path Fs.node) (w : World) :
  with_fs f (with_fs g w) = with_fs f w.
Proof. reflexivity. Qed.

Section Upload.

Variable mkstemp : World -> Fs.path.
Variable md5 : string -> string.

Let upload := Sword._handle_upload_request_with_potential_md5_checksum mkstemp md5.

(** A digest that differs from the header: the temporary payload is
    removed again, the world is as it was (the target path in particular),
    and the handler ends in the checksum-mismatch error. *)
Lemma upload_checksum_differs (request : HttpRequest) (file_path : Fs.path)
    (success_status_code : Z) (w : World) (header_md5sum : string) :
  META request !! "HTTP_CONTENT_MD5" = Some header_md5sum ->
  header_md5sum <> md5 (body request) ->
  fs w !! mkstemp w = None ->
  upload request file_path success_status_code w
  = Sword._sword_error_response request 400 (checksum_mismatch header_md5sum) w.
Proof.
  intros Hheader Hdiffers Hfresh. unfold upload.
  unfold Sword._handle_upload_request_with_potential_md5_checksum.
  unfold Helpers.write_request_body_to_temp_file.
  rewrite Hheader.
  unfold bind at 1 2 3, get, put, ret. cbn [fs with_fs].
  unfold Helpers.get_file_md5_checksum, bind at 1 2, get. cbn [fs with_fs].
  rewrite lookup_insert_eq. unfold ret.
  apply String.eqb_neq in Hdiffers. rewrite Hdiffers. cbn [negb].
  unfold bind at 1, Os.remove. cbn [fs with_fs].
  rewrite lookup_insert_eq.
  rewrite delete_insert_id by exact Hfresh.
  now rewrite with_fs_twice, with_fs_same.
Qed.

(** A digest equal to the header: the received bytes are at the target
    path, the temporary payload is gone, nothing else has changed. *)
Lemma upload_checksum_agrees (request : HttpRequest) (file_path : Fs.path)
    (success_status_code : Z) (w : World) (header_md5sum : string) :
  META request !! "HTTP_CONTENT_MD5" = Some header_md5sum ->
  header_md5sum = md5 (body request) ->
  fs w !! mkstemp w = None ->
  mkstemp w <> file_path ->
  fs w !! file_path <> Some Fs.Dir ->
  upload request file_path success_status_code w
  = (Return (response success_status_code),
     with_fs (<[file_path := Fs.File (body request)]> (fs w)) w)
  /\ <[file_path := Fs.File (body request)]> (fs w) !! file_path
     = Some (Fs.File (body request)).
Proof.
  intros Hheader Hagrees Hfresh Hne Hnodir.
  split; [|apply lookup_insert_eq].
  unfold upload.
  unfold Sword._handle_upload_request_with_potential_md5_checksum.
  unfold Helpers.write_request_body_to_temp_file.
  rewrite Hheader.
  unfold bind at 1 2 3, get, put, ret. cbn [fs with_fs].
  unfold Helpers.get_file_md5_checksum, bind at 1 2, get. cbn [fs with_fs].
  rewrite lookup_insert_eq. unfold ret.
  apply String.eqb_eq in Hagrees. rewrite Hagrees. cbn [negb].
  unfold bind at 1, Shutil.copyfile, Os.path_exists, Os.path_isdir.
  cbn [fs with_fs].
  rewrite (bool_decide_eq_false_2 (mkstemp w = file_path)) by exact Hne.
  cbn [andb]. rewrite lookup_insert_eq.
  rewrite lookup_insert_ne by exact Hne.
  rewrite (bool_decide_eq_false_2 (fs w !! file_path = Some Fs.Dir)) by exact Hnodir.
  unfold bind at 1, Os.remove. cbn [fs with_fs].
  rewrite lookup_insert_ne by (intros H; now apply Hne).
  rewrite lookup_insert_eq.
  rewrite delete_insert_ne by (intros H; now apply Hne).
  rewrite delete_insert_id by exact Hfresh.
  reflexivity.
Qed.

End Upload.

(** ** Finalization *)

Section Finalize.

Variable downloading_status : LocationDownloadTask.t -> string.
Variable pad_destination_filepath_if_it_already_exists : Fs.path -> World -> Fs.path.

Let finalize_if_not_empty :=
  Sword._finalize_if_not_empty pad_destination_filepath_if_it_already_exists.
Let finalize_or_mark :=
  Sword._finalize_or_mark_for_finalization downloading_status
    pad_destination_filepath_if_it_already_exists.
Let activate :=
  Sword._activate_transfer_and_request_approval_from_pipeline
    pad_destination_filepath_if_it_already_exists.

(** An empty directory: [_finalize_if_not_empty] declines and touches
    nothing. *)
Lemma finalize_if_not_empty_declines (deposit_uuid : string)
    (deposit : Location.t) (w : World) :
  Helpers.get_deposit deposit_uuid w = (Return (Some deposit), w) ->
  Os.listdir (Location.full_path deposit) w = (Return [], w) ->
  finalize_if_not_empty deposit_uuid w = (Return false, w).
Proof.
  intros Hdep Hls. unfold finalize_if_not_empty, Sword._finalize_if_not_empty.
  rewrite (bind_return _ _ _ _ _ Hdep).
  now rewrite (bind_return _ _ _ _ _ Hls).
Qed.

(** A directory with entries: the deposit is handed to the pipeline, and
    what [_finalize_if_not_empty] returns is never False. *)
Lemma finalize_if_not_empty_proceeds (deposit_uuid : string)
    (deposit : Location.t) (w : World) (names : list string) :
  Helpers.get_deposit deposit_uuid w = (Return (Some deposit), w) ->
  Os.listdir (Location.full_path deposit) w = (Return names, w) ->
  names <> [] ->
  finalize_if_not_empty deposit_uuid w
  = (sword_server <- Db.get_sword_server (Location.space deposit) ;;
     result <- activate deposit sword_server ;;
     if bool_decide (is_Some (result !! "error"))
     then raise (NameError "request")
     else
       w1 <- get ;;
       Db.save_location (Location.set_deposit_completion_time (clock w1) deposit) ;;;
       ret true) w.
Proof.
  intros Hdep Hls Hnames. unfold finalize_if_not_empty, Sword._finalize_if_not_empty.
  rewrite (bind_return _ _ _ _ _ Hdep).
  rewrite (bind_return _ _ _ _ _ Hls).
  destruct names; [congruence | reflexivity].
Qed.

Lemma finalize_if_not_empty_never_false (deposit_uuid : string)
    (deposit : Location.t) (w w' : World) (names : list string) :
  Helpers.get_deposit deposit_uuid w = (Return (Some deposit), w) ->
  Os.listdir (Location.full_path deposit) w = (Return names, w) ->
  names <> [] ->
  finalize_if_not_empty deposit_uuid w <> (Return false, w').
Proof.
  intros Hdep Hls Hnames.
  rewrite (finalize_if_not_empty_proceeds _ _ _ _ Hdep Hls Hnames).
  unfold bind, raise, get, ret.
  destruct (Db.get_sword_server _ w) as [[ss|e] w1]; [|discriminate].
  destruct (activate deposit ss w1) as [[result|e] w2]; [|discriminate].
  destruct (bool_decide _); [discriminate|].
  destruct (Db.save_location _ w2) as [[[]|e] w3]; discriminate.
Qed.

(** Approval without an [error] key: the completion time is stamped. *)
Lemma finalize_if_not_empty_stamps (deposit_uuid : string)
    (deposit : Location.t) (w w1 : World) (names : list string)
    (sword_server : SwordServer.t) (result : gmap string jval) :
  Helpers.get_deposit deposit_uuid w = (Return (Some deposit), w) ->
  Os.listdir (Location.full_path deposit) w = (Return names, w) ->
  names <> [] ->
  Db.get_sword_server (Location.space deposit) w = (Return sword_server, w) ->
  activate deposit sword_server w = (Return result, w1) ->
  result !! "error" = None ->
  finalize_if_not_empty deposit_uuid w
  = (Return true,
     (Db.save_location
        (Location.set_deposit_completion_time (clock w1) deposit) w1).2).
Proof.
  intros Hdep Hls Hnames Hss Hact Hok.
  rewrite (finalize_if_not_empty_proceeds _ _ _ _ Hdep Hls Hnames).
  rewrite (bind_return _ _ _ _ _ Hss).
  rewrite (bind_return _ _ _ _ _ Hact).
  rewrite Hok.
  rewrite bool_decide_eq_false_2 by (intros [? ?]; discriminate).
  reflexivity.
Qed.

(** C3, as amended: a finalize request (In-Progress: false, from a
    requester that names its user agent) for a deposit whose downloads are
    complete is rejected with the Empty error (400, the world as it was,
    hence no completion time stamped) if and only if the deposit directory
    has no entries at the moment of the call.  With at least one entry the
    deposit is handed to the pipeline, and when the approval comes back
    without an [error] key the completion time is stamped with the current
    time and the receipt is answered with 200. *)
Theorem finalize_rejected_iff_empty (request : HttpRequest) (deposit_uuid : string)
    (deposit : Location.t) (w : World) (user_agent : string) (names : list string) :
  Sword.in_progress_is_false request = true ->
  META request !! "HTTP_USER_AGENT" = Some user_agent ->
  Helpers.get_deposit deposit_uuid w = (Return (Some deposit), w) ->
  Sword.deposit_downloading_status downloading_status deposit_uuid w
    = (Return "complete", w) ->
  Os.listdir (Location.full_path deposit) w = (Return names, w) ->
  (finalize_or_mark request deposit_uuid w
     = (Return (error_response 400 no_files w user_agent), w)
   <-> names = [])
  /\ (names <> [] ->
      forall (sword_server : SwordServer.t) (result : gmap string jval) (w1 : World),
        Db.get_sword_server (Location.space deposit) w = (Return sword_server, w) ->
        activate deposit sword_server w = (Return result, w1) ->
        result !! "error" = None ->
        let stamped :=
          (Db.save_location
             (Location.set_deposit_completion_time (clock w1) deposit) w1).2 in
        finalize_if_not_empty deposit_uuid w = (Return true, stamped)
        /\ finalize_or_mark request deposit_uuid w
           = (Return (deposit_receipt deposit_uuid 200), stamped)).
Proof.
  intros Hfinal Hagent Hdep Hstatus Hls.
  assert (finalize_or_mark request deposit_uuid w
          = (completed <- finalize_if_not_empty deposit_uuid ;;
             if (completed : bool)
             then Sword._deposit_receipt_response request deposit_uuid 200
             else Sword._sword_error_response request 400 no_files) w) as Hunfold.
  { unfold finalize_or_mark, Sword._finalize_or_mark_for_finalization.
    rewrite Hfinal. now rewrite (bind_return _ _ _ _ _ Hstatus). }
  split; [split|].
  - intros Hrejected. destruct names as [|name names]; [reflexivity|]. exfalso.
    rewrite Hunfold in Hrejected. unfold bind at 1 in Hrejected.
    destruct (finalize_if_not_empty deposit_uuid w) as [[[]|e] w'] eqn:Hfin.
    + unfold Sword._deposit_receipt_response, Helpers.get_deposit in Hrejected.
      unfold bind, get, ret in Hrejected. discriminate.
    + exact (finalize_if_not_empty_never_false _ _ _ w' (name :: names)
               Hdep Hls ltac:(discriminate) Hfin).
    + discriminate.
  - intros ->. rewrite Hunfold.
    rewrite (bind_return _ _ _ _ _ (finalize_if_not_empty_declines _ _ _ Hdep Hls)).
    now apply sword_error_response_with_agent.
  - intros Hnames sword_server result w1 Hss Hact Hok stamped.
    pose proof (finalize_if_not_empty_stamps _ _ _ _ _ _ _ Hdep Hls Hnames Hss Hact Hok)
      as Hstamps.
    split; [exact Hstamps|].
    rewrite Hunfold. rewrite (bind_return _ _ _ _ _ Hstamps).
    reflexivity.
Qed.

End Finalize.

(** * The properties on concrete deposits *)

Import Scenario.

(** A batch is still running: the aggregate status is incomplete. *)
Lemma deposit_downloading_status_aggregate_witness :
  Helpers.get_deposit "deposit-1" world_pending
    = (Return (Some deposit0), world_pending)
  /\ Sword.deposit_downloading_status task_status "deposit-1" world_pending
     = (Return "incomplete", world_pending).
Proof.
  assert (Helpers.get_deposit "deposit-1" world_pending
          = (Return (Some deposit0), world_pending)) as H by reflexivity.
  split; [exact H|].
  rewrite (deposit_downloading_status_aggregate task_status _ _ _ H).
  reflexivity.
Defined.

(** A local space whose directory is gone, and an NFS space that is not
    in the mount table. *)
Lemma verify_unreachable_space_witness :
  (Backend.probed lost_backend = true
   /\ Backend.reachable lost_backend world0 = false
   /\ exists b', Backend.verify lost_backend world0 = (Return b', world0)
        /\ Space.verified (Backend.space b') = false
        /\ Space.last_verified (Backend.space b') = Some 100)
  /\ (Backend.probed unmounted_backend = true
      /\ Backend.reachable unmounted_backend world0 = false
      /\ exists b', Backend.verify unmounted_backend world0 = (Return b', world0)
           /\ Space.verified (Backend.space b') = false
           /\ Space.last_verified (Backend.space b') = Some 100).
Proof.
  split.
  - split; [reflexivity|]. split; [reflexivity|].
    destruct (verify_unreachable_space lost_backend world0 eq_refl eq_refl)
      as (b' & Hv & _ & Hflag & Htime).
    exists b'. auto.
  - split; [reflexivity|]. split; [reflexivity|].
    destruct (verify_unreachable_space unmounted_backend world0 eq_refl eq_refl)
      as (b' & Hv & _ & Hflag & Htime).
    exists b'. auto.
Defined.

Lemma nfs_verify_not_manually_mounted_witness :
  NFS.manually_mounted automounted_nfs = false
  /\ NFS.verify automounted_nfs world0 = (Return automounted_nfs, world0).
Proof.
  split; [reflexivity|].
  apply (nfs_verify_not_manually_mounted automounted_nfs world0). reflexivity.
Defined.

(** C5: rsync exits with status 23 and [store_aip] still returns None, for
    the local filesystem and for NFS alike: the exit status of the copy is
    dropped, no Transfer error reaches the caller. *)
Theorem store_aip_drops_rsync_status :
  (LocalFilesystem.store_aip uuid_to_path rsync_fails local_backend aip0 world0).1
    = Return None
  /\ (NFS.store_aip uuid_to_path rsync_fails nfs_backend aip0 world0).1
    = Return None.
Proof. split; vm_compute; reflexivity. Qed.

Lemma activate_pipeline_misconfigured_witness :
  (Pipeline.remote_name pipeline_no_key = ""
   \/ Pipeline.api_username pipeline_no_key = ""
   \/ Pipeline.api_key pipeline_no_key = "")
  /\ Sword._activate_transfer_and_request_approval_from_pipeline
       pad deposit0 sword_server_no_key world0
     = (Raise (NameError "request"), world0).
Proof.
  assert (Pipeline.remote_name pipeline_no_key = ""
          \/ Pipeline.api_username pipeline_no_key = ""
          \/ Pipeline.api_key pipeline_no_key = "") as H
    by (right; right; reflexivity).
  split; [exact H|].
  apply (activate_pipeline_misconfigured pad deposit0 sword_server_no_key world0 H).
Defined.

(** The pipeline does not answer: the deposit directory is back where it
    was. *)
Lemma activate_transport_failure_moves_back_witness :
  configured pipeline0 = true
  /\ Db.get_location_of_pipeline pipeline0 Location.CURRENTLY_PROCESSING
       world_pipeline_down = (Return processing0, world_pipeline_down)
  /\ fs world_pipeline_down !! Location.full_path deposit0 = Some Fs.Dir
  /\ nothing_at (watched ++ ["MyDeposit"])%list (fs world_pipeline_down) = true
  /\ Fs.strip (Location.full_path deposit0) (watched ++ ["MyDeposit"])%list = None
  /\ exists result w',
       Sword._activate_transfer_and_request_approval_from_pipeline
         pad deposit0 sword_server0 world_pipeline_down = (Return result, w')
       /\ result !! "error" = Some (JBool true)
       /\ fs w' = fs world_pipeline_down
       /\ locations w' = locations world_pipeline_down.
Proof.
  split; [reflexivity|]. split; [reflexivity|]. split; [reflexivity|].
  split; [vm_compute; reflexivity|]. split; [reflexivity|].
  destruct (activate_transport_failure_moves_back pad deposit0 sword_server0
              processing0 world_pipeline_down)
    as (moved & result & w' & _ & _ & _ & Hrun & Herr & Hfs & Hloc & _).
  - reflexivity.
  - reflexivity.
  - reflexivity.
  - vm_compute; reflexivity.
  - reflexivity.
  - reflexivity.
  - exists result, w'. auto.
Defined.

(** C2: an upload whose Content-MD5 header is not the digest of the
    received bytes, sent without a User-Agent header.  The temporary
    payload is removed and the target path stays absent (the world is as it
    was), but the handler does not return the 400 checksum-mismatch error:
    building the error document raises KeyError. *)
Theorem upload_wrong_digest_without_agent_raises :
  fs world0 !! new_file = None
  /\ Sword._handle_upload_request_with_potential_md5_checksum mkstemp md5
       upload_wrong_digest_without_agent new_file 201 world0
     = (Raise (KeyError "HTTP_USER_AGENT"), world0)
  /\ Sword.deposit_media relocated mkstemp md5
       parse_filename_from_content_disposition
       upload_wrong_digest_without_agent "deposit-1" world0
     = (Raise (KeyError "HTTP_USER_AGENT"), world0).
Proof. split; [reflexivity|]. split; vm_compute; reflexivity. Qed.

(** The same upload from a requester that names itself is answered with
    the 400 error, and nothing has changed. *)
Example upload_wrong_digest_rejected :
  Sword.deposit_media relocated mkstemp md5
    parse_filename_from_content_disposition upload_wrong_digest "deposit-1" world0
  = (Return (error_response 400
               (checksum_mismatch "d41d8cd98f00b204e9800998ecf8427e") world0 agent),
     world0).
Proof. vm_compute. reflexivity. Qed.

(** With the digest of the bytes, the bytes are at the target path. *)
Example upload_right_digest_stored :
  Sword.deposit_media relocated mkstemp md5
    parse_filename_from_content_disposition upload_right_digest "deposit-1" world0
  = (Return (response 201),
     with_fs (<[new_file := Fs.File "hello"]> (fs world0)) world0).
Proof. vm_compute. reflexivity. Qed.

(** C4: a DELETE without a User-Agent header on a deposit that has been
    submitted.  Nothing is touched, on the edit IRI and on the media IRI,
    but the answer is not the 400 already-submitted error: building the
    error document raises KeyError. *)
Theorem submitted_deposit_delete_without_agent_raises :
  relocated deposit0 world_submitted = true
  /\ Sword.deposit_edit task_status relocated pad mkstemp etree_parse
       delete_request_without_agent "deposit-1" world_submitted
     = (Raise (KeyError "HTTP_USER_AGENT"), world_submitted)
  /\ Sword.deposit_media relocated mkstemp md5
       parse_filename_from_content_disposition
       delete_request_without_agent "deposit-1" world_submitted
     = (Raise (KeyError "HTTP_USER_AGENT"), world_submitted).
Proof. split; [reflexivity|]. split; vm_compute; reflexivity. Qed.

(** C3, as stated, fails: the deposit directory has no entries, a batch
    download is still pending, and the finalize request is not rejected
    with the Empty error.  The deposit is flagged ready for finalization
    instead (and the receipt is then lost to the unbound name [uuid]). *)
Lemma finalize_request_on_empty_directory_deferred :
  Os.listdir (Location.full_path deposit0) world_pending
    = (Return [], world_pending)
  /\ Sword.deposit_edit task_status relocated pad mkstemp etree_parse
       finalize_request "deposit-1" world_pending
     <> (Return (error_response 400 no_files world_pending agent), world_pending)
  /\ (Sword.deposit_edit task_status relocated pad mkstemp etree_parse
        finalize_request "deposit-1" world_pending).1
     = Raise (NameError "uuid")
  /\ locations
       (Sword.deposit_edit task_status relocated pad mkstemp etree_parse
          finalize_request "deposit-1" world_pending).2
     = [deposit_ready; processing0].
Proof.
  split; [vm_compute; reflexivity|].
  assert ((Sword.deposit_edit task_status relocated pad mkstemp etree_parse
             finalize_request "deposit-1" world_pending).1
          = Raise (NameError "uuid")) as H by (vm_compute; reflexivity).
  split; [|split; [exact H | vm_compute; reflexivity]].
  intros Heq. rewrite Heq in H. discriminate.
Qed.

(** A batch that ends on an empty directory gives up the finalization
    silently: no error is raised or answered. *)
Example fetch_content_on_empty_directory :
  Sword._fetch_content task_status pad mkdtemp download_resource "deposit-1" []
    (with_locations [deposit_ready; processing0] world_no_files)
  = (Return tt,
     with_download_tasks
       [{| LocationDownloadTask.id := 1;
           LocationDownloadTask.location := "deposit-1";
           LocationDownloadTask.downloads_attempted := 0;
           LocationDownloadTask.downloads_completed := 0;
           LocationDownloadTask.download_completion_time := Some 100 |}]
       (with_locations [deposit_ready; processing0] world_no_files)).
Proof. vm_compute. reflexivity. Qed.

(** The finalize request on a deposit with one file and no pending
    download: the pipeline approves, the completion time is stamped. *)
Lemma finalize_rejected_iff_empty_witness :
  (Sword.in_progress_is_false finalize_request = true
   /\ META finalize_request !! "HTTP_USER_AGENT" = Some agent
   /\ Helpers.get_deposit "deposit-1" world0 = (Return (Some deposit0), world0)
   /\ Sword.deposit_downloading_status task_status "deposit-1" world0
      = (Return "complete", world0)
   /\ Os.listdir (Location.full_path deposit0) world0 = (Return ["joke.jpg"], world0))
  /\ (["joke.jpg"] <> []
      /\ Db.get_sword_server (Location.space deposit0) world0
         = (Return sword_server0, world0)
      /\ Sword._activate_transfer_and_request_approval_from_pipeline
           pad deposit0 sword_server0 world0 = (Return approval, world_approved)
      /\ approval !! "error" = None)
  /\ Sword._finalize_or_mark_for_finalization task_status pad
       finalize_request "deposit-1" world0
     = (Return (deposit_receipt "deposit-1" 200),
        with_locations
          [Location.set_deposit_completion_time 104 deposit0; processing0]
          world_approved).
Proof.
  assert (Sword.in_progress_is_false finalize_request = true) as H1 by reflexivity.
  assert (META finalize_request !! "HTTP_USER_AGENT" = Some agent) as H2
    by reflexivity.
  assert (Helpers.get_deposit "deposit-1" world0 = (Return (Some deposit0), world0))
    as H3 by reflexivity.
  assert (Sword.deposit_downloading_status task_status "deposit-1" world0
          = (Return "complete", world0)) as H4 by reflexivity.
  assert (Os.listdir (Location.full_path deposit0) world0
          = (Return ["joke.jpg"], world0)) as H5 by (vm_compute; reflexivity).
  assert (["joke.jpg"] <> []) as H6 by discriminate.
  assert (Db.get_sword_server (Location.space deposit0) world0
          = (Return sword_server0, world0)) as H7 by reflexivity.
  assert (Sword._activate_transfer_and_request_approval_from_pipeline
            pad deposit0 sword_server0 world0 = (Return approval, world_approved))
    as H8 by (vm_compute; reflexivity).
  assert (approval !! "error" = None) as H9 by reflexivity.
  split; [auto|]. split; [auto|].
  destruct (finalize_rejected_iff_empty task_status pad finalize_request
              "deposit-1" deposit0 world0 agent ["joke.jpg"] H1 H2 H3 H4 H5)
    as [_ Hproceeds].
  destruct (Hproceeds H6 sword_server0 approval world_approved H7 H8 H9)
    as [_ Hanswer].
  rewrite Hanswer. vm_compute. reflexivity.
Defined.

(** Without a User-Agent header the Empty error cannot be built. *)
Example finalize_request_without_agent_raises :
  Sword.deposit_edit task_status relocated pad mkstemp etree_parse
    finalize_request_without_agent "deposit-1" world_no_files
  = (Raise (KeyError "HTTP_USER_AGENT"), world_no_files).
Proof. vm_compute. reflexivity. Qed.

(** The finalize request on a deposit without files and without pending
    downloads is rejected with the Empty error. *)
Example finalize_request_no_files_rejected :
  Sword.deposit_edit task_status relocated pad mkstemp etree_parse
    finalize_request "deposit-1" world_no_files
  = (Return (error_response 400 no_files world_no_files agent), world_no_files).
Proof. vm_compute. reflexivity. Qed.

(** C9: two batches for a deposit that is ready for finalization finish
    in an overlapping window.  Both record their result, both then see the
    deposit ready and fully downloaded, both list the directory, and both
    call the activation: it is invoked twice for the one deposit (the
    second call fails when it finds the directory gone).  One after the
    other, the same two batches call it once. *)
Theorem overlapping_batches_activate_twice :
  (let c := Race.run task_status pad mkdtemp download_resource
              overlapping two_batches in
   Race.activations c = 2%nat
   /\ Race.first c = Race.Finished
   /\ Race.second c = Race.Crashed (IOError 2))
  /\ (let c := Race.run task_status pad mkdtemp download_resource
                 one_after_the_other two_batches in
      Race.activations c = 1%nat
      /\ Race.first c = Race.Finished
      /\ Race.second c = Race.Finished).
Proof. split; vm_compute; repeat split; reflexivity. Qed.

(** When the pipeline does not answer, each of the two activations moves
    the directory, sends its approval request and moves the directory
    back: two requests leave for the one deposit. *)
Example overlapping_batches_two_requests :
  let c := Race.run task_status pad mkdtemp download_resource
             overlapping two_batches_pipeline_down in
  Race.activations c = 2%nat
  /\ length (requests_sent (Race.world c)) = 2%nat.
Proof. vm_compute. split; reflexivity. Qed.


(** * Further properties of the handlers *)

(** ** The state of a deposit *)

Section StateFacts.

Variable downloading_status : LocationDownloadTask.t -> string.

Lemma get_deposit_value (deposit_uuid : string) (w : World) :
  Helpers.get_deposit deposit_uuid w
  = (Return (find (fun l : Location.t =>
                     (Location.uuid l =? deposit_uuid)%string
                     && (Location.purpose l =? Location.SWORD_DEPOSIT)%string)
                  (locations w)), w).
Proof. reflexivity. Qed.

(** [deposit_downloading_status] only reads: it returns the aggregate
    status and leaves the world alone, whether the deposit exists or not. *)
Lemma deposit_downloading_status_reads (deposit_uuid : string) (w : World) :
  Sword.deposit_downloading_status downloading_status deposit_uuid w
  = (Return (aggregate_status downloading_status (tasks_of_deposit deposit_uuid w)), w).
Proof.
  unfold Sword.deposit_downloading_status, tasks_of_deposit.
  rewrite get_deposit_value. cbn [fst].
  erewrite bind_return by reflexivity.
  unfold Db.tasks_of.
  destruct (find _ (locations w)) as [d|].
  - erewrite bind_return by reflexivity.
    set (tasks := filter (fun t => LocationDownloadTask.location t = Location.uuid d)
                         (download_tasks w)).
    rewrite <- status_of_flags.
    destruct (0 <? length tasks)%nat; [|reflexivity].
    erewrite bind_return by apply status_loop.
    simpl.
    destruct (existsb _ tasks); [reflexivity|].
    destruct (forallb _ tasks); reflexivity.
  - reflexivity.
Qed.

(** X1: a GET on the state IRI of an existing deposit answers 200 with the
    aggregate downloading status as state term and "Deposit initiation: "
    followed by it as description.  It needs no User-Agent header, applies
    no submitted-for-processing guard, and leaves the world as it was. *)
Theorem deposit_state_get (request : HttpRequest) (uuid : string)
    (deposit : Location.t) (w : World) :
  Helpers.get_deposit uuid w = (Return (Some deposit), w) ->
  method request = "GET" ->
  let status :=
    aggregate_status downloading_status
      (filter (fun t => LocationDownloadTask.location t = Location.uuid deposit)
              (download_tasks w)) in
  State.deposit_state downloading_status request uuid w
  = (Return {| Page.status_code := 200;
               Page.content := Page.State status ("Deposit initiation: " ++ status);
               Page.headers := [("Content-Type", "application/atom+xml;type=feed")] |},
     w).
Proof.
  intros Hdep Hget status. unfold State.deposit_state.
  rewrite (bind_return _ _ _ _ _ Hdep). rewrite Hget.
  change ("GET" =? "GET")%string with true. cbv iota.
  assert (tasks_of_deposit uuid w
          = filter (fun t => LocationDownloadTask.location t = Location.uuid deposit)
                   (download_tasks w)) as Htasks.
  { unfold tasks_of_deposit. now rewrite Hdep. }
  erewrite bind_return by apply deposit_downloading_status_reads.
  erewrite bind_return by apply deposit_downloading_status_reads.
  rewrite Htasks. reflexivity.
Qed.

(** Any other method is answered 405, for a requester that names its
    user agent, and nothing changes. *)
Lemma deposit_state_other_method (request : HttpRequest) (uuid : string)
    (deposit : Location.t) (w : World) (user_agent : string) :
  Helpers.get_deposit uuid w = (Return (Some deposit), w) ->
  method request <> "GET" ->
  META request !! "HTTP_USER_AGENT" = Some user_agent ->
  State.deposit_state downloading_status request uuid w
  = (Return (Page.of_response
               (error_response 405
                  "This endpoint only responds to the GET HTTP method." w user_agent)),
     w).
Proof.
  intros Hdep Hother Hagent. unfold State.deposit_state.
  rewrite (bind_return _ _ _ _ _ Hdep).
  apply String.eqb_neq in Hother. rewrite Hother.
  now rewrite (bind_return _ _ _ _ _ (sword_error_response_with_agent _ _ _ _ _ Hagent)).
Qed.

End StateFacts.

(** ** Uploads: what is required of the target *)

Section UploadFacts.

Variable mkstemp : World -> Fs.path.
Variable md5 : string -> string.
Variable parse_filename_from_content_disposition : string -> string.

Let handle_upload :=
  Sword._handle_upload_request mkstemp md5 parse_filename_from_content_disposition.
Let store :=
  Sword._handle_upload_request_with_potential_md5_checksum mkstemp md5.
Let filename_of := upload_filename parse_filename_from_content_disposition.

Lemma handle_upload_named (request : HttpRequest) (deposit : Location.t)
    (replace_file : bool) (w : World) (filename : string) :
  filename_of request = Some filename ->
  handle_upload request deposit replace_file w
  = (let file_path := Fs.join (Location.full_path deposit) [filename] in
     if replace_file then
       if Os.path_exists file_path (fs w)
       then store request file_path 204 w
       else Sword._sword_error_response request 400 "File does not exist." w
     else
       if Os.path_exists file_path (fs w)
       then Sword._sword_error_response request 400 "File already exists." w
       else store request file_path 201 w).
Proof.
  unfold filename_of, upload_filename, handle_upload, Sword._handle_upload_request.
  destruct (META request !! "HTTP_CONTENT_DISPOSITION") as [disposition|];
    [|discriminate].
  cbv zeta.
  destruct (parse_filename_from_content_disposition disposition =? "")%string eqn:E;
    [discriminate|].
  intros [= <-]. cbn [negb]. unfold bind at 1, get.
  destruct replace_file;
    destruct (Os.path_exists _ (fs w)); reflexivity.
Qed.

(** X2: adding a file that is already there, or replacing one that is not,
    is refused with 400 ("File already exists." respectively "File does
    not exist.") for a requester that names its user agent; the upload is
    not even written to a temporary file: the world is as it was. *)
Theorem upload_target_precondition (request : HttpRequest) (deposit : Location.t)
    (replace_file : bool) (w : World) (filename user_agent : string) :
  filename_of request = Some filename ->
  META request !! "HTTP_USER_AGENT" = Some user_agent ->
  Os.path_exists (Fs.join (Location.full_path deposit) [filename]) (fs w)
    = negb replace_file ->
  handle_upload request deposit replace_file w
  = (Return (error_response 400
               (if replace_file then "File does not exist." else "File already exists.")
               w user_agent), w).
Proof.
  intros Hname Hagent Hexists.
  rewrite (handle_upload_named _ _ _ _ _ Hname). cbv zeta. rewrite Hexists.
  destruct replace_file; cbn [negb];
    now apply sword_error_response_with_agent.
Qed.

(** An upload without Content-MD5 header, or with the digest of its body,
    is stored: the body is at the target path, the temporary payload is
    gone, nothing else has changed. *)
Lemma store_accepted (request : HttpRequest) (file_path : Fs.path)
    (success_status_code : Z) (w : World) :
  checksum_accepted md5 request = true ->
  fs w !! mkstemp w = None ->
  mkstemp w <> file_path ->
  fs w !! file_path <> Some Fs.Dir ->
  store request file_path success_status_code w
  = (Return (response success_status_code),
     with_fs (<[file_path := Fs.File (body request)]> (fs w)) w).
Proof.
  intros Haccepted Hfresh Hne Hnodir. unfold checksum_accepted in Haccepted.
  unfold store, Sword._handle_upload_request_with_potential_md5_checksum.
  unfold Helpers.write_request_body_to_temp_file.
  unfold bind at 1 2 3, get, put, ret. cbn [fs with_fs].
  assert ((Shutil.copyfile (mkstemp w) file_path ;;;
           Os.remove (mkstemp w) ;;;
           (fun s : World => (Return (response success_status_code), s)))
            (with_fs (<[mkstemp w := Fs.File (body request)]> (fs w)) w)
          = (Return (response success_status_code),
             with_fs (<[file_path := Fs.File (body request)]> (fs w)) w)) as Hcopy.
  { unfold bind at 1, Shutil.copyfile, Os.path_exists, Os.path_isdir.
    cbn [fs with_fs].
    rewrite (bool_decide_eq_false_2 (mkstemp w = file_path)) by exact Hne.
    cbn [andb]. rewrite lookup_insert_eq.
    rewrite lookup_insert_ne by exact Hne.
    rewrite (bool_decide_eq_false_2 (fs w !! file_path = Some Fs.Dir)) by exact Hnodir.
    unfold bind at 1, Os.remove. cbn [fs with_fs].
    rewrite lookup_insert_ne by (intros H; now apply Hne).
    rewrite lookup_insert_eq.
    rewrite delete_insert_ne by (intros H; now apply Hne).
    rewrite delete_insert_id by exact Hfresh.
    reflexivity. }
  destruct (META request !! "HTTP_CONTENT_MD5") as [header|].
  - unfold Helpers.get_file_md5_checksum, bind at 1 2, get. cbn [fs with_fs].
    rewrite lookup_insert_eq. unfold ret at 1.
    rewrite Haccepted. cbn [negb]. exact Hcopy.
  - exact Hcopy.
Qed.


(** X4: a file that has been added can be replaced: after the PUT the
    target path holds the bytes of the second upload, and nothing else has
    changed with respect to the world before the two uploads. *)
Theorem add_then_replace (first second : HttpRequest) (deposit : Location.t)
    (w : World) (filename : string) :
  let file_path := Fs.join (Location.full_path deposit) [filename] in
  let stored := with_fs (<[file_path := Fs.File (body first)]> (fs w)) w in
  filename_of first = Some filename ->
  filename_of second = Some filename ->
  checksum_accepted md5 first = true ->
  checksum_accepted md5 second = true ->
  fs w !! file_path = None ->
  fs w !! mkstemp w = None ->
  mkstemp w <> file_path ->
  fs stored !! mkstemp stored = None ->
  (handle_upload first deposit false ;;; handle_upload second deposit true) w
  = (Return (response 204),
     with_fs (<[file_path := Fs.File (body second)]> (fs w)) w).
Proof.
  intros file_path stored Hfirst Hsecond Hacc1 Hacc2 Habsent Hfresh Hne Hfresh2.
  assert (handle_upload first deposit false w = (Return (response 201), stored)) as Hadd.
  { rewrite (handle_upload_named _ _ _ _ _ Hfirst). cbv zeta. fold file_path.
    unfold Os.path_exists. rewrite Habsent.
    rewrite bool_decide_eq_false_2 by (intros [? ?]; discriminate).
    apply store_accepted; auto. rewrite Habsent. discriminate. }
  rewrite (bind_return _ _ _ _ _ Hadd).
  rewrite (handle_upload_named _ _ _ _ _ Hsecond). cbv zeta. fold file_path.
  assert (fs stored !! file_path = Some (Fs.File (body first))) as Hthere
    by apply lookup_insert_eq.
  unfold Os.path_exists. rewrite Hthere.
  rewrite bool_decide_eq_true_2 by eauto.
  unfold store. rewrite store_accepted; auto.
  - unfold stored. cbn [fs with_fs]. now rewrite insert_insert_eq.
  - intros Heq. rewrite Heq, Hthere in Hfresh2. discriminate.
  - rewrite Hthere. discriminate.
Qed.

End UploadFacts.


(** ** Deleting files *)

Lemma strip_app_None (p q k : Fs.path) :
  Fs.strip p k = None -> Fs.strip (p ++ q)%list k = None.
Proof.
  revert k. induction p as [|a p IH]; intros k; simpl; [discriminate|].
  destruct k as [|b k]; [reflexivity|].
  destruct (decide (a = b)); [apply IH | reflexivity].
Qed.

Lemma strip_longer (p : Fs.path) (a : string) (r : Fs.path) :
  Fs.strip (p ++ a :: r)%list p = None.
Proof.
  induction p as [|b p IH]; simpl; [reflexivity|].
  now rewrite decide_True.
Qed.

Lemma lookup_prune (p k : Fs.path) (f : gmap Fs.path Fs.node) :
  Os.prune p f !! k = match Fs.strip p k with Some _ => None | None => f !! k end.
Proof.
  unfold Os.prune. destruct (Fs.strip p k) eqn:E.
  - apply map_lookup_filter_None. right. intros v _. simpl. congruence.
  - destruct (f !! k) as [v|] eqn:Hk.
    + apply map_lookup_filter_Some. auto.
    + apply map_lookup_filter_None. now left.
Qed.

Lemma elem_of_children (p : Fs.path) (f : gmap Fs.path Fs.node) (name : string) :
  name ∈ Os.children p f <-> is_Some (f !! (p ++ [name])%list).
Proof.
  unfold Os.children. rewrite list_elem_of_omap. split.
  - intros ([k v] & Hin%elem_of_map_to_list & Hname). simpl in Hname.
    destruct (Fs.strip p k) as [[|n [|? ?]]|] eqn:E; try discriminate.
    injection Hname as ->. rewrite <- (strip_Some _ _ _ E). eauto.
  - intros [v Hv]. exists ((p ++ [name])%list, v). split.
    + now apply elem_of_map_to_list.
    + simpl. now rewrite strip_app.
Qed.

Section ClearEntry.

Variable p : Fs.path.

(** A round only removes entries. *)
Lemma clear_entry_lookup (f : gmap Fs.path Fs.node) (name : string)
    (k : Fs.path) (v : Fs.node) :
  clear_entry p f name !! k = Some v -> f !! k = Some v.
Proof.
  unfold clear_entry. cbv zeta.
  destruct (Os.path_isfile _ f).
  - intros H. apply lookup_delete_Some in H. tauto.
  - destruct (Os.path_isdir _ f); [|trivial].
    rewrite lookup_prune. now destruct (Fs.strip _ k).
Qed.

Lemma clear_all_lookup (names : list string) (f : gmap Fs.path Fs.node)
    (k : Fs.path) (v : Fs.node) :
  foldl (clear_entry p) f names !! k = Some v -> f !! k = Some v.
Proof.
  revert f. induction names as [|name names IH]; intros f; simpl; [trivial|].
  intros H. apply IH in H. now apply clear_entry_lookup in H.
Qed.

(** The entry of the round is gone after it. *)
Lemma clear_entry_gone (f : gmap Fs.path Fs.node) (name : string) :
  clear_entry p f name !! (p ++ [name])%list = None.
Proof.
  unfold clear_entry, Fs.join, Os.path_isfile, Os.path_isdir. cbv zeta.
  destruct (f !! (p ++ [name])%list) as [[data|]|] eqn:E.
  - apply lookup_delete_eq.
  - rewrite bool_decide_eq_true_2 by reflexivity.
    rewrite lookup_prune. now rewrite strip_self.
  - rewrite bool_decide_eq_false_2 by discriminate. exact E.
Qed.

Lemma clear_all_gone (names : list string) (f : gmap Fs.path Fs.node)
    (name : string) :
  name ∈ names -> foldl (clear_entry p) f names !! (p ++ [name])%list = None.
Proof.
  revert f. induction names as [|n names IH]; intros f Hin; simpl.
  - now apply elem_of_nil in Hin.
  - apply elem_of_cons in Hin. destruct Hin as [-> | Hin]; [|now apply IH].
    apply eq_None_not_Some. intros [v Hv].
    apply clear_all_lookup in Hv. now rewrite clear_entry_gone in Hv.
Qed.

(** What is not below the directory stays. *)
Lemma clear_entry_outside (f : gmap Fs.path Fs.node) (name : string) (k : Fs.path) :
  Fs.strip (p ++ [name])%list k = None ->
  clear_entry p f name !! k = f !! k.
Proof.
  intros Hout. unfold clear_entry, Fs.join. cbv zeta.
  destruct (Os.path_isfile _ f).
  - apply lookup_delete_ne. intros <-. now rewrite strip_self in Hout.
  - destruct (Os.path_isdir _ f); [|reflexivity].
    rewrite lookup_prune. now rewrite Hout.
Qed.

Lemma clear_all_outside (names : list string) (f : gmap Fs.path Fs.node)
    (k : Fs.path) :
  (forall name, Fs.strip (p ++ [name])%list k = None) ->
  foldl (clear_entry p) f names !! k = f !! k.
Proof.
  intros Hout. revert f. induction names as [|name names IH]; intros f; simpl.
  - reflexivity.
  - rewrite IH. now apply clear_entry_outside.
Qed.

(** After all the rounds the directory has no entries. *)
Lemma clear_all_children (f : gmap Fs.path Fs.node) :
  Os.children p (foldl (clear_entry p) f (Os.children p f)) = [].
Proof.
  apply elem_of_nil_inv. intros name Hin.
  apply elem_of_children in Hin. destruct Hin as [v Hv].
  pose proof (clear_all_lookup _ _ _ _ Hv) as Hbefore.
  rewrite clear_all_gone in Hv; [discriminate|].
  apply elem_of_children. eauto.
Qed.

(** The loop of the handler is these rounds. *)
Lemma clear_loop (names : list string) (w : World) :
  for_each names
    (fun filename (_ : unit) =>
       let filepath := Fs.join p [filename] in
       w <- get ;;
       if Os.path_isfile filepath (fs w) then Os.remove filepath
       else if Os.path_isdir filepath (fs w) then Shutil.rmtree filepath
       else ret tt) tt w
  = (Return tt, with_fs (foldl (clear_entry p) (fs w) names) w).
Proof.
  revert w. induction names as [|name names IH]; intros w; simpl.
  - unfold ret. now rewrite with_fs_same.
  - assert ((w0 <- get ;;
             if Os.path_isfile (Fs.join p [name]) (fs w0) then Os.remove (Fs.join p [name])
             else if Os.path_isdir (Fs.join p [name]) (fs w0)
                  then Shutil.rmtree (Fs.join p [name])
                  else ret tt) w
            = (Return tt, with_fs (clear_entry p (fs w) name) w)) as Hround.
    { unfold bind, get, clear_entry, Os.path_isfile, Os.path_isdir, Os.remove,
        Shutil.rmtree. cbv zeta.
      destruct (fs w !! Fs.join p [name]) as [[data|]|] eqn:E; rewrite ?E.
      - reflexivity.
      - rewrite bool_decide_eq_true_2 by reflexivity. now rewrite E.
      - rewrite bool_decide_eq_false_2 by discriminate.
        unfold ret. now rewrite with_fs_same. }
    rewrite (bind_return _ _ _ _ _ Hround). rewrite IH. reflexivity.
Qed.

End ClearEntry.

Lemma get_deposit_with_fs (uuid : string) (f : gmap Fs.path Fs.node) (w : World)
    (found : option Location.t) :
  Helpers.get_deposit uuid w = (Return found, w) ->
  Helpers.get_deposit uuid (with_fs f w) = (Return found, with_fs f w).
Proof. rewrite !get_deposit_value. cbn [locations with_fs]. congruence. Qed.

Section MediaFacts.

Variable has_been_submitted_for_processing : Location.t -> World -> bool.
Variable mkstemp : World -> Fs.path.
Variable md5 : string -> string.
Variable parse_filename_from_content_disposition : string -> string.

Let deposit_media :=
  Sword.deposit_media has_been_submitted_for_processing mkstemp md5
    parse_filename_from_content_disposition.
Let handle_upload :=
  Sword._handle_upload_request mkstemp md5 parse_filename_from_content_disposition.

(** The handler past its two guards. *)
Lemma deposit_media_open (request : HttpRequest) (uuid : string)
    (deposit : Location.t) (w : World) :
  Helpers.get_deposit uuid w = (Return (Some deposit), w) ->
  has_been_submitted_for_processing deposit w = false ->
  deposit_media request uuid w
  = (if (method request =? "GET")%string then
       names <- Os.listdir (Location.full_path deposit) ;;
       ret {| status_code := 200; content := Listing names; headers := [] |}
     else if (method request =? "PUT")%string then handle_upload request deposit true
     else if (method request =? "POST")%string then handle_upload request deposit false
     else if (method request =? "DELETE")%string then
       let filename := default "" (GET request !! "filename") in
       if negb (filename =? "")%string then
         let file_path := Fs.join (Location.full_path deposit) [filename] in
         w <- get ;;
         if Os.path_exists file_path (fs w) then
           Os.remove file_path ;;; ret (response 204)
         else
           Sword._sword_error_response request 404
             ("The path to this file (" ++ Fs.render file_path ++ ") does not exist.")
       else
         names <- Os.listdir (Location.full_path deposit) ;;
         for_each names
           (fun filename (_ : unit) =>
              let filepath := Fs.join (Location.full_path deposit) [filename] in
              w <- get ;;
              if Os.path_isfile filepath (fs w) then Os.remove filepath
              else if Os.path_isdir filepath (fs w) then Shutil.rmtree filepath
              else ret tt) tt ;;;
         ret (response 204)
     else
       Sword._sword_error_response request 405
         "This endpoint only responds to the GET, POST, PUT, and DELETE HTTP methods.") w.
Proof.
  intros Hdep Hopen. unfold deposit_media, Sword.deposit_media.
  rewrite (bind_return _ _ _ _ _ Hdep).
  erewrite bind_return by reflexivity. now rewrite Hopen.
Qed.

(** X5: a file that is added and then deleted by name leaves no trace: the
    POST answers 201, the DELETE answers 204, and the world is exactly the
    one before the upload. *)
Theorem add_then_delete_restores (upload delete : HttpRequest) (uuid : string)
    (deposit : Location.t) (w : World) (filename : string) :
  let file_path := Fs.join (Location.full_path deposit) [filename] in
  let stored := with_fs (<[file_path := Fs.File (body upload)]> (fs w)) w in
  Helpers.get_deposit uuid w = (Return (Some deposit), w) ->
  has_been_submitted_for_processing deposit w = false ->
  has_been_submitted_for_processing deposit stored = false ->
  method upload = "POST" ->
  upload_filename parse_filename_from_content_disposition upload = Some filename ->
  checksum_accepted md5 upload = true ->
  method delete = "DELETE" ->
  GET delete !! "filename" = Some filename ->
  fs w !! file_path = None ->
  fs w !! mkstemp w = None ->
  mkstemp w <> file_path ->
  deposit_media upload uuid w = (Return (response 201), stored)
  /\ deposit_media delete uuid stored = (Return (response 204), w).
Proof.
  intros file_path stored Hdep Hopen Hopen' Hpost Hname Hacc Hdelete Hparam
    Habsent Hfresh Hne.
  assert (filename <> "") as Hnonempty.
  { unfold upload_filename in Hname.
    destruct (META upload !! "HTTP_CONTENT_DISPOSITION"); [|discriminate].
    cbv zeta in Hname.
    destruct (_ =? "")%string eqn:E; [discriminate|].
    injection Hname as <-. now apply String.eqb_neq. }
  split.
  - rewrite (deposit_media_open _ _ _ _ Hdep Hopen). rewrite Hpost.
    change ("POST" =? "GET")%string with false.
    change ("POST" =? "PUT")%string with false.
    change ("POST" =? "POST")%string with true. cbv iota.
    unfold handle_upload.
    rewrite (handle_upload_named _ _ _ _ _ _ _ _ Hname). cbv zeta. fold file_path.
    unfold Os.path_exists. rewrite Habsent.
    rewrite bool_decide_eq_false_2 by (intros [? ?]; discriminate).
    apply store_accepted; auto. rewrite Habsent. discriminate.
  - rewrite (deposit_media_open _ _ _ _ (get_deposit_with_fs _ _ _ _ Hdep) Hopen').
    rewrite Hdelete.
    change ("DELETE" =? "GET")%string with false.
    change ("DELETE" =? "PUT")%string with false.
    change ("DELETE" =? "POST")%string with false.
    change ("DELETE" =? "DELETE")%string with true. cbv iota.
    rewrite Hparam. unfold default. cbn [from_option id]. cbv zeta.
    apply String.eqb_neq in Hnonempty. rewrite Hnonempty. cbn [negb].
    fold file_path.
    unfold bind at 1, get, Os.path_exists. cbn [fs with_fs stored].
    rewrite lookup_insert_eq. rewrite bool_decide_eq_true_2 by eauto.
    unfold bind at 1, Os.remove. cbn [fs with_fs]. rewrite lookup_insert_eq.
    rewrite delete_insert_id by exact Habsent.
    unfold ret. now rewrite with_fs_twice, with_fs_same.
Qed.

(** X6: a DELETE on the media IRI without a file name empties the deposit
    directory: it answers 204 without raising, afterwards the directory is
    still there and lists no entry, and nothing outside of it has been
    touched. *)
Theorem delete_all_empties_directory (request : HttpRequest) (uuid : string)
    (deposit : Location.t) (w : World) :
  let directory := Location.full_path deposit in
  Helpers.get_deposit uuid w = (Return (Some deposit), w) ->
  has_been_submitted_for_processing deposit w = false ->
  method request = "DELETE" ->
  GET request !! "filename" = None ->
  fs w !! directory = Some Fs.Dir ->
  exists w',
    deposit_media request uuid w = (Return (response 204), w')
    /\ Os.listdir directory w' = (Return [], w')
    /\ (forall k, Fs.strip directory k = None -> fs w' !! k = fs w !! k)
    /\ locations w' = locations w.
Proof.
  intros directory Hdep Hopen Hdelete Hparam Hdir.
  exists (with_fs (foldl (clear_entry directory) (fs w) (Os.children directory (fs w))) w).
  split; [|split; [|split]].
  - rewrite (deposit_media_open _ _ _ _ Hdep Hopen). rewrite Hdelete.
    change ("DELETE" =? "GET")%string with false.
    change ("DELETE" =? "PUT")%string with false.
    change ("DELETE" =? "POST")%string with false.
    change ("DELETE" =? "DELETE")%string with true. cbv iota.
    rewrite Hparam. unfold default. cbn [from_option id]. cbv zeta.
    change ("" =? "")%string with true. cbn [negb].
    fold directory.
    assert (Os.listdir directory w = (Return (Os.children directory (fs w)), w))
      as Hls by (unfold Os.listdir; now rewrite Hdir).
    rewrite (bind_return _ _ _ _ _ Hls).
    rewrite (bind_return _ _ _ _ _ (clear_loop directory _ w)).
    reflexivity.
  - unfold Os.listdir. cbn [fs with_fs].
    rewrite clear_all_outside by (intros name; apply strip_longer).
    rewrite Hdir. now rewrite clear_all_children.
  - intros k Hout. cbn [fs with_fs].
    apply clear_all_outside. intros name. now apply strip_app_None.
  - reflexivity.
Qed.

End MediaFacts.

(** ** Deleting and finalizing over the edit IRI *)

Lemma find_filtered_out (uuid : string) (rows : list Location.t) :
  find (fun l : Location.t =>
          (Location.uuid l =? uuid)%string
          && (Location.purpose l =? Location.SWORD_DEPOSIT)%string)
       (filter (fun r => Location.uuid r <> uuid) rows)
  = None.
Proof.
  destruct (find _ _) as [x|] eqn:E; [|reflexivity].
  apply find_some in E. destruct E as [Hin Hx].
  apply list_elem_of_In, list_elem_of_filter in Hin. destruct Hin as [Hne _].
  apply andb_true_iff in Hx. destruct Hx as [Hx%String.eqb_eq _]. contradiction.
Qed.

Lemma get_deposit_uuid (uuid : string) (deposit : Location.t) (w : World) :
  Helpers.get_deposit uuid w = (Return (Some deposit), w) ->
  Location.uuid deposit = uuid.
Proof.
  rewrite get_deposit_value. intros [= H].
  apply find_some in H. destruct H as [_ H].
  apply andb_true_iff in H. destruct H as [H _]. now apply String.eqb_eq.
Qed.

Section EditFacts.

Variable downloading_status : LocationDownloadTask.t -> string.
Variable has_been_submitted_for_processing : Location.t -> World -> bool.
Variable pad_destination_filepath_if_it_already_exists : Fs.path -> World -> Fs.path.
Variable mkstemp : World -> Fs.path.
Variable md5 : string -> string.
Variable parse_filename_from_content_disposition : string -> string.
Variable etree_parse : string -> option Sword.mets.

Let deposit_edit :=
  Sword.deposit_edit downloading_status has_been_submitted_for_processing
    pad_destination_filepath_if_it_already_exists mkstemp etree_parse.
Let deposit_media :=
  Sword.deposit_media has_been_submitted_for_processing mkstemp md5
    parse_filename_from_content_disposition.

(** X7: a DELETE on the edit IRI of a deposit that has not been submitted
    answers 204, removes the deposit directory with everything below it and
    nothing else, and removes the deposit row: from then on the edit and
    media IRIs answer 404 to a requester that names its user agent. *)
Theorem delete_deposit_removes (request : HttpRequest) (uuid : string)
    (deposit : Location.t) (w : World) :
  let directory := Location.full_path deposit in
  Helpers.get_deposit uuid w = (Return (Some deposit), w) ->
  has_been_submitted_for_processing deposit w = false ->
  method request = "DELETE" ->
  fs w !! directory = Some Fs.Dir ->
  exists w',
    deposit_edit request uuid w = (Return (response 204), w')
    /\ (forall k, is_Some (Fs.strip directory k) -> fs w' !! k = None)
    /\ (forall k, Fs.strip directory k = None -> fs w' !! k = fs w !! k)
    /\ Helpers.get_deposit uuid w' = (Return None, w')
    /\ (forall (later : HttpRequest) (user_agent : string),
          META later !! "HTTP_USER_AGENT" = Some user_agent ->
          let gone := error_response 404
                        ("Deposit location " ++ uuid ++ " does not exist.")
                        w' user_agent in
          deposit_edit later uuid w' = (Return gone, w')
          /\ deposit_media later uuid w' = (Return gone, w')).
Proof.
  intros directory Hdep Hopen Hdelete Hdir.
  pose proof (get_deposit_uuid _ _ _ Hdep) as Huuid.
  set (w1 := with_fs (Os.prune directory (fs w)) w).
  set (w' := with_download_tasks
               (filter (fun t => LocationDownloadTask.location t <> Location.uuid deposit)
                       (download_tasks w1))
               (with_locations
                  (filter (fun r => Location.uuid r <> Location.uuid deposit)
                          (locations w1)) w1)).
  assert (Helpers.get_deposit uuid w' = (Return None, w')) as Hgone.
  { rewrite get_deposit_value. unfold w'. cbn [locations with_download_tasks with_locations].
    rewrite Huuid. now rewrite find_filtered_out. }
  exists w'. split; [|split; [|split; [|split]]].
  - unfold deposit_edit, Sword.deposit_edit.
    rewrite (bind_return _ _ _ _ _ Hdep).
    erewrite bind_return by reflexivity. rewrite Hopen, Hdelete.
    change ("DELETE" =? "GET")%string with false.
    change ("DELETE" =? "POST")%string with false.
    change ("DELETE" =? "PUT")%string with false.
    change ("DELETE" =? "DELETE")%string with true. cbv iota.
    assert (Shutil.rmtree (Location.full_path deposit) w = (Return tt, w1)) as Hrm
      by (unfold Shutil.rmtree; fold directory; now rewrite Hdir).
    rewrite (bind_return _ _ _ _ _ Hrm). unfold w1 at 1.
    rewrite (bind_return _ _ _ _ _ (get_deposit_with_fs _ _ _ _ Hdep)).
    reflexivity.
  - intros k [r Hr]. cbn [fs with_fs w' w1 with_download_tasks with_locations].
    rewrite lookup_prune. now rewrite Hr.
  - intros k Hout. cbn [fs with_fs w' w1 with_download_tasks with_locations].
    rewrite lookup_prune. now rewrite Hout.
  - exact Hgone.
  - intros later user_agent Hagent gone. split.
    + unfold deposit_edit, Sword.deposit_edit.
      rewrite (bind_return _ _ _ _ _ Hgone).
      now apply sword_error_response_with_agent.
    + unfold deposit_media, Sword.deposit_media.
      rewrite (bind_return _ _ _ _ _ Hgone).
      now apply sword_error_response_with_agent.
Qed.

End EditFacts.

(** ** The activation, step by step *)

Section ActivateFacts.

Variable pad_destination_filepath_if_it_already_exists : Fs.path -> World -> Fs.path.

Let activate :=
  Sword._activate_transfer_and_request_approval_from_pipeline
    pad_destination_filepath_if_it_already_exists.
Let finalize_if_not_empty :=
  Sword._finalize_if_not_empty pad_destination_filepath_if_it_already_exists.

(** With the pipeline configured, its processing location found, the
    deposit directory in place and the destination free, the activation
    moves the directory, waits, sends the request, and either returns the
    answer or moves the directory back and returns the failure dict. *)
Lemma activate_runs (deposit : Location.t) (sword_server : SwordServer.t)
    (processing_location : Location.t) (w : World) :
  let pipeline := SwordServer.pipeline sword_server in
  let src := Location.full_path deposit in
  let dst := pad_destination_filepath_if_it_already_exists
               (transfer_destination deposit processing_location) w in
  let sent := after_approval_request deposit pipeline dst w in
  configured pipeline = true ->
  Db.get_location_of_pipeline pipeline Location.CURRENTLY_PROCESSING w
    = (Return processing_location, w) ->
  fs w !! src = Some Fs.Dir ->
  nothing_at dst (fs w) = true ->
  Fs.strip src dst = None ->
  activate deposit sword_server w
  = match pipeline_api w (approval_url pipeline) (approval_data pipeline dst) with
    | Some answer => (Return answer, sent)
    | None => (Return (transport_failure pipeline), with_fs (fs w) sent)
    end.
Proof.
  intros pipeline src dst sent Hconf Hproc Hsrc Hfree Hnotin.
  destruct (move_directory_to_free_place src dst w Hsrc Hfree Hnotin)
    as (Hmove & _ & _).
  pose proof (fun w1 => move_directory_back src dst w w1 Hsrc Hfree Hnotin) as Hback.
  subst sent pipeline src dst.
  unfold after_approval_request, transport_failure, approval_url, approval_data,
    transfer_destination in *.
  unfold activate, Sword._activate_transfer_and_request_approval_from_pipeline.
  rewrite configured_passes_check by exact Hconf.
  erewrite bind_return by exact Hproc.
  erewrite bind_return by reflexivity.
  cbv zeta.
  erewrite bind_return by exact Hmove.
  erewrite bind_return by reflexivity.
  unfold Sword.urlopen, bind at 1 2 3, get, put, raise.
  cbn [pipeline_api with_requests_sent with_clock with_fs].
  destruct (pipeline_api w _ _) as [answer|].
  - reflexivity.
  - rewrite Hback by reflexivity. reflexivity.
Qed.

(** X8: when the pipeline answers, the activation returns the answer as it
    is, the whole deposit directory has moved from its path to the
    (padded) destination under the watched directory, exactly one approval
    request has been sent, carrying the credentials and the name of the
    moved directory, and no database row has changed. *)
Theorem activate_relocates (deposit : Location.t) (sword_server : SwordServer.t)
    (processing_location : Location.t) (w : World) (answer : gmap string jval) :
  let pipeline := SwordServer.pipeline sword_server in
  let src := Location.full_path deposit in
  let dst := pad_destination_filepath_if_it_already_exists
               (transfer_destination deposit processing_location) w in
  configured pipeline = true ->
  Db.get_location_of_pipeline pipeline Location.CURRENTLY_PROCESSING w
    = (Return processing_location, w) ->
  fs w !! src = Some Fs.Dir ->
  nothing_at dst (fs w) = true ->
  Fs.strip src dst = None ->
  pipeline_api w (approval_url pipeline) (approval_data pipeline dst) = Some answer ->
  exists w',
    activate deposit sword_server w = (Return answer, w')
    /\ (forall rest, fs w' !! (dst ++ rest)%list = fs w !! (src ++ rest)%list)
    /\ (forall rest, fs w' !! (src ++ rest)%list = None)
    /\ requests_sent w'
       = (requests_sent w
            ++ [("http://" +:+ Pipeline.remote_name pipeline +:+ "/api/transfer/approve/",
                 [("username", Pipeline.api_username pipeline);
                  ("api_key", Pipeline.api_key pipeline);
                  ("directory", Fs.basename dst);
                  ("type", "standard")])])%list
    /\ locations w' = locations w
    /\ download_tasks w' = download_tasks w.
Proof.
  intros pipeline src dst Hconf Hproc Hsrc Hfree Hnotin Hanswer.
  pose proof (activate_runs deposit sword_server processing_location w
                Hconf Hproc Hsrc Hfree Hnotin) as Hrun.
  cbv zeta in Hrun. fold pipeline src dst in Hrun. rewrite Hanswer in Hrun.
  pose proof (nothing_at_spec _ _ Hfree) as Hfree'.
  eexists. split; [exact Hrun|].
  unfold after_approval_request. cbn [fs with_requests_sent with_clock with_fs].
  fold src. repeat split.
  - intros rest. rewrite lookup_rename_tree by exact Hfree'.
    now rewrite strip_app.
  - intros rest. rewrite lookup_rename_tree by exact Hfree'.
    destruct (Fs.strip dst (src ++ rest)%list) as [r|] eqn:E.
    + apply eq_None_not_Some. intros Hsome.
      destruct (strip_comparable _ _ _ _ _ E (strip_app src rest)) as [[x Hx]|[x Hx]].
      * rewrite (Hfree' src) in Hx by eauto. discriminate.
      * fold src dst in Hnotin. congruence.
    + now rewrite strip_app.
Qed.

(** X9: when there is not exactly one processing location for the
    pipeline, the activation raises what [objects.get] raises
    (DoesNotExist for none, MultipleObjectsReturned for several) before
    anything is moved or sent: the world is as it was. *)
Theorem activate_without_processing_location (deposit : Location.t)
    (sword_server : SwordServer.t) (w : World) :
  let pipeline := SwordServer.pipeline sword_server in
  let rows := filter (fun l => Location.pipeline l = Some (Pipeline.uuid pipeline)
                               /\ Location.purpose l = Location.CURRENTLY_PROCESSING)
                     (locations w) in
  configured pipeline = true ->
  length rows <> 1%nat ->
  activate deposit sword_server w
  = (Raise (match rows with [] => DoesNotExist | _ => MultipleObjectsReturned end), w).
Proof.
  intros pipeline rows Hconf Hrows.
  unfold activate, Sword._activate_transfer_and_request_approval_from_pipeline.
  rewrite configured_passes_check by exact Hconf.
  unfold Db.get_location_of_pipeline. unfold bind at 1 2, get.
  fold pipeline rows. unfold Db.get_one.
  destruct rows as [|r [|r' rows']]; [reflexivity | | reflexivity].
  now contradiction Hrows.
Qed.

(** X10: the pipeline answers with a dict that has an [error] key,
    whatever its value.  [_finalize_if_not_empty] then raises NameError (the
    unbound [request]), the completion time is not stamped, and the deposit
    directory stays where the activation has moved it: under the watched
    directory, no longer at the deposit path. *)
Theorem finalize_when_pipeline_reports_error (deposit_uuid : string)
    (deposit : Location.t) (names : list string) (sword_server : SwordServer.t)
    (processing_location : Location.t) (w : World) (answer : gmap string jval) :
  let pipeline := SwordServer.pipeline sword_server in
  let src := Location.full_path deposit in
  let dst := pad_destination_filepath_if_it_already_exists
               (transfer_destination deposit processing_location) w in
  Helpers.get_deposit deposit_uuid w = (Return (Some deposit), w) ->
  Os.listdir src w = (Return names, w) ->
  names <> [] ->
  Db.get_sword_server (Location.space deposit) w = (Return sword_server, w) ->
  configured pipeline = true ->
  Db.get_location_of_pipeline pipeline Location.CURRENTLY_PROCESSING w
    = (Return processing_location, w) ->
  nothing_at dst (fs w) = true ->
  Fs.strip src dst = None ->
  pipeline_api w (approval_url pipeline) (approval_data pipeline dst) = Some answer ->
  is_Some (answer !! "error") ->
  exists w',
    finalize_if_not_empty deposit_uuid w = (Raise (NameError "request"), w')
    /\ fs w' !! src = None
    /\ fs w' !! dst = Some Fs.Dir
    /\ locations w' = locations w.
Proof.
  intros pipeline src dst Hdep Hls Hnames Hss Hconf Hproc Hfree Hnotin Hanswer Herror.
  assert (fs w !! src = Some Fs.Dir) as Hsrc.
  { unfold Os.listdir in Hls. destruct (fs w !! src) as [[|]|]; congruence. }
  pose proof (activate_runs deposit sword_server processing_location w
                Hconf Hproc Hsrc Hfree Hnotin) as Hrun.
  cbv zeta in Hrun. fold pipeline src dst in Hrun. rewrite Hanswer in Hrun.
  destruct (move_directory_to_free_place src dst w Hsrc Hfree Hnotin)
    as (_ & Hgone & Hthere).
  exists (after_approval_request deposit pipeline dst w).
  split; [|split; [exact Hgone | split; [exact Hthere | reflexivity]]].
  unfold finalize_if_not_empty.
  rewrite (finalize_if_not_empty_proceeds _ _ _ _ _ Hdep Hls Hnames).
  rewrite (bind_return _ _ _ _ _ Hss).
  unfold activate in Hrun. rewrite (bind_return _ _ _ _ _ Hrun).
  now rewrite bool_decide_eq_true_2.
Qed.

(** X11: the approval request fails at the transport level below
    [_finalize_if_not_empty].  The caller gets NameError (the unbound
    [request]), not an error response; the directory tree is as before the
    call and the deposit row is unchanged, its completion time not
    stamped. *)
Theorem finalize_when_pipeline_unreachable (deposit_uuid : string)
    (deposit : Location.t) (names : list string) (sword_server : SwordServer.t)
    (processing_location : Location.t) (w : World) :
  let pipeline := SwordServer.pipeline sword_server in
  let src := Location.full_path deposit in
  let dst := pad_destination_filepath_if_it_already_exists
               (transfer_destination deposit processing_location) w in
  Helpers.get_deposit deposit_uuid w = (Return (Some deposit), w) ->
  Os.listdir src w = (Return names, w) ->
  names <> [] ->
  Db.get_sword_server (Location.space deposit) w = (Return sword_server, w) ->
  configured pipeline = true ->
  Db.get_location_of_pipeline pipeline Location.CURRENTLY_PROCESSING w
    = (Return processing_location, w) ->
  nothing_at dst (fs w) = true ->
  Fs.strip src dst = None ->
  pipeline_api w (approval_url pipeline) (approval_data pipeline dst) = None ->
  exists w',
    finalize_if_not_empty deposit_uuid w = (Raise (NameError "request"), w')
    /\ fs w' = fs w
    /\ locations w' = locations w
    /\ Helpers.get_deposit deposit_uuid w' = (Return (Some deposit), w').
Proof.
  intros pipeline src dst Hdep Hls Hnames Hss Hconf Hproc Hfree Hnotin Hdown.
  assert (fs w !! src = Some Fs.Dir) as Hsrc.
  { unfold Os.listdir in Hls. destruct (fs w !! src) as [[|]|]; congruence. }
  pose proof (activate_runs deposit sword_server processing_location w
                Hconf Hproc Hsrc Hfree Hnotin) as Hrun.
  cbv zeta in Hrun. fold pipeline src dst in Hrun. rewrite Hdown in Hrun.
  exists (with_fs (fs w) (after_approval_request deposit pipeline dst w)).
  split; [|split; [reflexivity | split; [reflexivity|]]].
  - unfold finalize_if_not_empty.
    rewrite (finalize_if_not_empty_proceeds _ _ _ _ _ Hdep Hls Hnames).
    rewrite (bind_return _ _ _ _ _ Hss).
    unfold activate in Hrun. rewrite (bind_return _ _ _ _ _ Hrun).
    rewrite bool_decide_eq_true_2; [reflexivity|].
    unfold transport_failure. rewrite lookup_insert_eq. eauto.
  - rewrite get_deposit_value in *. cbn [locations with_fs after_approval_request
      with_requests_sent with_clock]. congruence.
Qed.

End ActivateFacts.

(** ** Deferred finalization *)

Lemma find_after_save (uuid : string) (deposit saved : Location.t)
    (rows : list Location.t) :
  find (fun l : Location.t =>
          (Location.uuid l =? uuid)%string
          && (Location.purpose l =? Location.SWORD_DEPOSIT)%string) rows
    = Some deposit ->
  Location.uuid saved = Location.uuid deposit ->
  Location.purpose saved = Location.purpose deposit ->
  find (fun l : Location.t =>
          (Location.uuid l =? uuid)%string
          && (Location.purpose l =? Location.SWORD_DEPOSIT)%string)
       (map (fun r => if (Location.uuid r =? Location.uuid saved)%string
                      then saved else r) rows)
    = Some saved.
Proof.
  intros Hfind Huuid Hpurpose.
  pose proof (find_some _ _ Hfind) as [_ Hdeposit].
  assert ((Location.uuid saved =? uuid)%string
          && (Location.purpose saved =? Location.SWORD_DEPOSIT)%string = true)
    as Hsaved by (now rewrite Huuid, Hpurpose).
  assert (Location.uuid deposit = uuid) as Hu.
  { apply andb_true_iff in Hdeposit. destruct Hdeposit as [H _].
    now apply String.eqb_eq. }
  induction rows as [|r rows IH]; [discriminate|].
  simpl in Hfind |- *.
  destruct (Location.uuid r =? Location.uuid saved)%string eqn:Er.
  - now rewrite Hsaved.
  - destruct ((Location.uuid r =? uuid)%string
              && (Location.purpose r =? Location.SWORD_DEPOSIT)%string) eqn:Ef.
    + apply andb_true_iff in Ef. destruct Ef as [Hr%String.eqb_eq _].
      apply String.eqb_neq in Er. congruence.
    + now apply IH.
Qed.

Lemma save_existing_location (uuid : string) (deposit saved : Location.t) (w : World) :
  Helpers.get_deposit uuid w = (Return (Some deposit), w) ->
  Location.uuid saved = Location.uuid deposit ->
  Db.save_location saved w
  = (Return tt,
     with_locations
       (map (fun r => if (Location.uuid r =? Location.uuid saved)%string
                      then saved else r) (locations w)) w).
Proof.
  rewrite get_deposit_value. intros [= Hfind] Huuid.
  unfold Db.save_location, modify.
  assert (existsb (fun r => (Location.uuid r =? Location.uuid saved)%string)
                  (locations w) = true) as ->; [|reflexivity].
  apply find_some in Hfind. destruct Hfind as [Hin _].
  apply existsb_exists. exists deposit. split; [exact Hin|].
  apply String.eqb_eq. congruence.
Qed.

Section DeferFacts.

Variable downloading_status : LocationDownloadTask.t -> string.
Variable pad_destination_filepath_if_it_already_exists : Fs.path -> World -> Fs.path.
Variable mkdtemp : World -> Fs.path.
Variable download_resource : string -> Fs.path -> py World string.

Let finalize_or_mark :=
  Sword._finalize_or_mark_for_finalization downloading_status
    pad_destination_filepath_if_it_already_exists.
Let fetch_content :=
  Sword._fetch_content downloading_status
    pad_destination_filepath_if_it_already_exists mkdtemp download_resource.
Let start :=
  Race.start mkdtemp download_resource.

(** X12: a finalize request (In-Progress: false) for a deposit whose
    downloads are not all complete never finalizes and never answers: the
    deposit is saved with [ready_for_finalization] set, as a later lookup
    shows, and then the request ends in NameError (the unbound [uuid])
    instead of the receipt.  The filesystem is not touched. *)
Theorem finalize_request_deferred (request : HttpRequest) (deposit_uuid : string)
    (deposit : Location.t) (w : World) :
  Sword.in_progress_is_false request = true ->
  Helpers.get_deposit deposit_uuid w = (Return (Some deposit), w) ->
  aggregate_status downloading_status
    (filter (fun t => LocationDownloadTask.location t = Location.uuid deposit)
            (download_tasks w)) <> "complete" ->
  exists w',
    finalize_or_mark request deposit_uuid w = (Raise (NameError "uuid"), w')
    /\ Helpers.get_deposit deposit_uuid w'
       = (Return (Some (Location.set_ready_for_finalization true deposit)), w')
    /\ fs w' = fs w
    /\ requests_sent w' = requests_sent w.
Proof.
  intros Hfinal Hdep Hstatus.
  set (flagged := Location.set_ready_for_finalization true deposit).
  pose proof (save_existing_location deposit_uuid deposit flagged w Hdep eq_refl)
    as Hsave.
  eexists. split; [|split; [|split]].
  - unfold finalize_or_mark, Sword._finalize_or_mark_for_finalization.
    rewrite Hfinal.
    erewrite bind_return by apply deposit_downloading_status_reads.
    assert (tasks_of_deposit deposit_uuid w
            = filter (fun t => LocationDownloadTask.location t = Location.uuid deposit)
                     (download_tasks w)) as ->
      by (unfold tasks_of_deposit; now rewrite Hdep).
    apply String.eqb_neq in Hstatus. rewrite Hstatus.
    rewrite (bind_return _ _ _ _ _ Hdep).
    fold flagged. rewrite (bind_return _ _ _ _ _ Hsave). reflexivity.
  - rewrite get_deposit_value. cbn [locations with_locations].
    rewrite get_deposit_value in Hdep. injection Hdep as Hfind.
    now rewrite (find_after_save deposit_uuid deposit flagged _ Hfind eq_refl eq_refl).
  - reflexivity.
  - reflexivity.
Qed.

(** The download loop of a batch never raises, whatever the downloader
    does, and counts at most one completed download per URL. *)
Lemma download_loop_bounded (deposit : Location.t) (temp_dir : Fs.path)
    (urls : list string) (completed : Z) (w : World) :
  exists completed' w',
    for_each urls
      (fun url (completed : Z) =>
         try_except
           (filename <- download_resource url temp_dir ;;
            Shutil.move (Fs.join temp_dir [filename])
                        (Fs.join (Location.full_path deposit) [filename]) ;;;
            ret (completed + 1))
           (ret completed)) completed w
    = (Return completed', w')
    /\ completed <= completed' <= completed + Z.of_nat (length urls).
Proof.
  revert completed w. induction urls as [|url urls IH]; intros completed w.
  - exists completed, w. split; [reflexivity|]. simpl. lia.
  - cbn [for_each].
    assert (exists c1 w1,
              try_except
                (filename <- download_resource url temp_dir ;;
                 Shutil.move (Fs.join temp_dir [filename])
                             (Fs.join (Location.full_path deposit) [filename]) ;;;
                 ret (completed + 1))
                (ret completed) w = (Return c1, w1)
              /\ completed <= c1 <= completed + 1) as (c1 & w1 & Hround & Hc1).
    { unfold try_except, bind, ret.
      destruct (download_resource url temp_dir w) as [[filename|e] w1].
      - destruct (Shutil.move _ _ w1) as [[[]|e] w2].
        + exists (completed + 1), w2. split; [reflexivity | lia].
        + exists completed, w2. split; [reflexivity | lia].
      - exists completed, w1. split; [reflexivity | lia]. }
    destruct (IH c1 w1) as (c2 & w2 & Hrest & Hc2).
    exists c2, w2. split.
    + rewrite (bind_return _ _ _ _ _ Hround). exact Hrest.
    + rewrite length_cons, Nat2Z.inj_succ. lia.
Qed.

(** X13: a download that fails never aborts the batch.  For an existing
    deposit, whatever the downloader does, the statements of a batch up to
    the removal of its temporary directory either get to the point where
    the result is recorded, with a task whose attempted downloads are the
    number of URLs and a count of completed downloads between 0 and that
    number, or fail in that removal with OSError; no exception of a
    download or of a move gets out. *)
Theorem batch_completed_at_most_attempted (deposit_uuid : string)
    (urls : list string) (deposit : Location.t) (w : World) :
  Helpers.get_deposit deposit_uuid w = (Return (Some deposit), w) ->
  exists out w1,
    start deposit_uuid urls w = (out, w1)
    /\ ((exists task completed,
           out = Return (Race.AtRecord deposit_uuid deposit task completed)
           /\ LocationDownloadTask.downloads_attempted task = Z.of_nat (length urls)
           /\ 0 <= completed <= LocationDownloadTask.downloads_attempted task)
        \/ exists errno, out = Raise (OSError errno)).
Proof.
  intros Hdep. unfold start, Race.start.
  rewrite (bind_return _ _ _ _ _ Hdep).
  rewrite (bind_return (Db.insert_task _ _ _) _ _ _ _ eq_refl).
  rewrite (bind_return get _ _ _ _ eq_refl).
  cbn zeta.
  rewrite (bind_return (put _) _ _ _ _ eq_refl).
  match goal with
  | |- context [bind (for_each urls _ 0) (fun _ => bind (Shutil.rmtree ?tmp) _) ?s] =>
      destruct (download_loop_bounded deposit tmp urls 0 s)
        as (completed & w2 & Hloop & Hbound)
  end.
  rewrite (bind_return _ _ _ _ _ Hloop).
  unfold bind at 1, Shutil.rmtree.
  destruct (fs w2 !! _) as [[data|]|].
  - eexists _, _. split; [reflexivity|]. right. eauto.
  - eexists _, _. split; [reflexivity|]. left.
    eexists _, _. split; [reflexivity|]. cbn. split; [reflexivity | lia].
  - eexists _, _. split; [reflexivity|]. right. eauto.
Qed.

(** X14: a batch whose deposit was not flagged ready for finalization when
    the batch read it never finalizes, whatever has happened to the flag
    since: once the downloads are over, [_fetch_content] records the result
    of the batch and returns. *)
Theorem stale_flag_never_finalizes (deposit_uuid : string) (urls : list string)
    (deposit : Location.t) (task : LocationDownloadTask.t) (completed : Z)
    (w w1 : World) :
  start deposit_uuid urls w
    = (Return (Race.AtRecord deposit_uuid deposit task completed), w1) ->
  Location.ready_for_finalization deposit = false ->
  fetch_content deposit_uuid urls w
  = (Return tt,
     with_download_tasks
       (map (fun r =>
               if bool_decide (LocationDownloadTask.id r = LocationDownloadTask.id task)
               then {| LocationDownloadTask.id := LocationDownloadTask.id task;
                       LocationDownloadTask.location := LocationDownloadTask.location task;
                       LocationDownloadTask.downloads_attempted :=
                         LocationDownloadTask.downloads_attempted task;
                       LocationDownloadTask.downloads_completed := completed;
                       LocationDownloadTask.download_completion_time := Some (clock w1) |}
               else r) (download_tasks w1)) w1).
Proof.
  intros Hstart Hstale. unfold fetch_content.
  rewrite <- run_alone_fetch_content.
  unfold start in Hstart.
  cbn [Race.run_alone]. unfold Race.step at 1. cbn [Race.statement].
  rewrite Hstart.
  unfold Race.step at 1. cbn [Race.statement].
  change (Race.record deposit_uuid deposit task completed w1)
    with (Return (Race.AtCheck deposit_uuid deposit),
          with_download_tasks
            (map (fun r =>
               if bool_decide (LocationDownloadTask.id r = LocationDownloadTask.id task)
               then {| LocationDownloadTask.id := LocationDownloadTask.id task;
                       LocationDownloadTask.location := LocationDownloadTask.location task;
                       LocationDownloadTask.downloads_attempted :=
                         LocationDownloadTask.downloads_attempted task;
                       LocationDownloadTask.downloads_completed := completed;
                       LocationDownloadTask.download_completion_time := Some (clock w1) |}
               else r) (download_tasks w1)) w1).
  cbn iota beta zeta.
  unfold Race.step at 1. cbn [Race.statement]. unfold Race.check.
  rewrite Hstale. reflexivity.
Qed.

End DeferFacts.

(** ** POST of a METS document to the edit IRI *)

Lemma get_deposit_same_rows (uuid : string) (w w' : World)
    (found : option Location.t) :
  Helpers.get_deposit uuid w = (Return found, w) ->
  locations w' = locations w ->
  Helpers.get_deposit uuid w' = (Return found, w').
Proof. rewrite !get_deposit_value. intros [= H] ->. now rewrite H. Qed.

Section EditBodyFacts.

Variable downloading_status : LocationDownloadTask.t -> string.
Variable has_been_submitted_for_processing : Location.t -> World -> bool.
Variable pad_destination_filepath_if_it_already_exists : Fs.path -> World -> Fs.path.
Variable mkstemp : World -> Fs.path.
Variable etree_parse : string -> option Sword.mets.

Let deposit_edit :=
  Sword.deposit_edit downloading_status has_been_submitted_for_processing
    pad_destination_filepath_if_it_already_exists mkstemp etree_parse.

(** The body of the request is written to a temporary file and parsed from
    there; the file is not removed. *)
Lemma parse_request_body (request : HttpRequest) (w : World) :
  Sword._parse_name_and_content_urls_from_request_body mkstemp etree_parse request w
  = (Return (etree_parse (body request)),
     with_fs (<[mkstemp w := Fs.File (body request)]> (fs w)) w).
Proof.
  unfold Sword._parse_name_and_content_urls_from_request_body,
    Helpers.write_request_body_to_temp_file.
  rewrite (bind_return _ _ w
             (with_fs (<[mkstemp w := Fs.File (body request)]> (fs w)) w)
             (mkstemp w) eq_refl).
  rewrite (bind_return get _ _ _ _ eq_refl).
  cbn [fs with_fs]. now rewrite lookup_insert_eq.
Qed.

Lemma edit_post_body (request : HttpRequest) (uuid : string)
    (deposit : Location.t) (w : World) :
  Helpers.get_deposit uuid w = (Return (Some deposit), w) ->
  has_been_submitted_for_processing deposit w = false ->
  method request = "POST" ->
  body request <> "" ->
  deposit_edit request uuid w
  = match etree_parse (body request) with
    | Some mets_data =>
        (Sword._spawn_batch_download_and_flag_finalization_if_requested
           uuid request mets_data ;;;
         Sword._deposit_receipt_response request uuid 200)
          (with_fs (<[mkstemp w := Fs.File (body request)]> (fs w)) w)
    | None =>
        (Raise (NameError "e"),
         with_fs (<[mkstemp w := Fs.File (body request)]> (fs w)) w)
    end.
Proof.
  intros Hdep Hopen Hpost Hbody.
  unfold deposit_edit, Sword.deposit_edit.
  rewrite (bind_return _ _ _ _ _ Hdep).
  rewrite (bind_return get _ _ _ _ eq_refl). rewrite Hopen, Hpost.
  change ("POST" =? "GET")%string with false.
  change ("POST" =? "POST")%string with true. cbv iota.
  apply String.eqb_neq in Hbody. rewrite Hbody. cbn [negb].
  rewrite (bind_return _ _ _ _ _ (parse_request_body request w)).
  now destruct (etree_parse (body request)).
Qed.

(** X15: a POST on the edit IRI of an open deposit, with a METS document
    that parses and an In-Progress header, answers the deposit receipt
    (200) and hands exactly one batch, the URLs of the document, to a new
    process.  The deposit row is flagged ready for finalization exactly
    when the header is 'false'.  The temporary file that received the body
    is still there afterwards; nothing is downloaded and no request is sent
    to the pipeline by the view itself. *)
Theorem edit_post_mets_spawns_batch (request : HttpRequest) (uuid : string)
    (deposit : Location.t) (mets_data : Sword.mets) (in_progress : string)
    (w : World) :
  Helpers.get_deposit uuid w = (Return (Some deposit), w) ->
  has_been_submitted_for_processing deposit w = false ->
  method request = "POST" ->
  body request <> "" ->
  etree_parse (body request) = Some mets_data ->
  META request !! "HTTP_IN_PROGRESS" = Some in_progress ->
  exists w',
    deposit_edit request uuid w = (Return (deposit_receipt uuid 200), w')
    /\ spawned w' = (spawned w ++ [(uuid, Sword.object_content_urls mets_data)])%list
    /\ Helpers.get_deposit uuid w'
       = (Return (Some (if (in_progress =? "false")%string
                        then Location.set_ready_for_finalization true deposit
                        else deposit)), w')
    /\ fs w' = <[mkstemp w := Fs.File (body request)]> (fs w)
    /\ download_tasks w' = download_tasks w
    /\ requests_sent w' = requests_sent w.
Proof.
  intros Hdep Hopen Hpost Hbody Hparse Hheader.
  rewrite (edit_post_body request uuid deposit w Hdep Hopen Hpost Hbody), Hparse.
  set (w1 := with_fs (<[mkstemp w := Fs.File (body request)]> (fs w)) w).
  pose proof (get_deposit_with_fs uuid (<[mkstemp w := Fs.File (body request)]> (fs w))
                w _ Hdep) as Hdep1.
  fold w1 in Hdep1.
  unfold Sword._spawn_batch_download_and_flag_finalization_if_requested.
  rewrite Hheader.
  destruct (in_progress =? "false")%string.
  - set (flagged := Location.set_ready_for_finalization true deposit).
    pose proof (save_existing_location uuid deposit flagged w1 Hdep1 eq_refl) as Hsave.
    set (w2 := with_locations
                 (map (fun r => if (Location.uuid r =? Location.uuid flagged)%string
                                then flagged else r) (locations w1)) w1) in *.
    assert (Helpers.get_deposit uuid w2 = (Return (Some flagged), w2)) as Hdep2.
    { rewrite get_deposit_value. do 2 f_equal.
      rewrite get_deposit_value in Hdep1. injection Hdep1 as Hfind.
      exact (find_after_save uuid deposit flagged (locations w1) Hfind eq_refl eq_refl). }
    exists (with_spawned (spawned w2 ++ [(uuid, Sword.object_content_urls mets_data)]) w2).
    split; [|split; [reflexivity | split; [|repeat split; reflexivity]]].
    + rewrite (bind_return _ _ w1
                 (with_spawned (spawned w2 ++ [(uuid, Sword.object_content_urls mets_data)]) w2)
                 tt).
      * reflexivity.
      * rewrite (bind_return _ _ w1 w2 tt).
        -- reflexivity.
        -- rewrite (bind_return _ _ _ _ _ Hdep1). exact Hsave.
    + apply (get_deposit_same_rows uuid w2 _ _ Hdep2); reflexivity.
  - exists (with_spawned (spawned w1 ++ [(uuid, Sword.object_content_urls mets_data)]) w1).
    split; [|split; [reflexivity | split; [|repeat split; reflexivity]]].
    + reflexivity.
    + apply (get_deposit_same_rows uuid w1 _ _ Hdep1); reflexivity.
Qed.

(** X16: a POST on the edit IRI of an open deposit with a body that does
    not parse as XML does not answer the 412 error: it ends in NameError
    (the unbound [e]).  With a body that parses but without an In-Progress
    header it ends in KeyError.  In both cases no batch is spawned and the
    only change is the temporary file that received the body, which is
    left behind. *)
Theorem edit_post_body_failures (request : HttpRequest) (uuid : string)
    (deposit : Location.t) (w : World) :
  Helpers.get_deposit uuid w = (Return (Some deposit), w) ->
  has_been_submitted_for_processing deposit w = false ->
  method request = "POST" ->
  body request <> "" ->
  etree_parse (body request) = None \/ META request !! "HTTP_IN_PROGRESS" = None ->
  deposit_edit request uuid w
  = (Raise (match etree_parse (body request) with
            | None => NameError "e"
            | Some _ => KeyError "HTTP_IN_PROGRESS"
            end),
     with_fs (<[mkstemp w := Fs.File (body request)]> (fs w)) w).
Proof.
  intros Hdep Hopen Hpost Hbody Hbad.
  rewrite (edit_post_body request uuid deposit w Hdep Hopen Hpost Hbody).
  destruct (etree_parse (body request)) as [mets_data|]; [|reflexivity].
  destruct Hbad as [?|Hheader]; [discriminate|].
  unfold Sword._spawn_batch_download_and_flag_finalization_if_requested.
  rewrite Hheader. reflexivity.
Qed.

End EditBodyFacts.

(** ** Storing an AIP: the destination directory *)

Lemma mkdir_if_missing_keeps (f : gmap Fs.path Fs.node) (a k : Fs.path) (v : Fs.node) :
  f !! k = Some v -> Os.mkdir_if_missing f a !! k = Some v.
Proof.
  intros Hk. unfold Os.mkdir_if_missing.
  destruct (f !! a) eqn:Ha; [exact Hk|].
  rewrite lookup_insert_ne by congruence. exact Hk.
Qed.

Lemma mkdirs_keep (l : list Fs.path) (f : gmap Fs.path Fs.node) (k : Fs.path)
    (v : Fs.node) :
  f !! k = Some v -> foldl Os.mkdir_if_missing f l !! k = Some v.
Proof.
  revert f. induction l as [|a l IH]; intros f Hk; simpl; [exact Hk|].
  apply IH. now apply mkdir_if_missing_keeps.
Qed.

(** What [os.makedirs] leaves when no ancestor of the path is a regular
    file and the path is not one itself: the path is a directory and every
    entry that was there still is, whether the call created the directory
    or found it (EEXIST). *)
Lemma makedirs_directory (p : Fs.path) (w : World) :
  existsb (fun a => Os.path_isfile a (fs w)) (Os.ancestors p) = false ->
  Os.path_isfile p (fs w) = false ->
  exists (out : outcome unit) (w1 : World),
    Os.makedirs p w = (out, w1)
    /\ (out = Return tt \/ out = Raise (OSError 17))
    /\ fs w1 !! p = Some Fs.Dir
    /\ (forall k v, fs w !! k = Some v -> fs w1 !! k = Some v)
    /\ locations w1 = locations w.
Proof.
  intros Hancestors Hfile. unfold Os.makedirs. rewrite Hancestors.
  unfold Os.path_exists. case_bool_decide as Hthere.
  - exists (Raise (OSError 17)), w. repeat split; auto.
    unfold Os.path_isfile in Hfile. destruct Hthere as [v Hv]. rewrite Hv in *.
    now destruct v.
  - eexists (Return tt), _. split; [reflexivity|]. cbn [fs with_fs locations].
    repeat split; auto.
    + apply lookup_insert_eq.
    + intros k v Hk. rewrite lookup_insert_ne.
      * now apply mkdirs_keep.
      * intros <-. apply Hthere. eauto.
Qed.

Section StoreAipDirectory.

Variable uuid_to_path : string -> Fs.path.
Variable rsync : Fs.path -> Fs.path -> py World Z.

(** X17: when an ancestor of the destination directory is a regular file,
    [store_aip] of either backend gives up with -1: nothing is created and
    rsync is not run (the world is as it was). *)
Theorem store_aip_blocked_by_file (local : LocalFilesystem.t) (nfs : NFS.t)
    (aip_file : File.t) (w : World) :
  let directory := Fs.dirname (aip_destination uuid_to_path aip_file) in
  existsb (fun a => Os.path_isfile a (fs w)) (Os.ancestors directory) = true ->
  (Space.uuid (LocalFilesystem.space local)
     = Space.uuid (Location.space (File.current_location aip_file)) ->
   LocalFilesystem.store_aip uuid_to_path rsync local aip_file w
   = (Return (Some (-1)), w))
  /\ (Space.uuid (NFS.space nfs)
        = Space.uuid (Location.space (File.current_location aip_file)) ->
      NFS.store_aip uuid_to_path rsync nfs aip_file w
      = (Return (Some (-1)), w)).
Proof.
  intros directory Hblocked.
  assert (Os.makedirs directory w = (Raise (OSError 20), w)) as Hmk
    by (unfold Os.makedirs; now rewrite Hblocked).
  split; intros Hspace.
  - unfold LocalFilesystem.store_aip.
    rewrite bool_decide_eq_true_2 by exact Hspace. cbn [negb]. cbv zeta.
    unfold directory, aip_destination in Hmk. rewrite Hmk. reflexivity.
  - unfold NFS.store_aip.
    rewrite bool_decide_eq_true_2 by exact Hspace. cbn [negb]. cbv zeta.
    unfold directory, aip_destination in Hmk. rewrite Hmk. reflexivity.
Qed.

(** X18: when nothing on the way to the destination directory is a regular
    file, [store_aip] of either backend runs rsync, from the origin of the
    AIP to its destination, in a world where the destination directory is
    a directory and every earlier entry is still there; it returns None
    whatever status rsync exits with, and an exception of rsync is
    replaced by NameError (the unbound [CalledProcessError]). *)
Theorem store_aip_prepares_directory (local : LocalFilesystem.t) (nfs : NFS.t)
    (aip_file : File.t) (w : World) :
  let directory := Fs.dirname (aip_destination uuid_to_path aip_file) in
  existsb (fun a => Os.path_isfile a (fs w)) (Os.ancestors directory) = false ->
  Os.path_isfile directory (fs w) = false ->
  exists w1,
    fs w1 !! directory = Some Fs.Dir
    /\ (forall k v, fs w !! k = Some v -> fs w1 !! k = Some v)
    /\ let copied :=
         match rsync (aip_source aip_file) (aip_destination uuid_to_path aip_file) w1 with
         | (Return _, w2) => (Return None, w2)
         | (Raise _, w2) => (Raise (NameError "CalledProcessError"), w2)
         end in
       (Space.uuid (LocalFilesystem.space local)
          = Space.uuid (Location.space (File.current_location aip_file)) ->
        LocalFilesystem.store_aip uuid_to_path rsync local aip_file w = copied)
       /\ (Space.uuid (NFS.space nfs)
             = Space.uuid (Location.space (File.current_location aip_file)) ->
           NFS.store_aip uuid_to_path rsync nfs aip_file w = copied).
Proof.
  intros directory Hancestors Hfile.
  destruct (makedirs_directory directory w Hancestors Hfile)
    as (out & w1 & Hmk & Hout & Hdir & Hkeep & _).
  exists w1. split; [exact Hdir|]. split; [exact Hkeep|].
  cbv zeta. unfold directory, aip_destination, aip_source in *.
  split; intros Hspace.
  - unfold LocalFilesystem.store_aip.
    rewrite bool_decide_eq_true_2 by exact Hspace. cbn [negb]. cbv zeta.
    rewrite Hmk. destruct Hout as [-> | ->]; [reflexivity|].
    rewrite bool_decide_eq_false_2 by (intros H; now apply H). reflexivity.
  - unfold NFS.store_aip.
    rewrite bool_decide_eq_true_2 by exact Hspace. cbn [negb]. cbv zeta.
    rewrite Hmk. destruct Hout as [-> | ->]; [reflexivity|].
    rewrite bool_decide_eq_false_2 by (intros H; now apply H). reflexivity.
Qed.

End StoreAipDirectory.

(** ** Verifying a space *)

(** X19: [verify] never raises and leaves the world alone; on a backend it
    probes, [verified] becomes exactly what the probe says (the root path
    is a directory, respectively a mount point), whatever the flag was
    before.  Verifying the verified object again, at the same instant, gives
    the same object. *)
Theorem verify_reads_platform (b : Backend.t) (w : World) :
  exists b',
    Backend.verify b w = (Return b', w)
    /\ Backend.verify b' w = (Return b', w)
    /\ Space.path (Backend.space b') = Space.path (Backend.space b)
    /\ Space.uuid (Backend.space b') = Space.uuid (Backend.space b)
    /\ (if Backend.probed b
        then Space.verified (Backend.space b') = Backend.reachable b w
             /\ Space.last_verified (Backend.space b') = Some (clock w)
        else b' = b).
Proof.
  destruct b as [b | b].
  - eexists. split; [reflexivity|]. repeat split.
  - destruct (NFS.manually_mounted b) eqn:Hmanual.
    + eexists. split; [|split; [|split; [|split]]].
      * cbn. unfold NFS.verify, bind, get, ret. rewrite Hmanual. reflexivity.
      * cbn. unfold NFS.verify, bind, get, ret. cbn. rewrite Hmanual. reflexivity.
      * reflexivity.
      * reflexivity.
      * cbn. rewrite Hmanual. split; reflexivity.
    + exists (Backend.Nfs b). cbn. unfold NFS.verify, bind, get, ret.
      rewrite Hmanual. repeat split; reflexivity.
Qed.

(** ** The path of a space *)

(** X20: [validate_space_path] accepts exactly the paths that begin with a
    slash.  Of the others, a non-empty path is refused with the validation
    error, but the empty path is not: it raises IndexError. *)
Theorem validate_space_path_accepts (path : string) :
  (Validation.validate_space_path path = Validation.Valid
   <-> exists rest, path = "/" ++ rest)
  /\ (Validation.validate_space_path path = Validation.IndexError <-> path = "")
  /\ (Validation.validate_space_path path
        = Validation.ValidationError "Path must begin with a /"
      <-> path <> "" /\ forall rest, path <> "/" ++ rest).
Proof.
  unfold Validation.validate_space_path.
  destruct path as [|c rest].
  - split; [|split]; split; try discriminate; try reflexivity.
    + intros [rest H]. discriminate.
    + intros [H _]. now contradiction H.
  - destruct (String c "" =? "/")%string eqn:E; cbn [negb].
    + apply String.eqb_eq in E. injection E as ->.
      split; [|split]; split; try discriminate.
      * intros _. now exists rest.
      * reflexivity.
      * intros [_ H]. now contradiction (H rest).
    + apply String.eqb_neq in E.
      split; [|split]; split; try discriminate.
      * intros [rest' H]. injection H as -> _. now contradiction E.
      * intros _. split; [discriminate|].
        intros rest' H. injection H as -> _. now contradiction E.
      * reflexivity.
Qed.

(** ** Listing a deposit, and deposits that do not exist *)

Lemma children_insert (p : Fs.path) (name : string) (v : Fs.node)
    (f : gmap Fs.path Fs.node) :
  f !! (p ++ [name])%list = None ->
  Os.children p (<[(p ++ [name])%list := v]> f) ≡ₚ name :: Os.children p f.
Proof.
  intros Habsent. unfold Os.children.
  rewrite (map_to_list_insert f _ v Habsent).
  cbn [omap list_omap fst]. now rewrite strip_app.
Qed.

Lemma path_not_own_child (p : Fs.path) (name : string) : p <> (p ++ [name])%list.
Proof.
  intros H. apply (f_equal length) in H. rewrite length_app in H. simpl in H. lia.
Qed.

Section ListingFacts.

Variable downloading_status : LocationDownloadTask.t -> string.
Variable has_been_submitted_for_processing : Location.t -> World -> bool.
Variable pad_destination_filepath_if_it_already_exists : Fs.path -> World -> Fs.path.
Variable mkstemp : World -> Fs.path.
Variable md5 : string -> string.
Variable parse_filename_from_content_disposition : string -> string.
Variable etree_parse : string -> option Sword.mets.

Let deposit_edit :=
  Sword.deposit_edit downloading_status has_been_submitted_for_processing
    pad_destination_filepath_if_it_already_exists mkstemp etree_parse.
Let deposit_media :=
  Sword.deposit_media has_been_submitted_for_processing mkstemp md5
    parse_filename_from_content_disposition.
Let deposit_state := State.deposit_state downloading_status.

(** X21: a file added with POST on the media IRI shows in the next GET on
    it: the listing is the one from before the upload plus the new name
    (in some order), and the GET changes nothing. *)
Theorem upload_then_list (upload listing : HttpRequest) (uuid : string)
    (deposit : Location.t) (w : World) (filename : string) :
  let directory := Location.full_path deposit in
  let file_path := Fs.join directory [filename] in
  let stored := with_fs (<[file_path := Fs.File (body upload)]> (fs w)) w in
  Helpers.get_deposit uuid w = (Return (Some deposit), w) ->
  has_been_submitted_for_processing deposit w = false ->
  has_been_submitted_for_processing deposit stored = false ->
  method upload = "POST" ->
  upload_filename parse_filename_from_content_disposition upload = Some filename ->
  checksum_accepted md5 upload = true ->
  method listing = "GET" ->
  fs w !! directory = Some Fs.Dir ->
  fs w !! file_path = None ->
  fs w !! mkstemp w = None ->
  mkstemp w <> file_path ->
  exists names,
    (deposit_media upload uuid ;;; deposit_media listing uuid) w
    = (Return {| status_code := 200; content := Listing names; headers := [] |}, stored)
    /\ names ≡ₚ filename :: Os.children directory (fs w).
Proof.
  intros directory file_path stored Hdep Hopen Hopen' Hpost Hname Hacc Hget
    Hdir Habsent Hfresh Hne.
  assert (deposit_media upload uuid w = (Return (response 201), stored)) as Hadd.
  { unfold deposit_media.
    rewrite (deposit_media_open _ _ _ _ _ _ _ _ Hdep Hopen). rewrite Hpost.
    change ("POST" =? "GET")%string with false.
    change ("POST" =? "PUT")%string with false.
    change ("POST" =? "POST")%string with true. cbv iota.
    rewrite (handle_upload_named _ _ _ _ _ _ _ _ Hname). cbv zeta.
    fold directory. fold file_path.
    unfold Os.path_exists. rewrite Habsent.
    rewrite bool_decide_eq_false_2 by (intros [? ?]; discriminate).
    apply store_accepted; auto. rewrite Habsent. discriminate. }
  exists (Os.children directory (fs stored)). split.
  - rewrite (bind_return _ _ _ _ _ Hadd). unfold deposit_media.
    rewrite (deposit_media_open _ _ _ _ _ _ _ _
               (get_deposit_with_fs _ _ _ _ Hdep) Hopen').
    rewrite Hget. change ("GET" =? "GET")%string with true. cbv iota.
    fold directory.
    assert (Os.listdir directory stored
            = (Return (Os.children directory (fs stored)), stored)) as Hlist.
    { unfold Os.listdir, stored. cbn [fs with_fs].
      rewrite lookup_insert_ne by (symmetry; apply path_not_own_child).
      now rewrite Hdir. }
    now rewrite (bind_return _ _ _ _ _ Hlist).
  - unfold stored. cbn [fs with_fs]. now apply children_insert.
Qed.

(** X22: a deposit that does not exist is reported as such by the three
    deposit IRIs (edit, media, state): whatever the method, a requester that
    names its user agent gets the 404 error and nothing changes.  The
    downloading status of such a deposit, however, is 'complete'. *)
Theorem unknown_deposit_not_found (request : HttpRequest) (uuid user_agent : string)
    (w : World) :
  Helpers.get_deposit uuid w = (Return None, w) ->
  META request !! "HTTP_USER_AGENT" = Some user_agent ->
  let gone := error_response 404 ("Deposit location " ++ uuid ++ " does not exist.")
                w user_agent in
  deposit_edit request uuid w = (Return gone, w)
  /\ deposit_media request uuid w = (Return gone, w)
  /\ deposit_state request uuid w = (Return (Page.of_response gone), w)
  /\ Sword.deposit_downloading_status downloading_status uuid w
     = (Return "complete", w).
Proof.
  intros Hgone Hagent gone.
  pose proof (sword_error_response_with_agent request 404
                ("Deposit location " ++ uuid ++ " does not exist.") w user_agent Hagent)
    as Herror.
  split; [|split; [|split]].
  - unfold deposit_edit, Sword.deposit_edit.
    now rewrite (bind_return _ _ _ _ _ Hgone).
  - unfold deposit_media, Sword.deposit_media.
    now rewrite (bind_return _ _ _ _ _ Hgone).
  - unfold deposit_state, State.deposit_state.
    rewrite (bind_return _ _ _ _ _ Hgone).
    now rewrite (bind_return _ _ _ _ _ Herror).
  - unfold Sword.deposit_downloading_status.
    rewrite (bind_return _ _ _ _ _ Hgone). reflexivity.
Qed.

End ListingFacts.

(** ** [Space.store_aip] *)

Section SpaceStoreAip.

Variable uuid_to_path : string -> Fs.path.
Variable rsync : Fs.path -> Fs.path -> py World Z.


End SpaceStoreAip.

(** ** Deleting one file of a deposit *)

Section DeleteNamed.

Variable has_been_submitted_for_processing : Location.t -> World -> bool.
Variable mkstemp : World -> Fs.path.
Variable md5 : string -> string.
Variable parse_filename_from_content_disposition : string -> string.

Let deposit_media :=
  Sword.deposit_media has_been_submitted_for_processing mkstemp md5
    parse_filename_from_content_disposition.

(** X24: a DELETE on the media IRI that names an entry of the deposit
    removes it when it is a regular file (204; nothing else changes),
    answers 404 with the path when there is no such entry, and raises
    OSError when the entry is a directory: a subdirectory cannot be deleted
    by name, and nothing is removed in the attempt. *)
Theorem delete_named_entry (request : HttpRequest) (uuid : string)
    (deposit : Location.t) (w : World) (filename user_agent : string) :
  let file_path := Fs.join (Location.full_path deposit) [filename] in
  Helpers.get_deposit uuid w = (Return (Some deposit), w) ->
  has_been_submitted_for_processing deposit w = false ->
  method request = "DELETE" ->
  GET request !! "filename" = Some filename ->
  filename <> "" ->
  META request !! "HTTP_USER_AGENT" = Some user_agent ->
  deposit_media request uuid w
  = match fs w !! file_path with
    | Some (Fs.File _) => (Return (response 204), with_fs (delete file_path (fs w)) w)
    | Some Fs.Dir => (Raise (OSError 21), w)
    | None =>
        (Return (error_response 404
                   ("The path to this file (" ++ Fs.render file_path ++ ") does not exist.")
                   w user_agent), w)
    end.
Proof.
  intros file_path Hdep Hopen Hdelete Hparam Hname Hagent.
  unfold deposit_media.
  rewrite (deposit_media_open _ _ _ _ _ _ _ _ Hdep Hopen). rewrite Hdelete.
  change ("DELETE" =? "GET")%string with false.
  change ("DELETE" =? "PUT")%string with false.
  change ("DELETE" =? "POST")%string with false.
  change ("DELETE" =? "DELETE")%string with true. cbv iota.
  rewrite Hparam. unfold default. cbn [from_option id]. cbv zeta.
  apply String.eqb_neq in Hname. rewrite Hname. cbn [negb].
  fold file_path.
  rewrite (bind_return get _ _ _ _ eq_refl).
  unfold Os.path_exists.
  destruct (fs w !! file_path) as [[data|]|] eqn:Hentry.
  - rewrite bool_decide_eq_true_2 by eauto.
    unfold bind, Os.remove. now rewrite Hentry.
  - rewrite bool_decide_eq_true_2 by eauto.
    unfold bind, Os.remove. now rewrite Hentry.
  - rewrite bool_decide_eq_false_2 by (intros [? ?]; discriminate).
    now apply sword_error_response_with_agent.
Qed.

End DeleteNamed.

(** ** What the edit IRI never answers *)

Lemma bind_inv {S A B} (m : py S A) (k : A -> py S B) (s s' : S) (b : B) :
  bind m k s = (Return b, s') ->
  exists a s1, m s = (Return a, s1) /\ k a s1 = (Return b, s').
Proof.
  unfold bind. destruct (m s) as [[a|e] s1]; [|discriminate]. eauto.
Qed.

Lemma error_response_content (request : HttpRequest) (status : Z)
    (summary : string) (w w' : World) (r : HttpResponse) :
  Sword._sword_error_response request status summary w = (Return r, w') ->
  exists update_time user_agent,
    content r = ErrorDocument summary status update_time user_agent.
Proof.
  unfold Sword._sword_error_response, Sword._sword_error_response_render.
  unfold bind, get, ret, raise.
  destruct (META request !! "HTTP_USER_AGENT"); [|discriminate].
  intros [= <- _]. cbn. eauto.
Qed.

Lemma receipt_response_content (request : HttpRequest) (uuid : string)
    (status : Z) (w w' : World) (r : HttpResponse) :
  Sword._deposit_receipt_response request uuid status w = (Return r, w') ->
  content r = DepositReceipt uuid.
Proof.
  unfold Sword._deposit_receipt_response, bind, Helpers.get_deposit, get, ret.
  now intros [= <- _].
Qed.

Section EditAnswers.

Variable downloading_status : LocationDownloadTask.t -> string.
Variable has_been_submitted_for_processing : Location.t -> World -> bool.
Variable pad_destination_filepath_if_it_already_exists : Fs.path -> World -> Fs.path.
Variable mkstemp : World -> Fs.path.
Variable etree_parse : string -> option Sword.mets.

Let deposit_edit :=
  Sword.deposit_edit downloading_status has_been_submitted_for_processing
    pad_destination_filepath_if_it_already_exists mkstemp etree_parse.

(** What [_finalize_or_mark_for_finalization] answers when the request
    carries In-Progress: false: the receipt, or the error of the empty
    deposit. *)
Lemma finalize_answers (request : HttpRequest) (uuid : string) (w w' : World)
    (r : HttpResponse) :
  Sword.in_progress_is_false request = true ->
  Sword._finalize_or_mark_for_finalization downloading_status
    pad_destination_filepath_if_it_already_exists request uuid w = (Return r, w') ->
  content r = DepositReceipt uuid
  \/ exists status update_time user_agent,
       content r = ErrorDocument "This deposit contains no files." status
                     update_time user_agent.
Proof.
  intros Hfinal. unfold Sword._finalize_or_mark_for_finalization. rewrite Hfinal.
  intros Hrun. apply bind_inv in Hrun. destruct Hrun as (status & w1 & _ & Hrun).
  destruct (status =? "complete")%string.
  - apply bind_inv in Hrun. destruct Hrun as ([|] & w2 & _ & Hrun).
    + left. now apply receipt_response_content in Hrun.
    + right. apply error_response_content in Hrun.
      destruct Hrun as (t & a & Hrun). eauto.
  - apply bind_inv in Hrun. destruct Hrun as ([deposit|] & w2 & _ & Hrun).
    + apply bind_inv in Hrun. destruct Hrun as (? & ? & _ & Hrun). discriminate.
    + discriminate.
Qed.

(** X25: the edit IRI never answers with the error that asks for the
    In-Progress header to be set to false, although the code has it: a POST
    without body reaches [_finalize_or_mark_for_finalization] only when the
    header is 'false', and is answered with the deposit receipt
    otherwise. *)
Theorem edit_never_asks_for_in_progress (request : HttpRequest) (uuid : string)
    (w w' : World) (r : HttpResponse) :
  deposit_edit request uuid w = (Return r, w') ->
  forall status update_time user_agent,
    content r <> ErrorDocument in_progress_required status update_time user_agent.
Proof.
  intros Hrun status update_time user_agent Hcontent.
  unfold deposit_edit, Sword.deposit_edit in Hrun.
  apply bind_inv in Hrun. destruct Hrun as ([deposit|] & w1 & _ & Hrun).
  2:{ apply error_response_content in Hrun. destruct Hrun as (t & a & Hrun).
      rewrite Hrun in Hcontent. discriminate. }
  apply bind_inv in Hrun. destruct Hrun as (w2 & w3 & _ & Hrun).
  destruct (has_been_submitted_for_processing deposit w2).
  { apply error_response_content in Hrun. destruct Hrun as (t & a & Hrun).
    rewrite Hrun in Hcontent. discriminate. }
  destruct (method request =? "GET")%string.
  { apply bind_inv in Hrun. destruct Hrun as ([found|] & w4 & _ & Hrun);
      [|discriminate].
    injection Hrun as <- _. discriminate. }
  destruct (method request =? "POST")%string.
  { destruct (negb (body request =? "")%string).
    - apply bind_inv in Hrun. destruct Hrun as ([mets_data|] & w4 & _ & Hrun);
        [|discriminate].
      apply bind_inv in Hrun. destruct Hrun as (? & w5 & _ & Hrun).
      apply receipt_response_content in Hrun. rewrite Hrun in Hcontent. discriminate.
    - destruct (Sword.in_progress_is_false request) eqn:Hfinal.
      + destruct (finalize_answers _ _ _ _ _ Hfinal Hrun) as [Hr | (s & t & a & Hr)];
          rewrite Hr in Hcontent; discriminate.
      + apply receipt_response_content in Hrun. rewrite Hrun in Hcontent.
        discriminate. }
  destruct (method request =? "PUT")%string.
  { injection Hrun as <- _. discriminate. }
  destruct (method request =? "DELETE")%string.
  { apply bind_inv in Hrun. destruct Hrun as (? & w4 & _ & Hrun).
    apply bind_inv in Hrun. destruct Hrun as ([found|] & w5 & _ & Hrun);
      [|discriminate].
    apply bind_inv in Hrun. destruct Hrun as (? & w6 & _ & Hrun).
    injection Hrun as <- _. discriminate. }
  apply error_response_content in Hrun. destruct Hrun as (t & a & Hrun).
  rewrite Hrun in Hcontent. discriminate.
Qed.

(** A POST without body whose In-Progress header is not 'false' (or is
    missing) changes nothing and is answered with the deposit receipt. *)
Lemma edit_post_in_progress (request : HttpRequest) (uuid : string)
    (deposit : Location.t) (w : World) :
  Helpers.get_deposit uuid w = (Return (Some deposit), w) ->
  has_been_submitted_for_processing deposit w = false ->
  method request = "POST" ->
  body request = "" ->
  Sword.in_progress_is_false request = false ->
  deposit_edit request uuid w = (Return (deposit_receipt uuid 200), w).
Proof.
  intros Hdep Hopen Hpost Hbody Hfinal.
  unfold deposit_edit, Sword.deposit_edit.
  rewrite (bind_return _ _ _ _ _ Hdep).
  rewrite (bind_return get _ _ _ _ eq_refl). rewrite Hopen, Hpost, Hbody, Hfinal.
  reflexivity.
Qed.

End EditAnswers.

(** ** Uploads without a file name *)

Section UploadWithoutName.

Variable mkstemp : World -> Fs.path.
Variable md5 : string -> string.
Variable parse_filename_from_content_disposition : string -> string.

Let handle_upload :=
  Sword._handle_upload_request mkstemp md5 parse_filename_from_content_disposition.

(** X26: an upload that names no file is refused with 400 before anything
    is written, whether it adds or replaces: "Content-disposition must be
    set in request header." without the header, "No filename found in
    Content-disposition header." when the header yields no name.  The world
    is as it was. *)
Theorem upload_without_filename_refused (request : HttpRequest)
    (deposit : Location.t) (replace_file : bool) (w : World) (user_agent : string) :
  upload_filename parse_filename_from_content_disposition request = None ->
  META request !! "HTTP_USER_AGENT" = Some user_agent ->
  handle_upload request deposit replace_file w
  = (Return (error_response 400
               (match META request !! "HTTP_CONTENT_DISPOSITION" with
                | Some _ => "No filename found in Content-disposition header."
                | None => "Content-disposition must be set in request header."
                end) w user_agent), w).
Proof.
  unfold upload_filename, handle_upload, Sword._handle_upload_request.
  intros Hname Hagent.
  destruct (META request !! "HTTP_CONTENT_DISPOSITION") as [disposition|].
  - cbv zeta in Hname |- *.
    destruct (parse_filename_from_content_disposition disposition =? "")%string;
      [|discriminate].
    cbn [negb]. now apply sword_error_response_with_agent.
  - now apply sword_error_response_with_agent.
Qed.

End UploadWithoutName.

(** ** The description of a location *)

Lemma render_not_empty (p : Fs.path) : p <> [] -> Fs.render p <> "".
Proof. destruct p as [|segment p]; [congruence|]. intros _. discriminate. Qed.

(** X27: [get_description] is the description when there is one that is
    not empty, and the full path otherwise; so it is never empty for a
    location whose full path has a segment. *)
Theorem get_description_not_blank (self : Location.t) :
  Location.full_path self <> [] ->
  LocationMethods.get_description self <> ""
  /\ (forall description,
        Location.description self = Some description -> description <> "" ->
        LocationMethods.get_description self = description)
  /\ (Location.description self = None \/ Location.description self = Some "" ->
      LocationMethods.get_description self = Fs.render (Location.full_path self)).
Proof.
  intros Hpath. unfold LocationMethods.get_description.
  pose proof (render_not_empty _ Hpath) as Hrender.
  destruct (Location.description self) as [description|].
  - destruct (description =? "")%string eqn:E.
    + apply String.eqb_eq in E. subst description.
      split; [exact Hrender|]. split; [|reflexivity].
      intros d [= <-] Hd. now contradiction Hd.
    + apply String.eqb_neq in E.
      split; [exact E|]. split.
      * now intros d [= <-] _.
      * intros [H | [= H]]; [discriminate | now contradiction E].
  - split; [exact Hrender|]. split; [discriminate | reflexivity].
Qed.

(** * Further properties on concrete deposits *)

Import Cases.

(** The state of a deposit with a batch still running. *)
Lemma deposit_state_get_witness :
  Helpers.get_deposit "deposit-1" world_pending
    = (Return (Some deposit0), world_pending)
  /\ method state_request = "GET"
  /\ State.deposit_state task_status state_request "deposit-1" world_pending
     = (Return {| Page.status_code := 200;
                  Page.content :=
                    Page.State "incomplete" "Deposit initiation: incomplete";
                  Page.headers := [("Content-Type", "application/atom+xml;type=feed")] |},
        world_pending).
Proof.
  split; [reflexivity|]. split; [reflexivity|].
  rewrite (deposit_state_get task_status state_request "deposit-1" deposit0
             world_pending eq_refl eq_refl).
  reflexivity.
Defined.

(** Replacing new.jpg, which is not in the deposit. *)
Lemma upload_target_precondition_witness :
  upload_filename parse_filename_from_content_disposition replace_request
    = Some "new.jpg"
  /\ META replace_request !! "HTTP_USER_AGENT" = Some agent
  /\ Os.path_exists new_file (fs world0) = false
  /\ Sword._handle_upload_request mkstemp md5 parse_filename_from_content_disposition
       replace_request deposit0 true world0
     = (Return (error_response 400 "File does not exist." world0 agent), world0).
Proof.
  split; [reflexivity|]. split; [reflexivity|]. split; [reflexivity|].
  exact (upload_target_precondition mkstemp md5 parse_filename_from_content_disposition
           replace_request deposit0 true world0 "new.jpg" agent
           eq_refl eq_refl eq_refl).
Defined.


(** new.jpg is added, then replaced. *)
Lemma add_then_replace_witness :
  fs world0 !! new_file = None
  /\ checksum_accepted md5 upload_right_digest = true
  /\ checksum_accepted md5 replace_request = true
  /\ (Sword._handle_upload_request mkstemp md5 parse_filename_from_content_disposition
        upload_right_digest deposit0 false ;;;
      Sword._handle_upload_request mkstemp md5 parse_filename_from_content_disposition
        replace_request deposit0 true) world0
     = (Return (response 204), with_fs (<[new_file := Fs.File "bye"]> disk) world0).
Proof.
  split; [reflexivity|]. split; [reflexivity|]. split; [reflexivity|].
  refine (add_then_replace mkstemp md5 parse_filename_from_content_disposition
            upload_right_digest replace_request deposit0 world0 "new.jpg"
            eq_refl eq_refl eq_refl eq_refl eq_refl eq_refl _ eq_refl).
  discriminate.
Defined.

(** new.jpg is added, then deleted. *)
Lemma add_then_delete_restores_witness :
  let stored := with_fs (<[new_file := Fs.File "hello"]> disk) world0 in
  Helpers.get_deposit "deposit-1" world0 = (Return (Some deposit0), world0)
  /\ relocated deposit0 world0 = false
  /\ relocated deposit0 stored = false
  /\ GET delete_file_request !! "filename" = Some "new.jpg"
  /\ fs world0 !! new_file = None
  /\ Sword.deposit_media relocated mkstemp md5 parse_filename_from_content_disposition
       upload_right_digest "deposit-1" world0
     = (Return (response 201), stored)
  /\ Sword.deposit_media relocated mkstemp md5 parse_filename_from_content_disposition
       delete_file_request "deposit-1" stored
     = (Return (response 204), world0).
Proof.
  intros stored. split; [reflexivity|]. split; [reflexivity|].
  split; [reflexivity|]. split; [reflexivity|]. split; [reflexivity|].
  refine (add_then_delete_restores relocated mkstemp md5
            parse_filename_from_content_disposition
            upload_right_digest delete_file_request "deposit-1" deposit0 world0
            "new.jpg" eq_refl eq_refl eq_refl eq_refl eq_refl eq_refl eq_refl
            eq_refl eq_refl eq_refl _).
  discriminate.
Defined.

(** The deposit directory, which holds joke.jpg, is emptied. *)
Lemma delete_all_empties_directory_witness :
  Helpers.get_deposit "deposit-1" world0 = (Return (Some deposit0), world0)
  /\ relocated deposit0 world0 = false
  /\ Os.listdir (Location.full_path deposit0) world0 = (Return ["joke.jpg"], world0)
  /\ exists w',
       Sword.deposit_media relocated mkstemp md5 parse_filename_from_content_disposition
         delete_all_request "deposit-1" world0
       = (Return (response 204), w')
       /\ Os.listdir (Location.full_path deposit0) w' = (Return [], w')
       /\ fs w' !! ["tmp"] = Some Fs.Dir.
Proof.
  split; [reflexivity|]. split; [reflexivity|]. split; [reflexivity|].
  destruct (delete_all_empties_directory relocated mkstemp md5
              parse_filename_from_content_disposition
              delete_all_request "deposit-1" deposit0 world0
              eq_refl eq_refl eq_refl eq_refl eq_refl)
    as (w' & Hrun & Hempty & Houtside & _).
  exists w'. split; [exact Hrun|]. split; [exact Hempty|].
  now rewrite (Houtside ["tmp"] eq_refl).
Defined.

(** The deposit is deleted; the listing request then finds nothing. *)
Lemma delete_deposit_removes_witness :
  Helpers.get_deposit "deposit-1" world0 = (Return (Some deposit0), world0)
  /\ relocated deposit0 world0 = false
  /\ exists w',
       Sword.deposit_edit task_status relocated pad mkstemp etree_parse
         delete_all_request "deposit-1" world0
       = (Return (response 204), w')
       /\ fs w' !! ["var"; "deposits"; "MyDeposit"; "joke.jpg"] = None
       /\ fs w' !! ["var"; "deposits"] = Some Fs.Dir
       /\ Helpers.get_deposit "deposit-1" w' = (Return None, w')
       /\ Sword.deposit_media relocated mkstemp md5 parse_filename_from_content_disposition
            listing_request "deposit-1" w'
          = (Return (error_response 404 "Deposit location deposit-1 does not exist."
                       w' agent), w').
Proof.
  split; [reflexivity|]. split; [reflexivity|].
  destruct (delete_deposit_removes task_status relocated pad mkstemp md5
              parse_filename_from_content_disposition etree_parse
              delete_all_request "deposit-1" deposit0 world0
              eq_refl eq_refl eq_refl eq_refl)
    as (w' & Hrun & Hinside & Houtside & Hgone & Hlater).
  exists w'. split; [exact Hrun|].
  split; [apply Hinside; now exists ["joke.jpg"]|].
  split; [now rewrite (Houtside ["var"; "deposits"] eq_refl)|].
  split; [exact Hgone|].
  exact (proj2 (Hlater listing_request agent eq_refl)).
Defined.

(** The pipeline approves: the deposit directory is under the watched
    directory afterwards. *)
Lemma activate_relocates_witness :
  configured pipeline0 = true
  /\ fs world0 !! Location.full_path deposit0 = Some Fs.Dir
  /\ nothing_at (watched ++ ["MyDeposit"])%list (fs world0) = true
  /\ exists w',
       Sword._activate_transfer_and_request_approval_from_pipeline
         pad deposit0 sword_server0 world0 = (Return approval, w')
       /\ fs w' !! (watched ++ ["MyDeposit"; "joke.jpg"])%list = Some (Fs.File "hello")
       /\ fs w' !! ["var"; "deposits"; "MyDeposit"; "joke.jpg"] = None
       /\ requests_sent w'
          = [("http://192.168.1.10/api/transfer/approve/",
              [("username", "demo"); ("api_key", "secret");
               ("directory", "MyDeposit"); ("type", "standard")])]
       /\ locations w' = locations world0.
Proof.
  split; [reflexivity|]. split; [reflexivity|].
  assert (nothing_at (watched ++ ["MyDeposit"])%list (fs world0) = true) as Hfree
    by (vm_compute; reflexivity).
  split; [exact Hfree|].
  destruct (activate_relocates pad deposit0 sword_server0 processing0 world0 approval
              eq_refl eq_refl eq_refl Hfree eq_refl eq_refl)
    as (w' & Hrun & Hmoved & Hgone & Hsent & Hrows & _).
  exists w'. split; [exact Hrun|].
  split; [exact (Hmoved ["joke.jpg"])|].
  split; [exact (Hgone ["joke.jpg"])|].
  split; [exact Hsent | exact Hrows].
Defined.

(** No processing location is registered for the pipeline. *)
Lemma activate_without_processing_location_witness :
  configured pipeline0 = true
  /\ Sword._activate_transfer_and_request_approval_from_pipeline
       pad deposit0 sword_server0 world_without_processing
     = (Raise DoesNotExist, world_without_processing).
Proof.
  split; [reflexivity|].
  refine (activate_without_processing_location pad deposit0 sword_server0
            world_without_processing eq_refl _).
  discriminate.
Defined.

(** The pipeline refuses the transfer. *)
Lemma finalize_when_pipeline_reports_error_witness :
  Helpers.get_deposit "deposit-1" world_refusing
    = (Return (Some deposit0), world_refusing)
  /\ Os.listdir (Location.full_path deposit0) world_refusing
     = (Return ["joke.jpg"], world_refusing)
  /\ refuses (approval_url pipeline0)
       (approval_data pipeline0 (watched ++ ["MyDeposit"])%list) = Some refusal
  /\ is_Some (refusal !! "error")
  /\ exists w',
       Sword._finalize_if_not_empty pad "deposit-1" world_refusing
       = (Raise (NameError "request"), w')
       /\ fs w' !! Location.full_path deposit0 = None
       /\ fs w' !! (watched ++ ["MyDeposit"])%list = Some Fs.Dir
       /\ locations w' = locations world_refusing.
Proof.
  split; [reflexivity|]. split; [reflexivity|]. split; [reflexivity|].
  assert (is_Some (refusal !! "error")) as Herror by (exists (JBool true); reflexivity).
  split; [exact Herror|].
  assert (nothing_at (watched ++ ["MyDeposit"])%list (fs world_refusing) = true)
    as Hfree by (vm_compute; reflexivity).
  refine (finalize_when_pipeline_reports_error pad "deposit-1" deposit0 ["joke.jpg"]
            sword_server0 processing0 world_refusing refusal
            eq_refl eq_refl _ eq_refl eq_refl eq_refl Hfree eq_refl eq_refl Herror).
  discriminate.
Defined.

(** The pipeline does not answer. *)
Lemma finalize_when_pipeline_unreachable_witness :
  Helpers.get_deposit "deposit-1" world_pipeline_down
    = (Return (Some deposit0), world_pipeline_down)
  /\ Os.listdir (Location.full_path deposit0) world_pipeline_down
     = (Return ["joke.jpg"], world_pipeline_down)
  /\ exists w',
       Sword._finalize_if_not_empty pad "deposit-1" world_pipeline_down
       = (Raise (NameError "request"), w')
       /\ fs w' = fs world_pipeline_down
       /\ Helpers.get_deposit "deposit-1" w' = (Return (Some deposit0), w').
Proof.
  split; [reflexivity|]. split; [reflexivity|].
  assert (nothing_at (watched ++ ["MyDeposit"])%list (fs world_pipeline_down) = true)
    as Hfree by (vm_compute; reflexivity).
  assert (["joke.jpg"] <> []) as Hnames by discriminate.
  destruct (finalize_when_pipeline_unreachable pad "deposit-1" deposit0 ["joke.jpg"]
              sword_server0 processing0 world_pipeline_down
              eq_refl eq_refl Hnames eq_refl eq_refl eq_refl Hfree eq_refl eq_refl)
    as (w' & Hrun & Hfs & _ & Hdep).
  exists w'. auto.
Defined.

(** A finalize request while a batch of two downloads is running. *)
Lemma finalize_request_deferred_witness :
  Sword.in_progress_is_false finalize_request = true
  /\ Helpers.get_deposit "deposit-1" world_pending
     = (Return (Some deposit0), world_pending)
  /\ Sword.deposit_downloading_status task_status "deposit-1" world_pending
     = (Return "incomplete", world_pending)
  /\ exists w',
       Sword._finalize_or_mark_for_finalization task_status pad
         finalize_request "deposit-1" world_pending = (Raise (NameError "uuid"), w')
       /\ Helpers.get_deposit "deposit-1" w' = (Return (Some deposit_ready), w')
       /\ fs w' = fs world_pending.
Proof.
  split; [reflexivity|]. split; [reflexivity|]. split; [reflexivity|].
  assert (aggregate_status task_status
            (filter (fun t => LocationDownloadTask.location t = Location.uuid deposit0)
                    (download_tasks world_pending)) <> "complete") as Hstatus
    by discriminate.
  destruct (finalize_request_deferred task_status pad finalize_request "deposit-1"
              deposit0 world_pending eq_refl eq_refl Hstatus)
    as (w' & Hrun & Hflag & Hfs & _).
  exists w'. auto.
Defined.

(** A batch of two downloads that both arrive. *)
Lemma batch_completed_at_most_attempted_witness :
  Helpers.get_deposit "deposit-1" world0 = (Return (Some deposit0), world0)
  /\ (Race.start mkdtemp download_resource "deposit-1" ["a.bin"; "b.bin"] world0).1
     = Return (Race.AtRecord "deposit-1" deposit0 first_task 2)
  /\ exists out w1,
       Race.start mkdtemp download_resource "deposit-1" ["a.bin"; "b.bin"] world0
       = (out, w1)
       /\ ((exists task completed,
              out = Return (Race.AtRecord "deposit-1" deposit0 task completed)
              /\ LocationDownloadTask.downloads_attempted task = 2
              /\ 0 <= completed <= LocationDownloadTask.downloads_attempted task)
           \/ exists errno, out = Raise (OSError errno)).
Proof.
  split; [reflexivity|]. split; [vm_compute; reflexivity|].
  exact (batch_completed_at_most_attempted mkdtemp download_resource "deposit-1"
           ["a.bin"; "b.bin"] deposit0 world0 eq_refl).
Defined.

(** The deposit is not flagged when the batch starts: the batch records
    its two downloads and ends. *)
Lemma stale_flag_never_finalizes_witness :
  Location.ready_for_finalization deposit0 = false
  /\ exists w1,
       Race.start mkdtemp download_resource "deposit-1" ["a.bin"; "b.bin"] world0
       = (Return (Race.AtRecord "deposit-1" deposit0 first_task 2), w1)
       /\ Sword._fetch_content task_status pad mkdtemp download_resource
            "deposit-1" ["a.bin"; "b.bin"] world0
          = (Return tt,
             with_download_tasks
               (map (fun r =>
                       if bool_decide (LocationDownloadTask.id r = 1%nat)
                       then {| LocationDownloadTask.id := 1;
                               LocationDownloadTask.location := "deposit-1";
                               LocationDownloadTask.downloads_attempted := 2;
                               LocationDownloadTask.downloads_completed := 2;
                               LocationDownloadTask.download_completion_time :=
                                 Some (clock w1) |}
                       else r) (download_tasks w1)) w1).
Proof.
  split; [reflexivity|].
  assert ((Race.start mkdtemp download_resource "deposit-1" ["a.bin"; "b.bin"] world0).1
          = Return (Race.AtRecord "deposit-1" deposit0 first_task 2)) as Hstart
    by (vm_compute; reflexivity).
  destruct (Race.start mkdtemp download_resource "deposit-1" ["a.bin"; "b.bin"] world0)
    as [next w1] eqn:Hrun.
  cbn [fst] in Hstart. subst next.
  exists w1. split; [reflexivity|].
  exact (stale_flag_never_finalizes task_status pad mkdtemp download_resource
           "deposit-1" ["a.bin"; "b.bin"] deposit0 first_task 2 world0 w1
           Hrun eq_refl).
Defined.

(** The METS document arrives with In-Progress: false. *)
Lemma edit_post_mets_spawns_batch_witness :
  Helpers.get_deposit "deposit-1" world0 = (Return (Some deposit0), world0)
  /\ relocated deposit0 world0 = false
  /\ parse_mets (body mets_request)
     = Some {| Sword.deposit_name := Some "My Deposit";
               Sword.object_content_urls := ["a.bin"] |}
  /\ META mets_request !! "HTTP_IN_PROGRESS" = Some "false"
  /\ exists w',
       Sword.deposit_edit task_status relocated pad mkstemp parse_mets
         mets_request "deposit-1" world0
       = (Return (deposit_receipt "deposit-1" 200), w')
       /\ spawned w' = [("deposit-1", ["a.bin"])]
       /\ Helpers.get_deposit "deposit-1" w' = (Return (Some deposit_ready), w')
       /\ fs w' !! mkstemp world0 = Some (Fs.File mets_document).
Proof.
  split; [reflexivity|]. split; [reflexivity|]. split; [reflexivity|].
  split; [reflexivity|].
  assert (body mets_request <> "") as Hbody by discriminate.
  destruct (edit_post_mets_spawns_batch task_status relocated pad mkstemp parse_mets
              mets_request "deposit-1" deposit0
              {| Sword.deposit_name := Some "My Deposit";
                 Sword.object_content_urls := ["a.bin"] |}
              "false" world0 eq_refl eq_refl eq_refl Hbody eq_refl eq_refl)
    as (w' & Hrun & Hspawned & Hflag & Hfs & _).
  exists w'. split; [exact Hrun|]. split; [exact Hspawned|]. split; [exact Hflag|].
  rewrite Hfs. reflexivity.
Defined.

(** A body that is not XML, and the METS document without the In-Progress
    header. *)
Lemma edit_post_body_failures_witness :
  parse_mets (body garbage_request) = None
  /\ META mets_request_without_header !! "HTTP_IN_PROGRESS" = None
  /\ Sword.deposit_edit task_status relocated pad mkstemp parse_mets
       garbage_request "deposit-1" world0
     = (Raise (NameError "e"),
        with_fs (<[mkstemp world0 := Fs.File "not xml"]> disk) world0)
  /\ Sword.deposit_edit task_status relocated pad mkstemp parse_mets
       mets_request_without_header "deposit-1" world0
     = (Raise (KeyError "HTTP_IN_PROGRESS"),
        with_fs (<[mkstemp world0 := Fs.File mets_document]> disk) world0).
Proof.
  split; [reflexivity|]. split; [reflexivity|].
  assert (body garbage_request <> "") as Hgarbage by discriminate.
  assert (body mets_request_without_header <> "") as Hmets by discriminate.
  split.
  - exact (edit_post_body_failures task_status relocated pad mkstemp parse_mets
             garbage_request "deposit-1" deposit0 world0
             eq_refl eq_refl eq_refl Hgarbage (or_introl eq_refl)).
  - exact (edit_post_body_failures task_status relocated pad mkstemp parse_mets
             mets_request_without_header "deposit-1" deposit0 world0
             eq_refl eq_refl eq_refl Hmets (or_intror eq_refl)).
Defined.

(** The directory of the storage location is a regular file. *)
Lemma store_aip_blocked_by_file_witness :
  Os.path_isfile ["var"; "deposits"; "aips"] (fs world_blocked) = true
  /\ LocalFilesystem.store_aip uuid_to_path rsync_fails local_backend aip0 world_blocked
     = (Return (Some (-1)), world_blocked)
  /\ NFS.store_aip uuid_to_path rsync_fails nfs_backend aip0 world_blocked
     = (Return (Some (-1)), world_blocked).
Proof.
  split; [reflexivity|].
  destruct (store_aip_blocked_by_file uuid_to_path rsync_fails local_backend
              nfs_backend aip0 world_blocked eq_refl) as [Hlocal Hnfs].
  split; [exact (Hlocal eq_refl) | exact (Hnfs eq_refl)].
Defined.

(** The storage location has no directory yet: it is created, with the
    two levels below it, before rsync runs. *)
Lemma store_aip_prepares_directory_witness :
  fs world0 !! ["var"; "deposits"; "aips"; "0123"; "abcd"] = None
  /\ exists w1,
       fs w1 !! ["var"; "deposits"; "aips"; "0123"; "abcd"] = Some Fs.Dir
       /\ fs w1 !! ["var"; "deposits"; "MyDeposit"; "joke.jpg"] = Some (Fs.File "hello")
       /\ LocalFilesystem.store_aip uuid_to_path rsync_fails local_backend aip0 world0
          = (Return None, w1)
       /\ NFS.store_aip uuid_to_path rsync_fails nfs_backend aip0 world0
          = (Return None, w1).
Proof.
  split; [reflexivity|].
  destruct (store_aip_prepares_directory uuid_to_path rsync_fails local_backend
              nfs_backend aip0 world0 eq_refl eq_refl)
    as (w1 & Hdir & Hkeep & Hlocal & Hnfs).
  exists w1. split; [exact Hdir|].
  split; [apply Hkeep; reflexivity|].
  split; [exact (Hlocal eq_refl) | exact (Hnfs eq_refl)].
Defined.

(** new.jpg is added to the deposit that holds joke.jpg, and listed. *)
Lemma upload_then_list_witness :
  Helpers.get_deposit "deposit-1" world0 = (Return (Some deposit0), world0)
  /\ relocated deposit0 world0 = false
  /\ Os.listdir (Location.full_path deposit0) world0 = (Return ["joke.jpg"], world0)
  /\ exists names,
       (Sword.deposit_media relocated mkstemp md5 parse_filename_from_content_disposition
          upload_right_digest "deposit-1" ;;;
        Sword.deposit_media relocated mkstemp md5 parse_filename_from_content_disposition
          listing_request "deposit-1") world0
       = (Return {| status_code := 200; content := Listing names; headers := [] |},
          with_fs (<[new_file := Fs.File "hello"]> disk) world0)
       /\ names ≡ₚ ["new.jpg"; "joke.jpg"].
Proof.
  split; [reflexivity|]. split; [reflexivity|]. split; [reflexivity|].
  assert (mkstemp world0 <> Fs.join (Location.full_path deposit0) ["new.jpg"]) as Hne
    by discriminate.
  exact (upload_then_list relocated mkstemp md5 parse_filename_from_content_disposition
           upload_right_digest listing_request "deposit-1" deposit0 world0 "new.jpg"
           eq_refl eq_refl eq_refl eq_refl eq_refl eq_refl eq_refl eq_refl eq_refl
           eq_refl Hne).
Defined.

(** No deposit has the identifier deposit-9. *)
Lemma unknown_deposit_not_found_witness :
  let gone := error_response 404 "Deposit location deposit-9 does not exist."
                world0 agent in
  Helpers.get_deposit "deposit-9" world0 = (Return None, world0)
  /\ Sword.deposit_edit task_status relocated pad mkstemp etree_parse
       listing_request "deposit-9" world0 = (Return gone, world0)
  /\ Sword.deposit_media relocated mkstemp md5 parse_filename_from_content_disposition
       listing_request "deposit-9" world0 = (Return gone, world0)
  /\ State.deposit_state task_status listing_request "deposit-9" world0
     = (Return (Page.of_response gone), world0)
  /\ Sword.deposit_downloading_status task_status "deposit-9" world0
     = (Return "complete", world0).
Proof.
  intros gone. split; [reflexivity|].
  exact (unknown_deposit_not_found task_status relocated pad mkstemp md5
           parse_filename_from_content_disposition etree_parse
           listing_request "deposit-9" agent world0 eq_refl eq_refl).
Defined.


(** joke.jpg is deleted by name: the deposit directory is empty
    afterwards. *)
Lemma delete_named_entry_witness :
  Helpers.get_deposit "deposit-1" world0 = (Return (Some deposit0), world0)
  /\ relocated deposit0 world0 = false
  /\ GET delete_joke_request !! "filename" = Some "joke.jpg"
  /\ Sword.deposit_media relocated mkstemp md5 parse_filename_from_content_disposition
       delete_joke_request "deposit-1" world0
     = (Return (response 204), world_no_files).
Proof.
  split; [reflexivity|]. split; [reflexivity|]. split; [reflexivity|].
  assert ("joke.jpg" <> "") as Hname by discriminate.
  exact (delete_named_entry relocated mkstemp md5 parse_filename_from_content_disposition
           delete_joke_request "deposit-1" deposit0 world0 "joke.jpg" agent
           eq_refl eq_refl eq_refl eq_refl Hname eq_refl).
Defined.

(** A POST without body and with In-Progress: true. *)
Lemma edit_never_asks_for_in_progress_witness :
  Sword.deposit_edit task_status relocated pad mkstemp etree_parse
    continue_request "deposit-1" world0
  = (Return (deposit_receipt "deposit-1" 200), world0)
  /\ forall status update_time user_agent,
       content (deposit_receipt "deposit-1" 200)
       <> ErrorDocument in_progress_required status update_time user_agent.
Proof.
  assert (Sword.deposit_edit task_status relocated pad mkstemp etree_parse
            continue_request "deposit-1" world0
          = (Return (deposit_receipt "deposit-1" 200), world0)) as Hrun
    by reflexivity.
  split; [exact Hrun|].
  exact (edit_never_asks_for_in_progress task_status relocated pad mkstemp etree_parse
           continue_request "deposit-1" world0 world0 _ Hrun).
Defined.

(** An upload without Content-Disposition header. *)
Lemma upload_without_filename_refused_witness :
  upload_filename parse_filename_from_content_disposition nameless_upload = None
  /\ Sword._handle_upload_request mkstemp md5 parse_filename_from_content_disposition
       nameless_upload deposit0 false world0
     = (Return (error_response 400 "Content-disposition must be set in request header."
                  world0 agent), world0).
Proof.
  split; [reflexivity|].
  exact (upload_without_filename_refused mkstemp md5
           parse_filename_from_content_disposition nameless_upload deposit0 false
           world0 agent eq_refl eq_refl).
Defined.

(** The processing location has no description: its path is shown. *)
Lemma get_description_not_blank_witness :
  Location.description processing0 = None
  /\ LocationMethods.get_description processing0 = "/var/pipeline/currentlyProcessing"
  /\ LocationMethods.get_description deposit0 = "My Deposit".
Proof.
  assert (Location.full_path processing0 <> []) as Hprocessing by discriminate.
  assert (Location.full_path deposit0 <> []) as Hdeposit by discriminate.
  split; [reflexivity|]. split.
  - rewrite (proj2 (proj2 (get_description_not_blank processing0 Hprocessing))
               (or_introl eq_refl)).
    reflexivity.
  - assert ("My Deposit" <> "") as Hname by discriminate.
    exact (proj1 (proj2 (get_description_not_blank deposit0 Hdeposit))
             "My Deposit" eq_refl Hname).
Defined.
